(** * Flower-shop storefront: cart, checkout and admin order workflow

    A shallow embedding of the TypeScript sources

    - [App.tsx]          (cart handlers and [handleCheckout]),
    - [CartPage.tsx]     (the totals shown before checkout),
    - [cartService.ts]   ([updateCartQuantity], [removeFromCart]),
    - [AdminOrders.tsx]  (status, accept, driver and delete handlers),

    together with the properties of the checkout / order workflow that the
    specification states about them.

    Modelling conventions.

    - JavaScript numbers that hold prices and quantities are integers [Z]
      (the [products.price], [order_items.price] and [quantity] columns are
      [integer]); on integers [Math.round] is the identity.
    - React state is a record; a handler reads the state it closed over when
      it starts and its [setX(prev => ...)] updates act on the current state.
    - [await]ed calls run in sequence; a handler runs to completion.
    - Every request to the backend is recorded, with the answer it got, in a
      trace.  How the backend answers is a parameter of the world (a
      [policy]), so that a theorem quantified over worlds covers every
      behaviour of the backend: applying a request, returning an error,
      reporting success without applying it (a row-level-security filter), or
      rejecting the promise.
    - [console.log] / [console.error] are not modelled. *)

From Stdlib Require Import String Ascii ZArith List Bool Lia DecimalString
  DecimalNat.
Import ListNotations.

Local Open Scope string_scope.
Local Open Scope Z_scope.

(* ===================================================================== *)
(** ** JavaScript helpers                                                 *)
(* ===================================================================== *)

(** Truthiness of a JS string: only the empty string is falsy. *)
Definition truthy (s : string) : bool := negb (String.eqb s "").

(** [a || b] where [a] is a string that may be [undefined] / [null]. *)
Definition js_or (a : option string) (b : string) : string :=
  match a with
  | Some s => if truthy s then s else b
  | None => b
  end.

(** [a ?? b]. *)
Definition nullish {A : Type} (a : option A) (b : A) : A :=
  match a with
  | Some x => x
  | None => b
  end.

(** [if (a)] for a string that may be [null]. *)
Definition truthy_opt (a : option string) : bool :=
  match a with
  | Some s => truthy s
  | None => false
  end.

(** [l.includes(x)] on an array of strings. *)
Definition includes (l : list string) (x : string) : bool :=
  existsb (String.eqb x) l.

(** [String(n)] for a natural number. *)
Definition String_of_nat (n : nat) : string :=
  NilZero.string_of_uint (Nat.to_uint n).

(** [String(z)] for an integer. *)
Definition String_of_Z (z : Z) : string :=
  NilZero.string_of_int (Z.to_int z).

Fixpoint repeat_char (c : Ascii.ascii) (n : nat) : string :=
  match n with
  | O => EmptyString
  | S k => String c (repeat_char c k)
  end.

(** [s.padStart(n, c)] for a one-character pad string. *)
Definition padStart (n : nat) (c : Ascii.ascii) (s : string) : string :=
  repeat_char c (n - String.length s) ++ s.

(** JavaScript numbers. The amounts of the program (prices, quantities,
    totals) are integers held in IEEE 754 doubles, and [+] and [*] round
    the exact result to the nearest double, ties to the even significand.
    An integer of magnitude up to [2^53] is a double; a larger one is
    rounded to 53 significant bits. Overflow to [Infinity] starts at
    [2^1024], out of reach of sums of products of [integer] columns. *)
Definition max_safe : Z := 9007199254740992.

Definition js_number (z : Z) : Z :=
  if Z.abs z <=? max_safe then z
  else
    let e := Z.log2 (Z.abs z) - 52 in
    let q := Z.abs z / 2 ^ e in
    let r := Z.abs z mod 2 ^ e in
    let half := 2 ^ (e - 1) in
    let q' :=
      if r <? half then q
      else if half <? r then q + 1
      else if Z.even q then q else q + 1 in
    Z.sgn z * (q' * 2 ^ e).

(** [a + b] and [a * b] on numbers. *)
Definition js_add (a b : Z) : Z := js_number (a + b).
Definition js_mul (a b : Z) : Z := js_number (a * b).

(* ===================================================================== *)
(** ** Data model                                                         *)
(* ===================================================================== *)

Module Product.
(** [interface Product] of [data/products.ts]. *)
Record t : Type := mk
    { id : string;
      name : string;
      price : Z;
      image : option string;
      categories : list string;
      badge : option string }.
End Product.

Module CartItem.
(** [interface CartItem] of [App.tsx]. *)
Record t : Type := mk
    { product : Product.t;
      quantity : Z }.
End CartItem.

Module UserData.
Record t : Type := mk
    { fullName : string;
      email : string;
      phone : string;
      address : option string }.
End UserData.

Inductive Status : Type := Pending | Confirmed | Preparing | Ready | Delivered.
Inductive Payment : Type := Cash | Card.

Module Order.
(** [interface Order] of [App.tsx].  [deliveryOption] is declared as
      ["delivery" | "pickup"] but is filled from an untyped value, so it is
      a string here. *)
Record t : Type := mk
    { id : string;
      name : string;
      orderId : string;
      items : list CartItem.t;
      totalAmount : Z;
      phone : string;
      date : string;
      status : Status;
      payment : Payment;
      driver : string;
      deliveryAddress : option string;
      deliveryOption : string }.

Definition set_status (s : Status) (o : t) : t :=
    mk (id o) (name o) (orderId o) (items o) (totalAmount o) (phone o)
       (date o) s (payment o) (driver o) (deliveryAddress o)
       (deliveryOption o).

Definition set_driver (d : string) (o : t) : t :=
    mk (id o) (name o) (orderId o) (items o) (totalAmount o) (phone o)
       (date o) (status o) (payment o) d (deliveryAddress o)
       (deliveryOption o).
End Order.

Module DeliveryInfo.
(** The second argument of [handleCheckout] ([deliveryInfo?: any]); only
      the two properties the handler reads are kept. *)
Record t : Type := mk
    { address : option string;
      deliveryOption : option string }.
End DeliveryInfo.

Module Driver.
(** [interface Driver] of [driverService.ts], restricted to the fields
      [AdminOrders] reads. *)
Record t : Type := mk
    { id : string;
      profileId : string;
      name : string }.
End Driver.

(** A backend error object. Absent properties are the empty string. *)
Module Err.
Record t : Type := mk
    { message : string;
      error_description : string;
      details : string }.
End Err.

(** [new Error(msg)]. *)
Definition Error (msg : string) : Err.t := Err.mk msg "" "".

(* --------------------------------------------------------------------- *)
(** *** Rows of the backend tables ([db/migrations/001_init.sql])         *)
(* --------------------------------------------------------------------- *)

Module OrderPayload.
(** [orderPayload] of [handleCheckout]. *)
Record t : Type := mk
    { user_id : option string;
      order_number : string;
      total_amount : Z;
      phone : string;
      date : string;
      status : Status;
      payment : Payment;
      delivery_address : option string;
      delivery_option : string }.
End OrderPayload.

Module OrderRow.
(** A row of [orders]; every column but [id] is nullable. *)
Record t : Type := mk
    { id : string;
      user_id : option string;
      order_number : option string;
      total_amount : option Z;
      phone : option string;
      date : option string;
      status : option Status;
      payment : option Payment;
      delivery_address : option string;
      delivery_option : option string;
      driver_id : option string }.

Definition set_status (s : Status) (r : t) : t :=
    mk (id r) (user_id r) (order_number r) (total_amount r) (phone r)
       (date r) (Some s) (payment r) (delivery_address r)
       (delivery_option r) (driver_id r).

Definition set_driver_id (d : string) (r : t) : t :=
    mk (id r) (user_id r) (order_number r) (total_amount r) (phone r)
       (date r) (status r) (payment r) (delivery_address r)
       (delivery_option r) (Some d).
End OrderRow.

Module OrderItemRow.
(** An element of [itemsPayload], and a row of [order_items]. *)
Record t : Type := mk
    { order_id : string;
      product_id : string;
      quantity : Z;
      price : Z }.
End OrderItemRow.

Module CartRow.
(** [interface CartDatabaseItem] of [cartService.ts]. *)
Record t : Type := mk
    { user_id : string;
      product_id : string;
      quantity : Z }.

Definition set_quantity (q : Z) (r : t) : t :=
    mk (user_id r) (product_id r) q.
End CartRow.

Module ProfileRow.
Record t : Type := mk
    { id : string;
      full_name : option string }.
End ProfileRow.

Module ProductRow.
Record t : Type := mk
    { id : string;
      name : string;
      price : Z }.

Definition set_price (p : Z) (r : t) : t := mk (id r) (name r) p.
End ProductRow.

(* ===================================================================== *)
(** ** The backend                                                        *)
(* ===================================================================== *)

Module Remote.
(** The tables and the auth session the handlers talk to. [next_id] feeds
    the [DEFAULT gen_random_uuid()] of [orders.id]. *)
Record t : Type := mk
  { auth_user : option string;
    profiles : list ProfileRow.t;
    products : list ProductRow.t;
    carts : list CartRow.t;
    orders : list OrderRow.t;
    order_items : list OrderItemRow.t;
    next_id : nat }.
End Remote.

(** The requests the modelled handlers send. *)
Inductive Call : Type :=
| AuthGetUser
| ProfilesSelectSingle (id : string)
| OrdersInsert (payload : OrderPayload.t)
| OrderItemsInsert (payload : list OrderItemRow.t)
| CartsUpdate (user_id product_id : string) (quantity : Z)
| CartsDelete (user_id product_id : string)
| OrdersUpdateStatus (id : string) (status : Status)
| OrdersAssignDriver (id : string) (driver_profile_id : string)
| OrderItemsDelete (order_id : string)
| OrdersDelete (id : string)
| OrdersSelectSingle (id : string)
| ProductsUpdatePrice (id : string) (price : Z).

(** How the backend answers one request. *)
Inductive Outcome : Type :=
| Applied                (* performed; [{ error: null }] *)
| Refused (e : Err.t)    (* not performed; [{ error: e }] *)
| Silent                 (* not performed, no row touched; [{ error: null }] *)
| Rejected (e : Err.t).  (* not performed; the promise rejects with [e] *)

(** The requests that write to the [orders] / [order_items] of record. *)
Definition is_order_mutation (c : Call) : bool :=
  match c with
  | OrdersUpdateStatus _ _ | OrdersAssignDriver _ _
  | OrderItemsDelete _ | OrdersDelete _ => true
  | _ => false
  end.

(** Whether an answer carries an error (returned or thrown). *)
Definition is_failure (o : Outcome) : bool :=
  match o with
  | Refused _ | Rejected _ => true
  | Applied | Silent => false
  end.

Definition new_order_id (r : Remote.t) : string :=
  "order-" ++ String_of_nat (Remote.next_id r).

(** The row [orders] stores for a payload. *)
Definition new_order_row (r : Remote.t) (p : OrderPayload.t) : OrderRow.t :=
  OrderRow.mk (new_order_id r)
    (OrderPayload.user_id p)
    (Some (OrderPayload.order_number p))
    (Some (OrderPayload.total_amount p))
    (Some (OrderPayload.phone p))
    (Some (OrderPayload.date p))
    (Some (OrderPayload.status p))
    (Some (OrderPayload.payment p))
    (OrderPayload.delivery_address p)
    (Some (OrderPayload.delivery_option p))
    None.

Definition cart_key (u p : string) (r : CartRow.t) : bool :=
  String.eqb (CartRow.user_id r) u && String.eqb (CartRow.product_id r) p.

(** The effect of a request the backend performs. *)
Definition apply_call (c : Call) (r : Remote.t) : Remote.t :=
  let '(Remote.mk au pf pr ca od oi nx) := r in
  match c with
  | AuthGetUser | ProfilesSelectSingle _ | OrdersSelectSingle _ => r
  | OrdersInsert p =>
      Remote.mk au pf pr ca (od ++ [new_order_row r p]) oi (S nx)
  | OrderItemsInsert rows =>
      Remote.mk au pf pr ca od (oi ++ rows) nx
  | CartsUpdate u p q =>
      Remote.mk au pf pr
        (map (fun row => if cart_key u p row then CartRow.set_quantity q row
                         else row) ca)
        od oi nx
  | CartsDelete u p =>
      Remote.mk au pf pr (filter (fun row => negb (cart_key u p row)) ca)
        od oi nx
  | OrdersUpdateStatus i s =>
      Remote.mk au pf pr ca
        (map (fun row => if String.eqb (OrderRow.id row) i
                         then OrderRow.set_status s row else row) od)
        oi nx
  | OrdersAssignDriver i d =>
      Remote.mk au pf pr ca
        (map (fun row => if String.eqb (OrderRow.id row) i
                         then OrderRow.set_driver_id d row else row) od)
        oi nx
  | OrderItemsDelete i =>
      Remote.mk au pf pr ca od
        (filter (fun row => negb (String.eqb (OrderItemRow.order_id row) i))
                oi)
        nx
  | OrdersDelete i =>
      Remote.mk au pf pr ca
        (filter (fun row => negb (String.eqb (OrderRow.id row) i)) od)
        oi nx
  | ProductsUpdatePrice i p =>
      Remote.mk au pf
        (map (fun row => if String.eqb (ProductRow.id row) i
                         then ProductRow.set_price p row else row) pr)
        ca od oi nx
  end.

(* ===================================================================== *)
(** ** The world: React state, notifications, backend, clock              *)
(* ===================================================================== *)

Inductive ToastKind : Type := ToastLoading | ToastSuccess | ToastError.

Definition Toast : Type := (ToastKind * string)%type.

Definition Policy : Type := list (Call * Outcome) -> Call -> Outcome.

Record World : Type := mkWorld
  { (* state of [App] *)
    cartItems : list CartItem.t;
    orders : list Order.t;
    userId : option string;
    userData : UserData.t;
    showLoginRequired : bool;
    currentPage : string;
    (* state of [AdminOrders] *)
    drivers : list Driver.t;
    deleteOrderId : option string;
    isDeleteDialogOpen : bool;
    (* the calls to [toast], latest first *)
    toasts : list Toast;
    (* the backend, how it answers, and the requests so far, latest first *)
    remote : Remote.t;
    policy : Policy;
    trace : list (Call * Outcome);
    (* [Date.now()] and [new Date().toISOString().split('T')[0]] *)
    now : Z;
    today : string }.

Definition with_cartItems (f : list CartItem.t -> list CartItem.t)
  (w : World) : World :=
  mkWorld (f (cartItems w)) (orders w) (userId w) (userData w)
    (showLoginRequired w) (currentPage w) (drivers w) (deleteOrderId w)
    (isDeleteDialogOpen w) (toasts w) (remote w)
    (policy w) (trace w) (now w) (today w).

Definition with_orders (f : list Order.t -> list Order.t)
  (w : World) : World :=
  mkWorld (cartItems w) (f (orders w)) (userId w) (userData w)
    (showLoginRequired w) (currentPage w) (drivers w) (deleteOrderId w)
    (isDeleteDialogOpen w) (toasts w) (remote w)
    (policy w) (trace w) (now w) (today w).

Definition with_showLoginRequired (b : bool) (w : World) : World :=
  mkWorld (cartItems w) (orders w) (userId w) (userData w)
    b (currentPage w) (drivers w) (deleteOrderId w)
    (isDeleteDialogOpen w) (toasts w) (remote w)
    (policy w) (trace w) (now w) (today w).

Definition with_currentPage (p : string) (w : World) : World :=
  mkWorld (cartItems w) (orders w) (userId w) (userData w)
    (showLoginRequired w) p (drivers w) (deleteOrderId w)
    (isDeleteDialogOpen w) (toasts w) (remote w)
    (policy w) (trace w) (now w) (today w).

Definition with_deleteOrderId (d : option string) (w : World) : World :=
  mkWorld (cartItems w) (orders w) (userId w) (userData w)
    (showLoginRequired w) (currentPage w) (drivers w) d
    (isDeleteDialogOpen w) (toasts w) (remote w)
    (policy w) (trace w) (now w) (today w).

Definition with_isDeleteDialogOpen (b : bool) (w : World) : World :=
  mkWorld (cartItems w) (orders w) (userId w) (userData w)
    (showLoginRequired w) (currentPage w) (drivers w) (deleteOrderId w)
    b (toasts w) (remote w)
    (policy w) (trace w) (now w) (today w).

Definition with_toast (t : Toast) (w : World) : World :=
  mkWorld (cartItems w) (orders w) (userId w) (userData w)
    (showLoginRequired w) (currentPage w) (drivers w) (deleteOrderId w)
    (isDeleteDialogOpen w) (t :: (toasts w)) (remote w)
    (policy w) (trace w) (now w) (today w).

(** Record a request with its answer, and the backend it leaves. *)
Definition with_request (c : Call) (o : Outcome) (r : Remote.t)
  (w : World) : World :=
  mkWorld (cartItems w) (orders w) (userId w) (userData w)
    (showLoginRequired w) (currentPage w) (drivers w) (deleteOrderId w)
    (isDeleteDialogOpen w) (toasts w) r
    (policy w) ((c, o) :: (trace w)) (now w) (today w).

(* ===================================================================== *)
(** ** Handlers as state transformers that may throw                      *)
(* ===================================================================== *)

Inductive Res (A : Type) : Type :=
| Val (a : A)
| Throw (e : Err.t).

Arguments Val {A} a.
Arguments Throw {A} e.

(** A JS computation: it changes the world and returns or throws. What it
    did before throwing stays done. *)
Definition M (A : Type) : Type := World -> Res A * World.

Definition ret {A : Type} (a : A) : M A := fun w => (Val a, w).

Definition bind {A B : Type} (m : M A) (k : A -> M B) : M B :=
  fun w =>
    match m w with
    | (Val a, w') => k a w'
    | (Throw e, w') => (Throw e, w')
    end.

Definition throw {A : Type} (e : Err.t) : M A := fun w => (Throw e, w).

(** [try { body } catch (err) { handler }]. *)
Definition try_catch {A : Type} (body : M A) (handler : Err.t -> M A) : M A :=
  fun w =>
    match body w with
    | (Val a, w') => (Val a, w')
    | (Throw e, w') => handler e w'
    end.

Definition get : M World := fun w => (Val w, w).

Definition update (f : World -> World) : M unit := fun w => (Val tt, f w).

Definition exec {A : Type} (m : M A) (w : World) : World := snd (m w).

Definition result {A : Type} (m : M A) (w : World) : Res A := fst (m w).

Declare Scope js_scope.
Delimit Scope js_scope with js.
Notation "x <- c1 ;; c2" := (bind c1 (fun x => c2))
  (at level 61, c1 at next level, right associativity) : js_scope.
Notation "c1 ;; c2" := (bind c1 (fun _ => c2))
  (at level 61, right associativity) : js_scope.
Local Open Scope js_scope.

(** [for (const x of l) { await f(x) }]. *)
Fixpoint for_each {A : Type} (l : list A) (f : A -> M unit) : M unit :=
  match l with
  | [] => ret tt
  | x :: rest => f x ;; for_each rest f
  end.

Definition toast (k : ToastKind) (msg : string) : M unit :=
  update (with_toast (k, msg)).

(* --------------------------------------------------------------------- *)
(** *** Requests                                                          *)
(* --------------------------------------------------------------------- *)

(** The [{ data, error }] a query resolves to. *)
Record Response (A : Type) : Type := mkResponse
  { data : option A;
    error : option Err.t }.

Arguments mkResponse {A} data error.
Arguments data {A} r.
Arguments error {A} r.

(** Send one request: the policy picks the answer, the trace records it, an
    applied request changes the backend, a rejected promise throws. *)
Definition request (c : Call) : M Outcome :=
  fun w =>
    let o := policy w (trace w) c in
    match o with
    | Applied => (Val o, with_request c o (apply_call c (remote w)) w)
    | Refused _ | Silent => (Val o, with_request c o (remote w) w)
    | Rejected e => (Throw e, with_request c o (remote w) w)
    end.

Definition no_rows : Err.t :=
  Err.mk "JSON object requested, multiple (or no) rows returned" ""
         "The result contains 0 rows".

(** [.single()]: exactly one row, or an error. *)
Definition single {A : Type} (rows : list A) : Response A :=
  match rows with
  | [x] => mkResponse (Some x) None
  | _ => mkResponse None (Some no_rows)
  end.

(** A write without [.select()]: only [{ error }] is read. *)
Definition mutate (c : Call) : M (option Err.t) :=
  o <- request c ;;
  ret (match o with
       | Refused e => Some e
       | _ => None
       end).

(** [supabase.auth.getUser()], read as [data.user]; here the user's id. *)
Definition supabase_auth_getUser : M (option string) :=
  o <- request AuthGetUser ;;
  w <- get ;;
  ret (match o with
       | Applied => Remote.auth_user (remote w)
       | _ => None
       end).

(** [from('profiles').select('id, full_name').eq('id', id).single()]. *)
Definition profiles_select_single (id : string) : M (Response ProfileRow.t) :=
  o <- request (ProfilesSelectSingle id) ;;
  w <- get ;;
  ret (match o with
       | Applied =>
           single (filter (fun p => String.eqb (ProfileRow.id p) id)
                          (Remote.profiles (remote w)))
       | Refused e => mkResponse None (Some e)
       | _ => single []
       end).

(** [from('orders').insert([payload]).select().single()]. *)
Definition orders_insert_select_single (payload : OrderPayload.t)
  : M (Response OrderRow.t) :=
  w <- get ;;
  let row := new_order_row (remote w) payload in
  o <- request (OrdersInsert payload) ;;
  ret (match o with
       | Applied => single [row]
       | Refused e => mkResponse None (Some e)
       | _ => single []
       end).

(** [from('orders').select('id').eq('id', id).single()]. *)
Definition orders_select_single (id : string) : M (Response string) :=
  o <- request (OrdersSelectSingle id) ;;
  w <- get ;;
  ret (match o with
       | Applied =>
           single (map OrderRow.id
                       (filter (fun r => String.eqb (OrderRow.id r) id)
                               (Remote.orders (remote w))))
       | Refused e => mkResponse None (Some e)
       | _ => single []
       end).

(** [from('carts').update({ quantity }).eq('user_id', u)
      .eq('product_id', p).select().single()]. *)
Definition carts_update_select_single (u p : string) (quantity : Z)
  : M (Response CartRow.t) :=
  o <- request (CartsUpdate u p quantity) ;;
  w <- get ;;
  ret (match o with
       | Applied => single (filter (cart_key u p) (Remote.carts (remote w)))
       | Refused e => mkResponse None (Some e)
       | _ => single []
       end).

(* ===================================================================== *)
(** ** [cartService.ts]                                                   *)
(* ===================================================================== *)

Definition removeFromCart (userId productId : string) : M unit :=
  try_catch
    (error <- mutate (CartsDelete userId productId) ;;
     match error with
     | Some e => throw e
     | None => ret tt
     end)
    (fun _ => ret tt).

Definition updateCartQuantity (userId productId : string) (quantity : Z)
  : M (option CartRow.t) :=
  try_catch
    (if quantity <? 1 then
       (* Remove item if quantity is 0 or less *)
       removeFromCart userId productId ;;
       ret None
     else
       r <- carts_update_select_single userId productId quantity ;;
       match error r with
       | Some e => throw e
       | None => ret (data r)
       end)
    (fun _ => ret None).

(* ===================================================================== *)
(** ** [App.tsx]: cart handlers                                           *)
(* ===================================================================== *)

Definition item_id (item : CartItem.t) : string :=
  Product.id (CartItem.product item).

Definition handleUpdateQuantity (productId : string) (newQuantity : Z)
  : M unit :=
  w0 <- get ;;
  (* Prevent negative quantities *)
  if newQuantity <? 1 then ret tt
  else
    update (with_cartItems
              (map (fun item =>
                      if String.eqb (item_id item) productId
                      then CartItem.mk (CartItem.product item) newQuantity
                      else item))) ;;
    (* Sync to database if logged in *)
    match userId w0 with
    | Some u =>
        if truthy u then
          updateCartQuantity u productId newQuantity ;; ret tt
        else ret tt
    | None => ret tt
    end.

Definition handleRemoveFromCart (productId : string) : M unit :=
  w0 <- get ;;
  update (with_cartItems
            (filter (fun item =>
                       negb (String.eqb (item_id item) productId)))) ;;
  match userId w0 with
  | Some u => if truthy u then removeFromCart u productId else ret tt
  | None => ret tt
  end.

(* ===================================================================== *)
(** ** [App.tsx]: [handleCheckout]                                        *)
(* ===================================================================== *)

(** [cartItems.filter(item => selectedProductIds.includes(item.product.id))]. *)
Definition selectItems (cartItems : list CartItem.t)
  (selectedProductIds : list string) : list CartItem.t :=
  filter (fun item => includes selectedProductIds (item_id item)) cartItems.

(** [deliveryInfo?.deliveryOption] and [deliveryInfo?.address]. *)
Definition deliveryOption_of (deliveryInfo : option DeliveryInfo.t)
  : option string :=
  match deliveryInfo with
  | Some d => DeliveryInfo.deliveryOption d
  | None => None
  end.

Definition address_of (deliveryInfo : option DeliveryInfo.t)
  : option string :=
  match deliveryInfo with
  | Some d => DeliveryInfo.address d
  | None => None
  end.

(** [x === "delivery"] for a value that may be [undefined]. *)
Definition is_delivery (x : option string) : bool :=
  match x with
  | Some s => String.eqb s "delivery"
  | None => false
  end.

(** The [total] of [handleCheckout]:
    [selectedItems.reduce((total, item) =>
       total + item.product.price * item.quantity, 0)
     + (deliveryInfo?.deliveryOption === "delivery" ? 59 : 0)]. *)
Definition computeTotal (selectedItems : list CartItem.t)
  (deliveryInfo : option DeliveryInfo.t) : Z :=
  js_add
    (fold_left
       (fun total item =>
          js_add total
            (js_mul (Product.price (CartItem.product item))
                    (CartItem.quantity item)))
       selectedItems 0)
    (if is_delivery (deliveryOption_of deliveryInfo) then 59 else 0).

(** [`ORD-${String((orders?.length ?? 0) + 1).padStart(3, '0')}`]. *)
Definition orderNumber (orders : list Order.t) : string :=
  "ORD-" ++ padStart 3 "0"%char (String_of_nat (length orders + 1)).

(** The [fallbackOrder] built in the [catch] block. *)
Definition fallbackOrder (w0 : World) (selectedItems : list CartItem.t)
  (total : Z) (deliveryInfo : option DeliveryInfo.t) : Order.t :=
  Order.mk
    (String_of_Z (now w0))
    (UserData.fullName (userData w0))
    (orderNumber (orders w0))
    selectedItems
    total
    (UserData.phone (userData w0))
    (today w0)
    Pending
    Cash
    "Unassigned"
    (Some (js_or (address_of deliveryInfo) ""))
    (js_or (deliveryOption_of deliveryInfo) "delivery").

(** The [newOrder] built from the row the insert returned. *)
Definition newOrder (w0 : World) (insertedOrder : OrderRow.t)
  (selectedItems : list CartItem.t) (total : Z) : Order.t :=
  Order.mk
    (OrderRow.id insertedOrder)
    (UserData.fullName (userData w0))
    (js_or (OrderRow.order_number insertedOrder) (OrderRow.id insertedOrder))
    selectedItems
    total
    (UserData.phone (userData w0))
    (js_or (OrderRow.date insertedOrder) (today w0))
    (nullish (OrderRow.status insertedOrder) Pending)
    (nullish (OrderRow.payment insertedOrder) Cash)
    "Unassigned"
    (Some (nullish (OrderRow.delivery_address insertedOrder) ""))
    (nullish (OrderRow.delivery_option insertedOrder) "delivery").

Definition handleCheckout (selectedProductIds : list string)
  (deliveryInfo : option DeliveryInfo.t) : M unit :=
  w0 <- get ;;
  (* Get the selected items *)
  let selectedItems := selectItems (cartItems w0) selectedProductIds in
  (* Compute totals *)
  let total := computeTotal selectedItems deliveryInfo in
  (* Try to persist the order *)
  try_catch
    ((* 1. Get current user session *)
     user <- supabase_auth_getUser ;;
     user_id <- match user with
                | Some u => ret u
                | None =>
                    update (with_showLoginRequired true) ;;
                    toast ToastError "Please sign in to place your order." ;;
                    throw (Error "No authenticated session")
                end ;;
     (* 2. Verify user has a profile *)
     p <- profiles_select_single user_id ;;
     match error p, data p with
     | None, Some _ => ret tt
     | _, _ =>
         toast ToastError
           "Account setup incomplete. Please try signing out and back in." ;;
         throw (Error "No user profile found")
     end ;;
     (* Build order payload *)
     let orderPayload :=
       OrderPayload.mk
         (Some user_id)
         (orderNumber (orders w0))
         total                                   (* Math.round(total) *)
         (UserData.phone (userData w0))
         (today w0)
         Pending
         Cash
         (match address_of deliveryInfo with     (* address || null *)
          | Some a => if truthy a then Some a else None
          | None => None
          end)
         (js_or (deliveryOption_of deliveryInfo) "delivery") in
     r <- orders_insert_select_single orderPayload ;;
     match error r with
     | Some orderErr => throw orderErr
     | None => ret tt
     end ;;
     insertedOrder <- match data r with
                      | Some row => ret row
                      | None => throw (Error "Cannot read properties of null")
                      end ;;
     (* Insert order_items *)
     let orderId := OrderRow.id insertedOrder in
     let itemsPayload :=
       map (fun si =>
              OrderItemRow.mk orderId (item_id si) (CartItem.quantity si)
                (Product.price (CartItem.product si)))  (* Math.round *)
           selectedItems in
     match itemsPayload with
     | [] => ret tt
     | _ :: _ =>
         itemsErr <- mutate (OrderItemsInsert itemsPayload) ;;
         match itemsErr with
         | Some e => throw e
         | None => ret tt
         end
     end ;;
     (* Add order to orders list *)
     update (with_orders
               (fun prev =>
                  (prev ++ [newOrder w0 insertedOrder selectedItems total])%list)) ;;
     (* Remove only selected items from cart *)
     update (with_cartItems
               (filter (fun item =>
                          negb (includes selectedProductIds (item_id item))))) ;;
     (* Sync cart to database - remove sold items *)
     match userId w0 with
     | Some u =>
         if truthy u then
           for_each selectedProductIds (fun productId =>
                                          removeFromCart u productId)
         else ret tt
     | None => ret tt
     end ;;
     update (with_currentPage "home") ;;
     toast ToastSuccess
       "Order placed successfully! Thank you for your purchase.")
    (fun err =>
       (* err?.message || ... || 'Failed to persist order to server' *)
       toast ToastError
         (js_or (Some (Err.message err)) "Failed to persist order to server") ;;
       (* Fallback: still add to local state so admin can see it *)
       update (with_orders
                 (fun prev =>
                    (prev ++ [fallbackOrder w0 selectedItems total
                                deliveryInfo])%list)) ;;
       update (with_cartItems
                 (filter (fun item =>
                            negb (includes selectedProductIds
                                    (item_id item))))) ;;
       update (with_currentPage "home") ;;
       toast ToastError
         "Order saved locally but failed to persist to the server. Please try again or contact support.").

(* ===================================================================== *)
(** ** [CartPage.tsx]: totals shown before checkout                       *)
(* ===================================================================== *)

Module CartPage.

(** [cartItems.filter(item => selectedItems.has(item.product.id))]; the
    [Set<string>] is given by its elements. *)
Definition selectedCartItems (cartItems : list CartItem.t)
  (selectedItems : list string) : list CartItem.t :=
  filter (fun item => includes selectedItems (item_id item)) cartItems.

Definition subtotal (cartItems : list CartItem.t)
  (selectedItems : list string) : Z :=
  fold_left
    (fun total item =>
       js_add total
         (js_mul (Product.price (CartItem.product item))
                 (CartItem.quantity item)))
    (selectedCartItems cartItems selectedItems) 0.

Definition deliveryFee (selectedDeliveryOption : string) : Z :=
  if String.eqb selectedDeliveryOption "delivery" then 59 else 0.

Definition total (cartItems : list CartItem.t) (selectedItems : list string)
  (selectedDeliveryOption : string) : Z :=
  js_add (subtotal cartItems selectedItems)
         (deliveryFee selectedDeliveryOption).

(** The [deliveryInfo] that [handlePlaceOrder] passes to [onCheckout]:
    [{ ...deliveryInfo, deliveryOption: selectedDeliveryOption }]. *)
Definition placeOrderInfo (deliveryInfo : option DeliveryInfo.t)
  (selectedDeliveryOption : string) : option DeliveryInfo.t :=
  Some (DeliveryInfo.mk (address_of deliveryInfo)
          (Some selectedDeliveryOption)).

End CartPage.

(* ===================================================================== *)
(** ** [AdminOrders.tsx]                                                  *)
(* ===================================================================== *)

(** [(err && (err.message || err.error_description || err.details))
      || fallback]. *)
Definition err_message (err : Err.t) (fallback : string) : string :=
  js_or (Some (js_or (Some (js_or (Some (Err.message err))
                                  (Err.error_description err)))
                     (Err.details err)))
        fallback.

(** [message + (details ? ` — ${details}` : '')] with
    [details = err?.details ? String(err.details) : '']. *)
Definition err_text (err : Err.t) (fallback : string) : string :=
  err_message err fallback
  ++ (if truthy (Err.details err) then " — " ++ Err.details err else "").

(** Modelled from the spec: [assignDriverToOrder] of [driverService.ts] is
    imported by [AdminOrders.tsx] but its body is not among the sources. The
    caller reads [{ error }] from it and passes the order id and the driver's
    profile id; the spec lists "update (status/driver)" on [orders], and the
    earlier copy of the component does
    [from('orders').update({ driver_id }).eq('id', orderId)] in its place.
    It is one update of [orders.driver_id]. *)
Definition assignDriverToOrder (orderId driverProfileId : string)
  : M (Response unit) :=
  error <- mutate (OrdersAssignDriver orderId driverProfileId) ;;
  ret (mkResponse None error).

Definition handleUpdateStatus (orderId : string) (newStatus : Status)
  : M unit :=
  w0 <- get ;;
  try_catch
    (toast ToastLoading "Updating order status..." ;;
     (* First update in the backend *)
     error <- mutate (OrdersUpdateStatus orderId newStatus) ;;
     match error with
     | Some e => throw e
     | None => ret tt
     end ;;
     (* If successful, update local state *)
     update (with_orders
               (fun _ =>
                  map (fun order =>
                         if String.eqb (Order.id order) orderId
                         then Order.set_status newStatus order
                         else order)
                      (orders w0))) ;;
     toast ToastSuccess "Order status updated successfully")
    (fun err =>
       toast ToastError
         (err_text err "Failed to update order status. Please try again.")).

Definition handleAcceptOrder (orderId : string) : M unit :=
  w0 <- get ;;
  try_catch
    (toast ToastLoading "Accepting order..." ;;
     (* Update status to Confirmed directly *)
     error <- mutate (OrdersUpdateStatus orderId Confirmed) ;;
     match error with
     | Some e => throw e
     | None => ret tt
     end ;;
     (* Update local state *)
     update (with_orders
               (fun _ =>
                  map (fun order =>
                         if String.eqb (Order.id order) orderId
                         then Order.set_status Confirmed order
                         else order)
                      (orders w0))) ;;
     toast ToastSuccess "Order accepted! Now you can assign a driver.")
    (fun err =>
       toast ToastError
         (err_text err "Failed to accept order. Please try again.")).

Definition handleAssignDriver (orderId driverId : string) : M unit :=
  w0 <- get ;;
  try_catch
    ((* Don't submit empty selection *)
     if negb (truthy driverId) then ret tt
     else
       toast ToastLoading "Assigning driver..." ;;
       (* Find the driver to get their profileId *)
       selectedDriver <-
         match find (fun d => String.eqb (Driver.id d) driverId)
                    (drivers w0) with
         | Some d => ret d
         | None => throw (Error "Driver not found")
         end ;;
       r <- assignDriverToOrder orderId (Driver.profileId selectedDriver) ;;
       match error r with
       | Some e => throw e
       | None => ret tt
       end ;;
       (* If successful, update local state *)
       update (with_orders
                 (fun _ =>
                    map (fun order =>
                           if String.eqb (Order.id order) orderId
                           then Order.set_driver (Driver.name selectedDriver)
                                  order
                           else order)
                        (orders w0))) ;;
       toast ToastSuccess "Driver assigned successfully")
    (fun err =>
       toast ToastError
         (err_text err "Failed to assign driver. Please try again.")).

Definition rls_message : string :=
  "Order deletion failed - RLS permission issue? Order still exists in database".

Definition handleDeleteOrder : M unit :=
  w0 <- get ;;
  match deleteOrderId w0 with
  | None => ret tt
  | Some deleteOrderId0 =>
      if negb (truthy deleteOrderId0) then ret tt
      else
        try_catch
          (toast ToastLoading "Deleting order..." ;;
           (* Delete order items first (due to foreign key constraint) *)
           itemsError <- mutate (OrderItemsDelete deleteOrderId0) ;;
           match itemsError with
           | Some e => throw e
           | None => ret tt
           end ;;
           (* Then delete the order *)
           orderError <- mutate (OrdersDelete deleteOrderId0) ;;
           match orderError with
           | Some e => throw e
           | None => ret tt
           end ;;
           (* Verify the order was actually deleted by fetching it *)
           v <- orders_select_single deleteOrderId0 ;;
           match error v, data v with
           | None, Some _ => throw (Error rls_message)
           | _, _ => ret tt
           end ;;
           (* Update local state only AFTER successful deletion
              verification *)
           update (with_orders
                     (fun _ =>
                        filter (fun order =>
                                  negb (String.eqb (Order.id order)
                                          deleteOrderId0))
                               (orders w0))) ;;
           toast ToastSuccess "Order deleted successfully" ;;
           update (with_isDeleteDialogOpen false) ;;
           update (with_deleteOrderId None))
          (fun err =>
             toast ToastError
               (err_message err "Failed to delete order. Please try again.") ;;
             update (with_isDeleteDialogOpen false) ;;
             update (with_deleteOrderId None))
  end.


(* ===================================================================== *)
(** ** Vocabulary of the properties                                       *)
(* ===================================================================== *)

Local Open Scope list_scope.

(** The requests a computation sends from [w], latest first. *)
Definition issued {A : Type} (m : M A) (w : World) : list (Call * Outcome) :=
  firstn (length (trace (exec m w)) - length (trace w)) (trace (exec m w)).

(** Weakest precondition: [Q] holds of the outcome of [m] run from [w]. *)
Definition wp {A : Type} (m : M A) (Q : Res A -> World -> Prop) (w : World)
  : Prop :=
  Q (result m w) (exec m w).

(** The React state and notifications of two worlds agree. *)
Definition local_eq (w1 w2 : World) : Prop :=
  cartItems w1 = cartItems w2 /\ orders w1 = orders w2 /\
  toasts w1 = toasts w2 /\ showLoginRequired w1 = showLoginRequired w2 /\
  currentPage w1 = currentPage w2 /\ policy w1 = policy w2.

Definition is_carts_delete (co : Call * Outcome) : bool :=
  match fst co with
  | CartsDelete _ _ => true
  | _ => false
  end.

(** [price * quantity] of a line, and its sum over a list of lines. *)
Definition lineTotal (item : CartItem.t) : Z :=
  Product.price (CartItem.product item) * CartItem.quantity item.

Fixpoint sumLines (lines : list CartItem.t) : Z :=
  match lines with
  | [] => 0
  | item :: rest => lineTotal item + sumLines rest
  end.

(** The delivery fee the specification attaches to a delivery option. *)
Definition feeOf (deliveryOption : string) : Z :=
  if String.eqb deliveryOption "delivery" then 59 else 0.

(** The invariant the specification states for an [Order]. *)
Definition order_total_invariant (o : Order.t) : Prop :=
  Order.totalAmount o = sumLines (Order.items o) + feeOf (Order.deliveryOption o).

(** Lines and a fee whose amounts JavaScript numbers hold exactly: no
    negative price or quantity, and an exact total of at most [2^53]. *)
Definition exact_amounts (lines : list CartItem.t) (fee : Z) : Prop :=
  Forall (fun item =>
            0 <= Product.price (CartItem.product item) /\
            0 <= CartItem.quantity item)
         lines /\
  sumLines lines + fee <= max_safe.

(** The cart once the lines of the selected product ids are removed. *)
Definition cartWithout (cart : list CartItem.t) (ids : list string)
  : list CartItem.t :=
  filter (fun item => negb (includes ids (item_id item))) cart.

(** The [itemsPayload] of [handleCheckout] for an order id. *)
Definition itemsPayloadOf (orderId : string) (sel : list CartItem.t)
  : list OrderItemRow.t :=
  map (fun si =>
         OrderItemRow.mk orderId (item_id si) (CartItem.quantity si)
           (Product.price (CartItem.product si)))
      sel.

(** The local effect of accepting an order. *)
Definition acceptLocal (orderId : string) (os : list Order.t) : list Order.t :=
  map (fun order =>
         if String.eqb (Order.id order) orderId
         then Order.set_status Confirmed order
         else order)
      os.

(** The four admin mutations of an order. *)
Inductive AdminMutation : Type :=
| UpdateStatus (orderId : string) (newStatus : Status)
| Accept (orderId : string)
| AssignDriver (orderId driverId : string)
| Delete.

Definition run_admin (a : AdminMutation) : M unit :=
  match a with
  | UpdateStatus orderId newStatus => handleUpdateStatus orderId newStatus
  | Accept orderId => handleAcceptOrder orderId
  | AssignDriver orderId driverId => handleAssignDriver orderId driverId
  | Delete => handleDeleteOrder
  end.

(** Among the requests [l]: some order mutation was answered with an error;
    some order mutation was answered without one. *)
Definition mutation_failed (l : list (Call * Outcome)) : bool :=
  existsb (fun co => is_order_mutation (fst co) && is_failure (snd co)) l.

Definition mutation_succeeded (l : list (Call * Outcome)) : bool :=
  existsb (fun co => is_order_mutation (fst co) && negb (is_failure (snd co)))
          l.


(** The rows of [orders] with a given id. *)
Definition order_rows (oid : string) (r : Remote.t) : list OrderRow.t :=
  filter (fun row => String.eqb (OrderRow.id row) oid) (Remote.orders r).

(** Whether [order_items] holds a row of the order [oid]. *)
Definition has_items (oid : string) (r : Remote.t) : bool :=
  existsb (fun row => String.eqb (OrderItemRow.order_id row) oid)
          (Remote.order_items r).

(** What a run of an admin mutation, and of a delete of order [oid],
    establishes. *)
Definition admin_post (w : World) (r : Res unit) (w' : World) : Prop :=
  exists l, trace w' = l ++ trace w /\
    (mutation_failed l = true -> orders w' = orders w) /\
    (mutation_succeeded l = false -> orders w' = orders w).


(** The [orderPayload] of [handleCheckout] for the signed-in user [u]. *)
Definition checkoutPayload (w : World) (u : string) (ids : list string)
  (di : option DeliveryInfo.t) : OrderPayload.t :=
  OrderPayload.mk (Some u) (orderNumber (orders w))
    (computeTotal (selectItems (cartItems w) ids) di)
    (UserData.phone (userData w)) (today w) Pending Cash
    (match address_of di with
     | Some a => if truthy a then Some a else None
     | None => None
     end)
    (js_or (deliveryOption_of di) "delivery").

(** The two ways a checkout that sent the requests [l] can end. *)
Definition checkout_persisted (w : World) (ids : list string)
  (di : option DeliveryInfo.t) (w' : World) (l : list (Call * Outcome))
  : Prop :=
  exists u,
    let sel := selectItems (cartItems w) ids in
    let row := new_order_row (remote w) (checkoutPayload w u ids di) in
    Remote.auth_user (remote w) = Some u /\
    orders w' = orders w ++ [newOrder w row sel (computeTotal sel di)] /\
    (forall p o, In (OrdersInsert p, o) l -> o = Applied) /\
    (Remote.order_items (remote w')
     = Remote.order_items (remote w) ++ itemsPayloadOf (OrderRow.id row) sel
     \/ exists rows, In (OrderItemsInsert rows, Silent) l).

Definition checkout_fallback (w : World) (ids : list string)
  (di : option DeliveryInfo.t) (w' : World) (l : list (Call * Outcome))
  : Prop :=
  let sel := selectItems (cartItems w) ids in
  orders w' = orders w ++ [fallbackOrder w sel (computeTotal sel di) di] /\
  ((forall p, ~ In (OrdersInsert p, Applied) l) \/
   exists rows o, In (OrderItemsInsert rows, o) l /\ is_failure o = true).

Definition checkout_post (w : World) (ids : list string)
  (di : option DeliveryInfo.t) (r : Res unit) (w' : World) : Prop :=
  r = Val tt /\
  cartItems w' = cartWithout (cartItems w) ids /\
  exists l, trace w' = l ++ trace w /\
            (checkout_persisted w ids di w' l \/
             checkout_fallback w ids di w' l).

(* --------------------------------------------------------------------- *)
(** *** Sample data                                                       *)
(* --------------------------------------------------------------------- *)

Module Sample.

Definition roses : Product.t := Product.mk "A" "Roses" 100 None [] None.
Definition tulips : Product.t := Product.mk "B" "Tulips" 30 None [] None.

Definition ana : UserData.t := UserData.mk "Ana" "ana@mail.test" "0917" None.

Definition order1 : Order.t :=
  Order.mk "order-1" "Ana" "ORD-001" [CartItem.mk roses 2] 259 "0917"
    "2025-01-02" Confirmed Cash "Unassigned" (Some "Road 1") "delivery".

Definition row1 : OrderRow.t :=
  OrderRow.mk "order-1" (Some "u1") (Some "ORD-001") (Some 259) (Some "0917")
    (Some "2025-01-02") (Some Confirmed) (Some Cash) (Some "Road 1")
    (Some "delivery") None.

Definition backend (user : option string) : Remote.t :=
  Remote.mk user
    [ProfileRow.mk "u1" (Some "Ana")]
    [ProductRow.mk "A" "Roses" 100; ProductRow.mk "B" "Tulips" 30]
    [CartRow.mk "u1" "A" 2; CartRow.mk "u1" "B" 1]
    [row1]
    [OrderItemRow.mk "order-1" "A" 2 100]
    7.

(** A backend that performs every request. *)
Definition obliging : Policy := fun _ _ => Applied.

(** A backend that refuses to insert orders. *)
Definition no_inserts : Policy :=
  fun _ c =>
    match c with
    | OrdersInsert _ => Refused (Error "new row violates row-level security")
    | _ => Applied
    end.

(** A backend that refuses every update of an order. *)
Definition no_updates : Policy :=
  fun _ c =>
    match c with
    | OrdersUpdateStatus _ _ | OrdersAssignDriver _ _ =>
        Refused (Error "permission denied for table orders")
    | _ => Applied
    end.

(** A backend whose row-level security silently filters order deletes. *)
Definition silent_deletes : Policy :=
  fun _ c =>
    match c with
    | OrdersDelete _ => Silent
    | _ => Applied
    end.

(** A signed-in (or not) customer on the cart page, cart [A x 2, B x 1]. *)
Definition world (user : option string) (pl : Policy) : World :=
  mkWorld [CartItem.mk roses 2; CartItem.mk tulips 1] [order1] (Some "u1")
    ana false "cart" [Driver.mk "d1" "p-d1" "Ben"] (Some "order-1") true []
    (backend user) pl [] 1700000000000 "2025-01-02".

Definition delivery (d : string) : option DeliveryInfo.t :=
  Some (DeliveryInfo.mk (Some "Road 1") (Some d)).

(** The requests of a checkout of [A] for pickup on an obliging backend,
    and of one for delivery on a backend that refuses order inserts. *)
Definition persisted_requests : list (Call * Outcome) :=
  Eval vm_compute in
    issued (handleCheckout ["A"] (delivery "pickup"))
           (world (Some "u1") obliging).

Definition refused_requests : list (Call * Outcome) :=
  Eval vm_compute in
    issued (handleCheckout ["A"] (delivery "delivery"))
           (world (Some "u1") no_inserts).

End Sample.

Module Large.
(** A cart line whose price and quantity both fit an [integer] column and
    whose line total is above [2^53]. *)
Definition line : CartItem.t :=
  CartItem.mk (Product.mk "A" "Roses" 2147483647 None [] None) 4194305.

(** The sample customer with that line as the cart. *)
Definition world (pl : Policy) : World :=
  with_cartItems (fun _ => [line]) (Sample.world (Some "u1") pl).
End Large.

(* ===================================================================== *)
(** ** [App.tsx]: adding to the cart, the header count, the cart at login *)
(* ===================================================================== *)

(** The state updater of [handleAddToCart]:
    [setCartItems((prev) => { ... })]. *)
Definition addToCartUpdater (product : Product.t) (quantity : Z)
  (prev : list CartItem.t) : list CartItem.t :=
  match find (fun item => String.eqb (item_id item) (Product.id product))
             prev with
  | Some _ =>
      map (fun item =>
             if String.eqb (item_id item) (Product.id product)
             then CartItem.mk (CartItem.product item)
                    (CartItem.quantity item + quantity)
             else item)
          prev
  | None => prev ++ [CartItem.mk product quantity]
  end.

(** [cartItems.reduce((total, item) => total + item.quantity, 0)], the
    [cartItemCount] passed to [Header]. *)
Definition cartItemCount (cartItems : list CartItem.t) : Z :=
  fold_left (fun total item => total + CartItem.quantity item) cartItems 0.

Module DbProduct.
(** A row of [from('products').select('*')] as [handleLogin] reads it. *)
Record t : Type := mk
  { id : string;
    name : string;
    price : Z;
    image : option string;
    categories : option string;
    badge : option string }.
End DbProduct.

(** The [mappedItems] that [handleLogin] builds from the user's cart rows
    and the product rows ([productsFromDb] is [undefined] when the query
    returned no data). *)
Definition loadCartItems (cartData : list CartRow.t)
  (productsFromDb : option (list DbProduct.t)) : list CartItem.t :=
  flat_map
    (fun item =>
       match
         match productsFromDb with
         | Some ps =>
             find (fun p => String.eqb (DbProduct.id p)
                              (CartRow.product_id item)) ps
         | None => None
         end
       with
       | Some product =>
           [CartItem.mk
              (Product.mk (DbProduct.id product) (DbProduct.name product)
                 (DbProduct.price product)
                 (Some (js_or (DbProduct.image product) ""))
                 (match DbProduct.categories product with
                  | Some c => if truthy c then [c] else []
                  | None => []
                  end)
                 (DbProduct.badge product))
              (CartRow.quantity item)]
       | None => []
       end)
    cartData.

(* ===================================================================== *)
(** ** [CartPage.tsx]: quantity buttons and the selection                 *)
(* ===================================================================== *)

Module JsSet.
(** A [Set<string>]: its elements in insertion order, each once. *)
Definition has (s : list string) (x : string) : bool := includes s x.

Definition add (x : string) (s : list string) : list string :=
  if has s x then s else s ++ [x].

Definition delete (x : string) (s : list string) : list string :=
  filter (fun y => negb (String.eqb y x)) s.

(** [new Set(array)]. *)
Definition of_array (l : list string) : list string :=
  fold_left (fun s x => add x s) l [].
End JsSet.

Module CartButtons.
(** The minus button:
    [onUpdateQuantity(item.product.id, Math.max(1, item.quantity - 1))]. *)
Definition minus (item : CartItem.t) : M unit :=
  handleUpdateQuantity (item_id item) (Z.max 1 (CartItem.quantity item - 1)).

(** The plus button:
    [onUpdateQuantity(item.product.id, item.quantity + 1)]. *)
Definition plus (item : CartItem.t) : M unit :=
  handleUpdateQuantity (item_id item) (CartItem.quantity item + 1).
End CartButtons.

Module Selection.
(** The initial [selectedItems]:
    [new Set(cartItems.map(item => item.product.id))]. *)
Definition initial (cartItems : list CartItem.t) : list string :=
  JsSet.of_array (map item_id cartItems).

(** The updater of the effect that runs when [cartItems] changes. *)
Definition sync (cartItems : list CartItem.t) (prev : list string)
  : list string :=
  let newSet :=
    fold_left
      (fun s item =>
         if negb (JsSet.has prev (item_id item))
         then JsSet.add (item_id item) s
         else s)
      cartItems prev in
  (* Remove items that are no longer in cart *)
  fold_left
    (fun s id =>
       match find (fun item => String.eqb (item_id item) id) cartItems with
       | Some _ => s
       | None => JsSet.delete id s
       end)
    prev newSet.

(** The updater of [handleToggleItem]. *)
Definition handleToggleItem (productId : string) (prev : list string)
  : list string :=
  if JsSet.has prev productId then JsSet.delete productId prev
  else JsSet.add productId prev.

(** [handleSelectAll]. *)
Definition handleSelectAll (selectedItems : list string)
  (cartItems : list CartItem.t) : list string :=
  if Nat.eqb (length selectedItems) (length cartItems) then []
  else JsSet.of_array (map item_id cartItems).

(** [handlePlaceOrder]: [onCheckout(Array.from(selectedItems),
    { ...deliveryInfo, deliveryOption: selectedDeliveryOption })]; closing
    the confirmation modal is local to the page. *)
Definition handlePlaceOrder (selectedItems : list string)
  (deliveryInfo : option DeliveryInfo.t) (selectedDeliveryOption : string)
  : M unit :=
  handleCheckout selectedItems
    (CartPage.placeOrderInfo deliveryInfo selectedDeliveryOption).
End Selection.

(* ===================================================================== *)
(** ** [AdminOrders.tsx]: orders fetched from the backend                 *)
(* ===================================================================== *)

Module DbOrder.
(** A row of the orders query of [fetchOrdersFromDb] (every column, the
    nested [order_items] and [profiles:user_id(full_name)]): the order row,
    its creation time, its item rows and the joined profile name. *)
Record t : Type := mk
  { row : OrderRow.t;
    created_at : option string;
    order_items : option (list OrderItemRow.t);
    profiles : option (option string) }.
End DbOrder.

Module DbOrderProduct.
(** A row of [from("products").select("id,name,price,image")]. *)
Record t : Type := mk
  { id : string;
    name : string;
    price : Z;
    image : option string }.
End DbOrderProduct.

(** [productsMap[id]] after [products.forEach(p => productsMap[p.id] = p)]:
    the last row with that id. *)
Definition productsMap_get (products : list DbOrderProduct.t) (id : string)
  : option DbOrderProduct.t :=
  find (fun p => String.eqb (DbOrderProduct.id p) id) (rev products).

(** [s.split('T')[0]]. *)
Fixpoint before_T (s : string) : string :=
  match s with
  | EmptyString => EmptyString
  | String c rest =>
      if Ascii.eqb c "T"%char then EmptyString else String c (before_T rest)
  end.

(** One item of a mapped order:
    [{ product: productsMap[it.product_id] ?? { id: it.product_id,
       name: 'Unknown', price: it.price || 0, image: '' },
       quantity: it.quantity }]. *)
Definition mapDbItem (products : list DbOrderProduct.t)
  (it : OrderItemRow.t) : CartItem.t :=
  CartItem.mk
    (match productsMap_get products (OrderItemRow.product_id it) with
     | Some p =>
         Product.mk (DbOrderProduct.id p) (DbOrderProduct.name p)
           (DbOrderProduct.price p) (DbOrderProduct.image p) [] None
     | None =>
         Product.mk (OrderItemRow.product_id it) "Unknown"
           (OrderItemRow.price it) (Some "") [] None
     end)
    (OrderItemRow.quantity it).

(** One element of [mapped]; [products] is [products || []]. *)
Definition mapDbOrder (products : list DbOrderProduct.t) (o : DbOrder.t)
  : Order.t :=
  let r := DbOrder.row o in
  Order.mk
    (OrderRow.id r)
    (nullish (match DbOrder.profiles o with
              | Some full_name => full_name
              | None => None
              end) "")
    (nullish (OrderRow.order_number r) (OrderRow.id r))
    (map (mapDbItem products) (nullish (DbOrder.order_items o) []))
    (nullish (OrderRow.total_amount r) 0)
    (nullish (OrderRow.phone r) "")
    (nullish (OrderRow.date r)
       (match DbOrder.created_at o with
        | Some c => if truthy c then before_T c else ""
        | None => ""
        end))
    (nullish (OrderRow.status r) Pending)
    (nullish (OrderRow.payment r) Cash)
    (nullish (OrderRow.driver_id r) "Unassigned")
    (Some (nullish (OrderRow.delivery_address r) ""))
    (nullish (OrderRow.delivery_option r) "delivery").

(** [merged]: the mapped backend orders, then the local orders whose id is
    not among them. *)
Definition mergeOrders (mapped orders : list Order.t) : list Order.t :=
  mapped
  ++ filter (fun o => negb (includes (map Order.id mapped) (Order.id o)))
            orders.

(** The order list [fetchOrdersFromDb] leaves, given the answer to the
    orders query, the rows of the products query ([None] when it returned
    no data or was not sent) and the local orders it closed over: on an
    error [onUpdateOrders] is not called. *)
Definition fetchOrdersResult (answer : Response (list DbOrder.t))
  (products : option (list DbOrderProduct.t)) (orders : list Order.t)
  : list Order.t :=
  match error answer with
  | Some _ => orders
  | None =>
      mergeOrders
        (map (mapDbOrder (nullish products [])) (nullish (data answer) []))
        orders
  end.



(* ===================================================================== *)
(** ** [CustomBouquetBuilderPage.tsx]                                     *)
(* ===================================================================== *)

Module Bouquet.

Inductive Size : Type := small | medium | large.

Definition Size_eqb (a b : Size) : bool :=
  match a, b with
  | small, small | medium, medium | large, large => true
  | _, _ => false
  end.

Definition Size_name (s : Size) : string :=
  match s with
  | small => "small"
  | medium => "medium"
  | large => "large"
  end.

Record SizeOption : Type := mkSizeOption
  { id : Size;
    name : string;
    description : string;
    maxFlowers : Z;
    price : Z }.

Definition sizeOptions : list SizeOption :=
  [ mkSizeOption small "Small" "Perfect intimate gesture with 1-2 stems"
      2 250;
    mkSizeOption medium "Medium" "Beautiful arrangement with 6 stems" 6 600;
    mkSizeOption large "Large" "Stunning display with 12 stems" 12 1200 ].

Record FlowerType : Type := mkFlowerType
  { flower_id : string;
    flower_name : string;
    image : string;
    category : string;
    available : bool }.

Record SelectedFlower : Type := mkSelectedFlower
  { flower : FlowerType;
    count : Z }.

Record State : Type := mkState
  { selectedSize : option Size;
    selectedColor : option string;
    selectedFlowers : list SelectedFlower }.

(** [useState] initial values. *)
Definition init : State := mkState None None [].

Definition sizeOption (st : State) : option SizeOption :=
  match selectedSize st with
  | Some s => find (fun o => Size_eqb (id o) s) sizeOptions
  | None => None
  end.

(** [sizeOptions.find(...)?.maxFlowers || 0]. *)
Definition maxFlowersOf (st : State) : Z :=
  match sizeOption st with
  | Some o => maxFlowers o
  | None => 0
  end.

(** [selectedFlowers.reduce((sum, f) => sum + f.count, 0)]. *)
Definition totalFlowers (st : State) : Z :=
  fold_left (fun sum f => sum + count f) (selectedFlowers st) 0.

(** [sizeOptions.find(...)?.price || 0]. *)
Definition basePrice (st : State) : Z :=
  match sizeOption st with
  | Some o => price o
  | None => 0
  end.

(** The click on a size card. *)
Definition selectSize (s : Size) (st : State) : State :=
  mkState (Some s) (selectedColor st) [].

Definition selectColor (c : string) (st : State) : State :=
  mkState (selectedSize st) (Some c) (selectedFlowers st).

Definition sel_id (f : SelectedFlower) : string := flower_id (flower f).

(** [handleFlowerSelect]: the new state, and the error toast if any. *)
Definition handleFlowerSelect (fl : FlowerType) (st : State)
  : State * option string :=
  if maxFlowersOf st <=? totalFlowers st then
    (st,
     Some ("Maximum " ++ String_of_Z (maxFlowersOf st)
           ++ " stems allowed for "
           ++ match selectedSize st with
              | Some s => Size_name s
              | None => "null"
              end
           ++ " size")%string)
  else
    (mkState (selectedSize st) (selectedColor st)
       (match find (fun f => String.eqb (sel_id f) (flower_id fl))
                   (selectedFlowers st) with
        | Some _ =>
            map (fun f =>
                   if String.eqb (sel_id f) (flower_id fl)
                   then mkSelectedFlower (flower f) (count f + 1)
                   else f)
                (selectedFlowers st)
        | None => selectedFlowers st ++ [mkSelectedFlower fl 1]
        end),
     None).

(** [handleFlowerDeselect]. *)
Definition handleFlowerDeselect (flowerId : string) (st : State) : State :=
  mkState (selectedSize st) (selectedColor st)
    (match find (fun f => String.eqb (sel_id f) flowerId)
                (selectedFlowers st) with
     | Some existing =>
         if 1 <? count existing then
           map (fun f =>
                  if String.eqb (sel_id f) flowerId
                  then mkSelectedFlower (flower f) (count f - 1)
                  else f)
               (selectedFlowers st)
         else
           filter (fun f => negb (String.eqb (sel_id f) flowerId))
                  (selectedFlowers st)
     | None =>
         filter (fun f => negb (String.eqb (sel_id f) flowerId))
                (selectedFlowers st)
     end).

(** What [handleAddToCart] of the page does. *)
Inductive AddResult : Type :=
| ShowLoginRequired
| ToastError (msg : string)
| AddedToCart (product : Product.t).

(** [selectedSize.charAt(0).toUpperCase() + selectedSize.slice(1)]. *)
Definition capitalized (s : Size) : string :=
  match s with
  | small => "Small"
  | medium => "Medium"
  | large => "Large"
  end.

(** [handleAddToCart]; [now] is [Date.now()]. The product passed to
    [onAddToCart] is read through [interface Product]: the object has no
    [categories] and no [badge]. *)
Definition handleAddToCart (isLoggedIn : bool) (now : Z) (st : State)
  : AddResult :=
  if negb isLoggedIn then ShowLoginRequired
  else
    match selectedSize st with
    | None => ToastError "Please select a bouquet size"
    | Some size =>
        match selectedColor st with
        | None => ToastError "Please select a color theme"
        | Some color =>
            if negb (truthy color) then
              ToastError "Please select a color theme"
            else
              match selectedFlowers st with
              | [] => ToastError "Please add at least one stem"
              | first :: _ =>
                  AddedToCart
                    (Product.mk
                       ("custom-" ++ String_of_Z now)%string
                       ("Custom " ++ capitalized size ++ " Bouquet")%string
                       (basePrice st)
                       (Some (image (flower first)))
                       [] None)
              end
        end
    end.

(** The user's actions on the page. *)
Inductive Action : Type :=
| ClickSize (s : Size)
| ClickColor (c : string)
| ClickFlower (fl : FlowerType)
| ClickRemove (flowerId : string).

Definition step (a : Action) (st : State) : State :=
  match a with
  | ClickSize s => selectSize s st
  | ClickColor c => selectColor c st
  | ClickFlower fl => fst (handleFlowerSelect fl st)
  | ClickRemove flowerId => handleFlowerDeselect flowerId st
  end.

Definition run (actions : list Action) : State :=
  fold_left (fun st a => step a st) actions init.

End Bouquet.

(* ===================================================================== *)
(** ** Vocabulary of the further properties                               *)
(* ===================================================================== *)

(** The [(productId, quantity)] pairs of the local cart, and of the rows of
    [carts] that belong to a user. *)
Definition cartLines (cart : list CartItem.t) : list (string * Z) :=
  map (fun item => (item_id item, CartItem.quantity item)) cart.

Definition remoteLines (u : string) (carts : list CartRow.t)
  : list (string * Z) :=
  map (fun row => (CartRow.product_id row, CartRow.quantity row))
      (filter (fun row => String.eqb (CartRow.user_id row) u) carts).

(** The backend's cart of user [u] is the local cart. *)
Definition mirrors (u : string) (w : World) : Prop :=
  cartLines (cartItems w) = remoteLines u (Remote.carts (remote w)).

(** One line per product, each with a quantity of at least 1. *)
Definition cart_ok (cart : list CartItem.t) : Prop :=
  NoDup (map item_id cart) /\
  Forall (fun item => 1 <= CartItem.quantity item) cart.

(** The quantity the cart holds of a product. *)
Definition quantityOf (productId : string) (cart : list CartItem.t) : Z :=
  fold_right
    (fun item acc =>
       if String.eqb (item_id item) productId
       then CartItem.quantity item + acc else acc)
    0 cart.

(** The local effects of the quantity and remove handlers. *)
Definition setQuantityLocal (productId : string) (q : Z)
  (cart : list CartItem.t) : list CartItem.t :=
  map (fun item =>
         if String.eqb (item_id item) productId
         then CartItem.mk (CartItem.product item) q
         else item)
      cart.

Definition removeLocal (productId : string) (cart : list CartItem.t)
  : list CartItem.t :=
  filter (fun item => negb (String.eqb (item_id item) productId)) cart.

(** The handlers that change the cart. *)
Inductive CartHandler : Type :=
| DoUpdateQuantity (productId : string) (newQuantity : Z)
| DoMinus (item : CartItem.t)
| DoRemove (productId : string)
| DoCheckout (ids : list string) (deliveryInfo : option DeliveryInfo.t).

Definition run_cart (h : CartHandler) : M unit :=
  match h with
  | DoUpdateQuantity productId newQuantity =>
      handleUpdateQuantity productId newQuantity
  | DoMinus item => CartButtons.minus item
  | DoRemove productId => handleRemoveFromCart productId
  | DoCheckout ids deliveryInfo => handleCheckout ids deliveryInfo
  end.

(** Reading an order number back: the count after ["ORD-"]. *)
Definition decodeOrderNumber (s : string) : option nat :=
  match s with
  | String "O" (String "R" (String "D" (String "-" digits))) =>
      option_map Nat.of_uint (NilZero.uint_of_string digits)
  | _ => None
  end.

(** The status the local list shows for an order id, first match. *)
Definition localStatus (orderId : string) (os : list Order.t)
  : option Status :=
  option_map Order.status
    (find (fun o => String.eqb (Order.id o) orderId) os).

(** The bouquet page's invariant: one entry per flower, each with at least
    one stem, and no more stems than the size allows. *)
Definition bouquet_ok (st : Bouquet.State) : Prop :=
  NoDup (map Bouquet.sel_id (Bouquet.selectedFlowers st)) /\
  Forall (fun f => 1 <= Bouquet.count f) (Bouquet.selectedFlowers st) /\
  Bouquet.totalFlowers st <= Bouquet.maxFlowersOf st.

(* --------------------------------------------------------------------- *)
(** *** How a checkout ends                                             *)
(* --------------------------------------------------------------------- *)

(** How a checkout that does not reach the cart sync stops: the requests it
    sent, latest first, and the backend it leaves. *)
Definition checkout_stops (w : World) (ids : list string)
  (di : option DeliveryInfo.t) (l : list (Call * Outcome)) (w' : World)
  : Prop :=
  (exists o, l = [(AuthGetUser, o)] /\
             (o = Applied -> Remote.auth_user (remote w) = None) /\
             remote w' = remote w) \/
  (exists u, Remote.auth_user (remote w) = Some u /\
     let payload := checkoutPayload w u ids di in
     let rows :=
       itemsPayloadOf (OrderRow.id (new_order_row (remote w) payload))
                      (selectItems (cartItems w) ids) in
     (exists o,
        l = [(ProfilesSelectSingle u, o); (AuthGetUser, Applied)] /\
        (o = Applied ->
         forall p, filter (fun p => String.eqb (ProfileRow.id p) u)
                          (Remote.profiles (remote w)) <> [p]) /\
        ((forall e, o <> Rejected e) ->
         In (ToastError,
             "Account setup incomplete. Please try signing out and back in.")
            (toasts w')) /\
        remote w' = remote w) \/
     ((exists p, filter (fun p => String.eqb (ProfileRow.id p) u)
                        (Remote.profiles (remote w)) = [p]) /\
      ((exists o,
          l = [(OrdersInsert payload, o); (ProfilesSelectSingle u, Applied);
               (AuthGetUser, Applied)] /\
          o <> Applied /\ remote w' = remote w) \/
       (exists o,
          l = [(OrderItemsInsert rows, o); (OrdersInsert payload, Applied);
               (ProfilesSelectSingle u, Applied); (AuthGetUser, Applied)] /\
          rows <> [] /\ is_failure o = true /\
          remote w' = apply_call (OrdersInsert payload) (remote w))))).

(** The carts deletes a checkout sends once the order is recorded: one per
    selected id for the user id held in the state, none without one. *)
Definition syncCalls (w : World) (ids : list string) : list Call :=
  match userId w with
  | Some u => if truthy u then map (CartsDelete u) ids else []
  | None => []
  end.

(** How a checkout that reaches the cart sync went: the requests, latest
    first, and the order it recorded. *)
Definition checkout_syncs (w : World) (ids : list string)
  (di : option DeliveryInfo.t) (l : list (Call * Outcome)) (w' : World)
  : Prop :=
  exists u dels o,
    let sel := selectItems (cartItems w) ids in
    let payload := checkoutPayload w u ids di in
    let row := new_order_row (remote w) payload in
    let rows := itemsPayloadOf (OrderRow.id row) sel in
    Remote.auth_user (remote w) = Some u /\
    (exists p, filter (fun p => String.eqb (ProfileRow.id p) u)
                      (Remote.profiles (remote w)) = [p]) /\
    l = dels
          ++ match rows with
             | [] => []
             | _ :: _ => [(OrderItemsInsert rows, o)]
             end
          ++ [(OrdersInsert payload, Applied);
              (ProfilesSelectSingle u, Applied); (AuthGetUser, Applied)] /\
    is_failure o = false /\
    map fst dels = rev (syncCalls w ids) /\
    Remote.orders (remote w') = Remote.orders (remote w) ++ [row] /\
    orders w' = orders w ++ [newOrder w row sel (computeTotal sel di)].

(** The two ends of a checkout in full: the cart sync is reached and the
    success message shown, or the run stops before it, with error messages
    only and the fallback order. *)
Definition checkout_ends (w : World) (ids : list string)
  (di : option DeliveryInfo.t) (w' : World) : Prop :=
  let sel := selectItems (cartItems w) ids in
  cartItems w' = cartWithout (cartItems w) ids /\
  exists l, trace w' = l ++ trace w /\
    ((checkout_syncs w ids di l w' /\
      toasts w'
      = (ToastSuccess,
         "Order placed successfully! Thank you for your purchase.")
          :: toasts w) \/
     (checkout_stops w ids di l w' /\
      orders w' = orders w ++ [fallbackOrder w sel (computeTotal sel di) di] /\
      exists pre,
        toasts w'
        = (ToastError,
           "Order saved locally but failed to persist to the server. Please try again or contact support.")
            :: pre ++ toasts w /\
        Forall (fun t => fst t = ToastError) pre)).

Module Faulty.
(** A backend that refuses to insert order items. *)
Definition no_item_inserts : Policy :=
  fun _ c =>
    match c with
    | OrderItemsInsert _ =>
        Refused (Error "new row violates row-level security")
    | _ => Applied
    end.

(** The requests of a checkout of [A] for pickup on that backend. *)
Definition item_requests : list (Call * Outcome) :=
  Eval vm_compute in
    issued (handleCheckout ["A"] (Sample.delivery "pickup"))
           (Sample.world (Some "u1") no_item_inserts).

(** A backend whose row-level security filters order deletes without an
    error and refuses to show orders. *)
Definition blind_check : Policy :=
  fun _ c =>
    match c with
    | OrdersDelete _ => Silent
    | OrdersSelectSingle _ =>
        Refused (Error "permission denied for table orders")
    | _ => Applied
    end.

(** The requests of a delete of [order-1] on that backend. *)
Definition check_requests : list (Call * Outcome) :=
  Eval vm_compute in
    issued handleDeleteOrder (Sample.world (Some "u1") blind_check).
End Faulty.

(* --------------------------------------------------------------------- *)
(** *** The admin's view of an order                                    *)
(* --------------------------------------------------------------------- *)

(** The local effect of a status update and of a driver assignment. *)
Definition setStatusLocal (orderId : string) (s : Status) (os : list Order.t)
  : list Order.t :=
  map (fun order =>
         if String.eqb (Order.id order) orderId
         then Order.set_status s order else order)
      os.

Definition setDriverLocal (orderId : string) (driverName : string)
  (os : list Order.t) : list Order.t :=
  map (fun order =>
         if String.eqb (Order.id order) orderId
         then Order.set_driver driverName order else order)
      os.

(** The driver the local list shows for an order id, first match. *)
Definition localDriver (orderId : string) (os : list Order.t)
  : option string :=
  option_map Order.driver
    (find (fun o => String.eqb (Order.id o) orderId) os).

(** The statuses the backend holds for an order id. *)
Definition remoteStatus (orderId : string) (r : Remote.t)
  : list (option Status) :=
  map OrderRow.status
      (filter (fun row => String.eqb (OrderRow.id row) orderId)
              (Remote.orders r)).

(* --------------------------------------------------------------------- *)
(** *** The cart at sign-in                                             *)
(* --------------------------------------------------------------------- *)

(** [fetchUserCart] of [cartService.ts]: the rows it returns, given the
    answer to its query; an error is caught and gives no rows. *)
Definition fetchUserCartResult (answer : Response (list CartRow.t))
  : list CartRow.t :=
  match error answer with
  | Some _ => []
  | None => nullish (data answer) []
  end.

(** The cart [handleLogin] sets from the answer to the cart query and the
    product rows: [[]] without asking for the products when no row came
    back. *)
Definition loginCart (answer : Response (list CartRow.t))
  (productsFromDb : option (list DbProduct.t)) : list CartItem.t :=
  let cartData := fetchUserCartResult answer in
  if Nat.eqb (length cartData) 0 then []
  else loadCartItems cartData productsFromDb.

(* ===================================================================== *)
(** ** Reasoning about runs                                               *)
(* ===================================================================== *)

Section RunCalculus.

Context {A : Type}.
Implicit Types (Q : Res A -> World -> Prop) (w : World).

Lemma wp_ret (a : A) Q w : Q (Val a) w -> wp (ret a) Q w.
Proof. exact (fun H => H). Qed.

Lemma wp_throw e Q w : Q (Throw e) w -> wp (throw e) Q w.
Proof. exact (fun H => H). Qed.

Lemma wp_try_catch (body : M A) (handler : Err.t -> M A) Q w :
  wp body (fun r w' => match r with
                       | Val a => Q (Val a) w'
                       | Throw e => wp (handler e) Q w'
                       end) w ->
  wp (try_catch body handler) Q w.
Proof.
  unfold wp, result, exec, try_catch.
  destruct (body w) as [[a|e] w']; cbn; auto.
Qed.

Lemma wp_bind {B : Type} (m : M B) (k : B -> M A) Q w :
  wp m (fun r w' => match r with
                    | Val b => wp (k b) Q w'
                    | Throw e => Q (Throw e) w'
                    end) w ->
  wp (bind m k) Q w.
Proof.
  unfold wp, result, exec, bind.
  destruct (m w) as [[b|e] w']; cbn; auto.
Qed.

(** What was sent is what was appended to the trace. *)
Lemma issued_intro (m : M A) w l :
  trace (exec m w) = l ++ trace w -> issued m w = l.
Proof.
  intros H. unfold issued. rewrite H, length_app, Nat.add_sub.
  rewrite firstn_app, Nat.sub_diag, firstn_all. cbn. apply app_nil_r.
Qed.

End RunCalculus.

Lemma wp_get (Q : Res World -> World -> Prop) w : Q (Val w) w -> wp get Q w.
Proof. exact (fun H => H). Qed.

Lemma wp_update f (Q : Res unit -> World -> Prop) w :
  Q (Val tt) (f w) -> wp (update f) Q w.
Proof. exact (fun H => H). Qed.

Lemma wp_toast k msg (Q : Res unit -> World -> Prop) w :
  Q (Val tt) (with_toast (k, msg) w) -> wp (toast k msg) Q w.
Proof. exact (fun H => H). Qed.

(** One request: a case for each answer of the backend. *)
Lemma wp_request c (Q : Res Outcome -> World -> Prop) w :
  (forall o, policy w (trace w) c = o ->
     match o with
     | Applied => Q (Val o) (with_request c o (apply_call c (remote w)) w)
     | Refused _ | Silent => Q (Val o) (with_request c o (remote w) w)
     | Rejected e => Q (Throw e) (with_request c o (remote w) w)
     end) ->
  wp (request c) Q w.
Proof.
  intros H. specialize (H _ eq_refl). unfold wp, result, exec, request.
  destruct (policy w (trace w) c); exact H.
Qed.

(** Reads leave the backend as it is. *)
Lemma apply_reads r :
  apply_call AuthGetUser r = r /\
  (forall i, apply_call (ProfilesSelectSingle i) r = r) /\
  (forall i, apply_call (OrdersSelectSingle i) r = r).
Proof. destruct r; repeat split; reflexivity. Qed.

Lemma apply_carts_delete_frame u p r :
  Remote.orders (apply_call (CartsDelete u p) r) = Remote.orders r /\
  Remote.order_items (apply_call (CartsDelete u p) r) = Remote.order_items r.
Proof. destruct r; split; reflexivity. Qed.

Lemma carts_delete_only l c o :
  forallb is_carts_delete l = true -> In (c, o) l ->
  exists u p, c = CartsDelete u p.
Proof.
  intros Hall Hin. rewrite forallb_forall in Hall. apply Hall in Hin.
  unfold is_carts_delete in Hin. cbn in Hin. destruct c; try discriminate.
  eauto.
Qed.

(* --------------------------------------------------------------------- *)
(** *** [removeFromCart] never throws                                     *)
(* --------------------------------------------------------------------- *)

Lemma removeFromCart_run u p w :
  removeFromCart u p w =
  (Val tt,
   let o := policy w (trace w) (CartsDelete u p) in
   with_request (CartsDelete u p) o
     (match o with
      | Applied => apply_call (CartsDelete u p) (remote w)
      | _ => remote w
      end) w).
Proof.
  unfold removeFromCart, try_catch, mutate, bind, request, ret, throw.
  destruct (policy w (trace w) (CartsDelete u p)); reflexivity.
Qed.

Lemma for_each_removeFromCart u ids : forall w,
  exists w2 l,
    for_each ids (removeFromCart u) w = (Val tt, w2) /\
    local_eq w w2 /\
    trace w2 = l ++ trace w /\
    forallb is_carts_delete l = true /\
    Remote.orders (remote w2) = Remote.orders (remote w) /\
    Remote.order_items (remote w2) = Remote.order_items (remote w).
Proof.
  induction ids as [|p ids IH]; intros w.
  - exists w, []. repeat split; reflexivity.
  - cbn [for_each]. unfold bind. rewrite removeFromCart_run. cbv zeta.
    match goal with
    | |- context [for_each ids _ ?w1] =>
        destruct (IH w1) as (w2 & l & Hrun & Hloc & Htr & Hall & Ho & Hi)
    end.
    exists w2, (l ++ [(CartsDelete u p, policy w (trace w) (CartsDelete u p))]).
    rewrite Hrun. split; [reflexivity|].
    split. { unfold local_eq in *. cbn in Hloc. exact Hloc. }
    split. { rewrite Htr. cbn. rewrite <- app_assoc. reflexivity. }
    split. { rewrite forallb_app, Hall. reflexivity. }
    rewrite Ho, Hi. cbn.
    destruct (policy w (trace w) (CartsDelete u p)); try (split; reflexivity).
    apply apply_carts_delete_frame.
Qed.

Lemma wp_for_each_removeFromCart u ids (Q : Res unit -> World -> Prop) w :
  (forall w2 l,
      cartItems w2 = cartItems w -> orders w2 = orders w ->
      toasts w2 = toasts w ->
      trace w2 = l ++ trace w ->
      forallb is_carts_delete l = true ->
      Remote.orders (remote w2) = Remote.orders (remote w) ->
      Remote.order_items (remote w2) = Remote.order_items (remote w) ->
      Q (Val tt) w2) ->
  wp (for_each ids (fun productId => removeFromCart u productId)) Q w.
Proof.
  intros H.
  destruct (for_each_removeFromCart u ids w)
    as (w2 & l & Hrun & (Hc & Ho & Ht & _) & H2 & H3 & H4 & H5).
  unfold wp, result, exec.
  change (fun productId => removeFromCart u productId) with (removeFromCart u).
  rewrite Hrun. cbn. apply (H w2 l); auto.
Qed.

(* --------------------------------------------------------------------- *)
(** *** Symbolic execution                                                *)
(* --------------------------------------------------------------------- *)

Ltac world_simpl :=
  cbn [fst snd with_request with_toast with_orders with_cartItems
       with_showLoginRequired with_currentPage with_deleteOrderId
       with_isDeleteDialogOpen
       cartItems orders userId userData showLoginRequired currentPage drivers
       deleteOrderId isDeleteDialogOpen toasts remote policy trace now today
       data error single] in *;
  repeat rewrite (proj1 (apply_reads _)) in *;
  repeat rewrite (proj1 (proj2 (apply_reads _))) in *;
  repeat rewrite (proj2 (proj2 (apply_reads _))) in *.

Ltac wp_step :=
  lazymatch goal with
  | |- wp (bind _ _) _ _ => apply wp_bind
  | |- wp (try_catch _ _) _ _ => apply wp_try_catch
  | |- wp (request _) _ _ =>
      apply wp_request;
      let o := fresh "o" in
      let E := fresh "Epol" in
      intros o E; destruct o
  | |- wp (mutate _) _ _ => unfold mutate at 1
  | |- wp supabase_auth_getUser _ _ => unfold supabase_auth_getUser at 1
  | |- wp (profiles_select_single _) _ _ =>
      unfold profiles_select_single at 1
  | |- wp (orders_insert_select_single _) _ _ =>
      unfold orders_insert_select_single at 1
  | |- wp (orders_select_single _) _ _ => unfold orders_select_single at 1
  | |- wp (assignDriverToOrder _ _) _ _ => unfold assignDriverToOrder at 1
  | |- wp (for_each _ _) _ _ =>
      apply wp_for_each_removeFromCart; intros ? ? ? ? ? ? ? ? ?
  | |- wp (ret _) _ _ => apply wp_ret
  | |- wp get _ _ => apply wp_get
  | |- wp (update _) _ _ => apply wp_update
  | |- wp (throw _) _ _ => apply wp_throw
  | |- wp (toast _ _) _ _ => apply wp_toast
  | |- wp (match error (single ?l) with _ => _ end) _ _ =>
      let E := fresh "E" in destruct l as [|? [|? ?]] eqn:E
  | |- wp (match ?x with _ => _ end) _ _ =>
      let E := fresh "E" in destruct x eqn:E
  | |- wp (if ?x then _ else _) _ _ =>
      let E := fresh "E" in destruct x eqn:E
  end; cbv beta iota; world_simpl.

(** Rewrite [x :: y :: tr] as [[x; y] ++ tr]. *)
Ltac as_prefix t tr :=
  lazymatch t with
  | tr => constr:(@nil (Call * Outcome))
  | ?x :: ?t' => let l := as_prefix t' tr in constr:(x :: l)
  end.

(* ===================================================================== *)
(** ** Cart quantities                                                    *)
(* ===================================================================== *)

Lemma existsb_filter_negb {A : Type} (f : A -> bool) (l : list A) :
  existsb f (filter (fun x => negb (f x)) l) = false.
Proof.
  induction l as [|x l IH]; cbn; [reflexivity|].
  destruct (f x) eqn:E; cbn; [exact IH|]. rewrite E. exact IH.
Qed.

(** C9. For every cart state, product id and [newQuantity < 1],
    [handleUpdateQuantity] is a no-op: it returns leaving the whole world
    (the cart in particular) as it was, and sends no request. *)
Theorem updateQuantity_below_one_is_noop
  (w : World) (productId : string) (newQuantity : Z) :
  newQuantity < 1 ->
  handleUpdateQuantity productId newQuantity w = (Val tt, w) /\
  cartItems (exec (handleUpdateQuantity productId newQuantity) w)
  = cartItems w /\
  issued (handleUpdateQuantity productId newQuantity) w = [].
Proof.
  intros H. apply Z.ltb_lt in H.
  assert (Hrun : handleUpdateQuantity productId newQuantity w = (Val tt, w)).
  { unfold handleUpdateQuantity, bind, get. rewrite H. reflexivity. }
  split; [exact Hrun|]. split.
  - unfold exec. rewrite Hrun. reflexivity.
  - apply issued_intro. unfold exec. rewrite Hrun. reflexivity.
Qed.

Lemma updateQuantity_below_one_is_noop_witness :
  let w := Sample.world (Some "u1") Sample.obliging in
  handleUpdateQuantity "A" 0 w = (Val tt, w) /\
  cartItems (exec (handleUpdateQuantity "A" 0) w) = cartItems w /\
  issued (handleUpdateQuantity "A" 0) w = [].
Proof.
  apply updateQuantity_below_one_is_noop. reflexivity.
Defined.

(** C10. [updateCartQuantity] called with a quantity below 1 sends exactly
    one request, the delete of the [(userId, productId)] line, and no
    update; it returns [null] and never throws, whatever the backend
    answers. When the backend performs the delete, no line with that key
    is left in [carts]; otherwise [carts] is as before. The React state is
    not touched. *)
Theorem updateCartQuantity_below_one_deletes
  (w : World) (userId productId : string) (quantity : Z) :
  quantity < 1 ->
  let run := updateCartQuantity userId productId quantity in
  let o := policy w (trace w) (CartsDelete userId productId) in
  let carts' := Remote.carts (remote (exec run w)) in
  result run w = Val None /\
  issued run w = [(CartsDelete userId productId, o)] /\
  match o with
  | Applied =>
      carts' = filter (fun row => negb (cart_key userId productId row))
                      (Remote.carts (remote w)) /\
      existsb (cart_key userId productId) carts' = false
  | _ => carts' = Remote.carts (remote w)
  end /\
  incl carts' (Remote.carts (remote w)) /\
  local_eq w (exec run w).
Proof.
  intros H run o carts'. apply Z.ltb_lt in H.
  assert (Hrun : run w = (Val None, snd (removeFromCart userId productId w))).
  { subst run. unfold updateCartQuantity, try_catch, bind. rewrite H.
    rewrite removeFromCart_run. reflexivity. }
  subst carts'. unfold result, exec. rewrite Hrun. clear Hrun.
  rewrite removeFromCart_run. cbn [fst snd]. cbv zeta. fold o.
  split; [reflexivity|]. split.
  { rewrite <- (issued_intro run w [(CartsDelete userId productId, o)]);
      [reflexivity|].
    unfold exec. subst run.
    unfold updateCartQuantity, try_catch, bind. rewrite H.
    rewrite removeFromCart_run. reflexivity. }
  cbn [with_request remote cartItems orders toasts showLoginRequired
       currentPage policy].
  split; [|split].
  - destruct o; try reflexivity.
    destruct (remote w); cbn. split; [reflexivity|].
    apply existsb_filter_negb.
  - destruct o; try apply incl_refl.
    destruct (remote w); cbn. apply incl_filter.
  - unfold local_eq. cbn. repeat split.
Qed.

Lemma updateCartQuantity_below_one_deletes_witness :
  let w := Sample.world (Some "u1") Sample.obliging in
  let run := updateCartQuantity "u1" "A" 0 in
  result run w = Val None /\
  issued run w = [(CartsDelete "u1" "A", Applied)] /\
  Remote.carts (remote (exec run w)) = [CartRow.mk "u1" "B" 1].
Proof.
  pose proof (updateCartQuantity_below_one_deletes
                (Sample.world (Some "u1") Sample.obliging) "u1" "A" 0
                eq_refl) as H.
  cbv zeta in H. destruct H as (H1 & H2 & H3 & _).
  split; [exact H1|]. split; [exact H2|].
  cbn [policy Sample.world Sample.obliging] in H3. exact (proj1 H3).
Defined.

(* ===================================================================== *)
(** ** Checkout                                                           *)
(* ===================================================================== *)

Lemma order_items_after_order_insert r p :
  Remote.order_items (apply_call (OrdersInsert p) r) = Remote.order_items r.
Proof. destruct r; reflexivity. Qed.

Lemma order_items_after_inserts r p rows :
  Remote.order_items (apply_call (OrderItemsInsert rows)
                        (apply_call (OrdersInsert p) r))
  = Remote.order_items r ++ rows.
Proof. destruct r; reflexivity. Qed.

Ltac use_loop_facts :=
  repeat match goal with
    | H : cartItems ?w2 = _ |- context [cartItems ?w2] => is_var w2; rewrite H
    | H : orders ?w2 = _ |- context [orders ?w2] => is_var w2; rewrite H
    | H : toasts ?w2 = _ |- context [toasts ?w2] => is_var w2; rewrite H
    | H : trace ?w2 = _ |- context [trace ?w2] => is_var w2; rewrite H
    | H : Remote.order_items (remote ?w2) = _
      |- context [Remote.order_items (remote ?w2)] => is_var w2; rewrite H
    end.

Ltac trace_prefix :=
  lazymatch goal with
  | |- exists l, ?d ++ ?t = l ++ ?tr /\ _ =>
      let pre := as_prefix t tr in
      exists (d ++ pre); split;
      [change t with (pre ++ tr); apply app_assoc|]
  | |- exists l, ?t = l ++ ?tr /\ _ =>
      let l := as_prefix t tr in exists l; split; [reflexivity|]
  end.

Ltac solve_fallback :=
  right; split; [reflexivity|];
  first
    [ left; intros ? Hin; cbn in Hin;
      repeat (destruct Hin as [Hin|Hin]; [discriminate Hin|]); exact Hin
    | right; do 2 eexists; split; [left; reflexivity | reflexivity] ].

Ltac only_applied_inserts :=
  let Hin := fresh "Hin" in
  intros ? ? Hin;
  try (apply in_app_or in Hin; destruct Hin as [Hin|Hin];
       [ match goal with
         | Hd : forallb is_carts_delete _ = true |- _ =>
             let Hc := fresh in
             destruct (carts_delete_only _ _ _ Hd Hin) as (? & ? & Hc);
             discriminate Hc
         end |]);
  cbn in Hin;
  repeat (destruct Hin as [Hin|Hin];
          [first [discriminate Hin | inversion Hin; reflexivity]|]);
  contradiction.

Ltac items_recorded :=
  first
    [ left; rewrite order_items_after_inserts; apply f_equal; symmetry;
      match goal with E : map _ _ = _ :: _ |- _ => exact E end
    | left; rewrite order_items_after_order_insert;
      etransitivity; [symmetry; apply app_nil_r|]; apply f_equal; symmetry;
      match goal with E : map _ _ = [] |- _ => exact E end
    | right; eexists; try (apply in_or_app; right); left; reflexivity ].

(** Every run of [handleCheckout] returns, removes the selected lines from
    the cart and ends in one of the two ways. *)
Lemma handleCheckout_spec w ids di :
  wp (handleCheckout ids di) (checkout_post w ids di) w.
Proof.
  unfold handleCheckout.
  repeat wp_step; unfold checkout_post, checkout_persisted, checkout_fallback;
    cbv zeta; world_simpl;
    (split; [reflexivity|]); use_loop_facts; (split; [reflexivity|]);
    trace_prefix; try solve_fallback.
  all: left;
    match goal with
    | E : Remote.auth_user _ = Some ?s |- _ => exists s
    end;
    split; [assumption|]; split; [reflexivity|]; split;
    [only_applied_inserts | items_recorded].
Qed.

(** A number of magnitude at most [2^53] is held as it is. *)
Lemma js_number_exact z : Z.abs z <= max_safe -> js_number z = z.
Proof.
  intros H. unfold js_number. apply Z.leb_le in H. rewrite H. reflexivity.
Qed.

Lemma sumLines_nonneg lines :
  Forall (fun item =>
            0 <= Product.price (CartItem.product item) /\
            0 <= CartItem.quantity item) lines ->
  0 <= sumLines lines.
Proof.
  induction 1 as [|item rest [Hp Hq] _ IH]; cbn [sumLines]; [lia|].
  unfold lineTotal. nia.
Qed.

(** [reduce] adds up the line totals as long as they are held exactly. *)
Lemma fold_left_lineTotal (lines : list CartItem.t) : forall acc,
  Forall (fun item =>
            0 <= Product.price (CartItem.product item) /\
            0 <= CartItem.quantity item) lines ->
  0 <= acc -> acc + sumLines lines <= max_safe ->
  fold_left
    (fun total item =>
       js_add total
         (js_mul (Product.price (CartItem.product item))
                 (CartItem.quantity item)))
    lines acc
  = acc + sumLines lines.
Proof.
  induction lines as [|item rest IH]; intros acc Hall Hacc Hmax;
    cbn [fold_left sumLines] in *.
  - lia.
  - inversion Hall as [|? ? [Hp Hq] Hrest]; subst.
    pose proof (sumLines_nonneg rest Hrest) as Hs.
    assert (Hl : 0 <= lineTotal item) by (unfold lineTotal; nia).
    unfold js_mul, js_add. fold (lineTotal item).
    rewrite (js_number_exact (lineTotal item)) by lia.
    rewrite (js_number_exact (acc + lineTotal item)) by lia.
    rewrite IH by (try assumption; lia). lia.
Qed.

Lemma computeTotal_formula sel di :
  exact_amounts sel (if is_delivery (deliveryOption_of di) then 59 else 0) ->
  computeTotal sel di
  = sumLines sel + (if is_delivery (deliveryOption_of di) then 59 else 0).
Proof.
  intros [Hall Hmax]. unfold computeTotal.
  pose proof (sumLines_nonneg sel Hall) as Hs.
  assert (Hfee : 0 <= (if is_delivery (deliveryOption_of di) then 59 else 0))
    by (destruct (is_delivery _); lia).
  rewrite fold_left_lineTotal by (try assumption; lia).
  unfold js_add. apply js_number_exact. lia.
Qed.

(** Whatever happens, a checkout appends exactly one order, made of the
    selected lines with the computed total, pending and unassigned. *)
Lemma handleCheckout_appends_one w ids di :
  let sel := selectItems (cartItems w) ids in
  let w' := exec (handleCheckout ids di) w in
  exists o,
    orders w' = orders w ++ [o] /\
    Order.items o = sel /\
    Order.totalAmount o = computeTotal sel di /\
    Order.deliveryOption o = js_or (deliveryOption_of di) "delivery" /\
    Order.status o = Pending /\
    Order.driver o = "Unassigned" /\
    cartItems w' = cartWithout (cartItems w) ids.
Proof.
  intros sel w'.
  destruct (handleCheckout_spec w ids di) as (_ & Hcart & l & _ & [Hp|Hf]).
  - destruct Hp as (u & _ & Ho & _). eexists. split; [exact Ho|].
    repeat split; try reflexivity; exact Hcart.
  - destruct Hf as (Ho & _). eexists. split; [exact Ho|].
    repeat split; try reflexivity; exact Hcart.
Qed.

Lemma cartWithout_disjoint cart ids item s :
  In item (cartWithout cart ids) -> In s (selectItems cart ids) ->
  item_id item <> item_id s.
Proof.
  unfold cartWithout, selectItems. rewrite !filter_In.
  intros [_ H1] [_ H2] Heq. rewrite Heq, H2 in H1. discriminate H1.
Qed.

(** C1 (as the code behaves). When no session is present, [handleCheckout]
    raises the login prompt and the "Please sign in" notification, and then
    its [catch] block still appends the fallback order to the order list
    and removes the selected lines from the cart. *)
Theorem checkout_without_session_still_records_order
  (w : World) (ids : list string) (di : option DeliveryInfo.t) :
  Remote.auth_user (remote w) = None ->
  let sel := selectItems (cartItems w) ids in
  let w' := exec (handleCheckout ids di) w in
  orders w' = orders w ++ [fallbackOrder w sel (computeTotal sel di) di] /\
  cartItems w' = cartWithout (cartItems w) ids /\
  match policy w (trace w) AuthGetUser with
  | Rejected _ => True
  | _ =>
      showLoginRequired w' = true /\
      In (ToastError, "Please sign in to place your order.") (toasts w')
  end.
Proof.
  intros Hnone sel w'. subst sel w'.
  change (wp (handleCheckout ids di)
            (fun _ w' =>
               orders w' = orders w ++
                 [fallbackOrder w (selectItems (cartItems w) ids)
                    (computeTotal (selectItems (cartItems w) ids) di) di] /\
               cartItems w' = cartWithout (cartItems w) ids /\
               match policy w (trace w) AuthGetUser with
               | Rejected _ => True
               | _ =>
                   showLoginRequired w' = true /\
                   In (ToastError, "Please sign in to place your order.")
                      (toasts w')
               end) w).
  unfold handleCheckout.
  repeat wp_step; try congruence;
    match goal with
    | E : policy w (trace w) AuthGetUser = _ |- _ => rewrite E
    end;
    repeat split; auto; right; right; left; reflexivity.
Qed.

Lemma checkout_without_session_still_records_order_witness :
  let w := Sample.world None Sample.obliging in
  let w' := exec (handleCheckout ["A"] (Sample.delivery "pickup")) w in
  length (orders w') = 2%nat /\
  cartItems w' = [CartItem.mk Sample.tulips 1] /\
  showLoginRequired w' = true.
Proof.
  pose proof (checkout_without_session_still_records_order
                (Sample.world None Sample.obliging) ["A"]
                (Sample.delivery "pickup") eq_refl) as H.
  cbv zeta in H. destruct H as (H1 & H2 & H3).
  split; [rewrite H1; reflexivity|]. split; [exact H2|]. exact (proj1 H3).
Defined.

(** C2 (amended). For a non-empty delivery option, as [CartPage] always
    passes one, and lines whose amounts are held exactly (no negative price
    or quantity, exact total with the fee at most [2^53]), the order that
    [handleCheckout] appends satisfies the total invariant, on the
    persisted path and on the fallback path alike: whatever the backend
    answers. *)
Theorem checkout_invariant_for_exact_amounts
  (w : World) (ids : list string) (address : option string) (d : string) :
  truthy d = true ->
  exact_amounts (selectItems (cartItems w) ids) (feeOf d) ->
  exists o,
    orders (exec (handleCheckout ids (Some (DeliveryInfo.mk address (Some d))))
              w)
    = orders w ++ [o] /\
    Order.items o = selectItems (cartItems w) ids /\
    Order.deliveryOption o = d /\
    order_total_invariant o.
Proof.
  intros Hd Hexact.
  destruct (handleCheckout_appends_one w ids
              (Some (DeliveryInfo.mk address (Some d))))
    as (o & Ho & Hitems & Htotal & Hopt & _).
  exists o. split; [exact Ho|]. split; [exact Hitems|].
  assert (Hopt' : Order.deliveryOption o = d).
  { rewrite Hopt. cbn. rewrite Hd. reflexivity. }
  split; [exact Hopt'|].
  unfold order_total_invariant.
  rewrite Htotal, Hitems, Hopt', computeTotal_formula; [reflexivity|].
  exact Hexact.
Qed.

Lemma sample_exact_amounts d :
  exact_amounts
    (selectItems (cartItems (Sample.world (Some "u1") Sample.no_inserts))
                 ["A"])
    (feeOf d).
Proof.
  split.
  - repeat constructor; cbn; lia.
  - unfold feeOf, max_safe. destruct (String.eqb d "delivery"); cbn; lia.
Qed.

Lemma checkout_invariant_for_exact_amounts_witness :
  exists o,
    orders (exec (handleCheckout ["A"] (Sample.delivery "delivery"))
              (Sample.world (Some "u1") Sample.no_inserts))
    = orders (Sample.world (Some "u1") Sample.no_inserts) ++ [o] /\
    order_total_invariant o.
Proof.
  destruct (checkout_invariant_for_exact_amounts
              (Sample.world (Some "u1") Sample.no_inserts) ["A"]
              (Some "Road 1") "delivery" eq_refl
              (sample_exact_amounts "delivery"))
    as (o & Ho & _ & _ & Hinv).
  exists o. split; [exact Ho | exact Hinv].
Defined.

(** The invariant fails once a line total passes [2^53]: for a price and a
    quantity that both fit an [integer] column, the order appended for
    pickup records a total one above the exact sum of its lines, on the
    persisted path and on the fallback path. *)
Lemma checkout_invariant_fails_for_large_amounts :
  let audit (w : World) :=
    map (fun o =>
           (Order.totalAmount o,
            sumLines (Order.items o) + feeOf (Order.deliveryOption o)))
        (orders (exec (handleCheckout ["A"] (Sample.delivery "pickup")) w)) in
  audit (Large.world Sample.obliging)
  = [(259, 259); (9007201398030336, 9007201398030335)] /\
  audit (Large.world Sample.no_inserts)
  = [(259, 259); (9007201398030336, 9007201398030335)].
Proof. split; vm_compute; reflexivity. Qed.

(** A call without [deliveryInfo], which no caller in the application
    makes: on the sample cart [A x 2 at 100] the total is 200 and the order
    is recorded as a delivery, on both paths. *)
Example checkout_without_deliveryInfo_sample :
  let persisted :=
    exec (handleCheckout ["A"] None)
         (Sample.world (Some "u1") Sample.obliging) in
  let fallback :=
    exec (handleCheckout ["A"] None)
         (Sample.world (Some "u1") Sample.no_inserts) in
  map (fun o => (Order.id o, Order.totalAmount o, Order.deliveryOption o))
      (orders persisted)
  = [("order-1", 259, "delivery"); ("order-7", 200, "delivery")] /\
  map (fun o => (Order.id o, Order.totalAmount o, Order.deliveryOption o))
      (orders fallback)
  = [("order-1", 259, "delivery"); ("1700000000000", 200, "delivery")].
Proof. split; vm_compute; reflexivity. Qed.

(** C3 (amended). For every cart, selection and delivery option [d] passed
    to checkout such that the selected lines have no negative price or
    quantity and their exact total with the fee is at most [2^53]: the
    total computed by [handleCheckout], the total shown by [CartPage], and
    the [totalAmount] of the order the checkout appends all equal the sum
    of [price * quantity] over the selected lines plus 59 if [d] is
    ["delivery"] and plus 0 otherwise. *)
Theorem checkout_total_is_lines_plus_fee_when_exact
  (w : World) (ids : list string) (address : option string) (d : string) :
  let sel := selectItems (cartItems w) ids in
  let di := Some (DeliveryInfo.mk address (Some d)) in
  exact_amounts sel (feeOf d) ->
  computeTotal sel di = sumLines sel + feeOf d /\
  CartPage.total (cartItems w) ids d = sumLines sel + feeOf d /\
  exists o,
    orders (exec (handleCheckout ids di) w) = orders w ++ [o] /\
    Order.totalAmount o = sumLines sel + feeOf d.
Proof.
  intros sel di Hexact.
  assert (Hc : computeTotal sel di = sumLines sel + feeOf d).
  { rewrite computeTotal_formula; [reflexivity | exact Hexact]. }
  split; [exact Hc|]. split.
  - destruct Hexact as [Hall Hmax].
    pose proof (sumLines_nonneg sel Hall) as Hs.
    assert (Hfee : 0 <= feeOf d)
      by (unfold feeOf; destruct (String.eqb d "delivery"); lia).
    unfold CartPage.total, CartPage.subtotal, CartPage.selectedCartItems,
      CartPage.deliveryFee.
    fold (selectItems (cartItems w) ids). fold sel. fold (feeOf d).
    rewrite fold_left_lineTotal by (try assumption; lia).
    unfold js_add. apply js_number_exact. lia.
  - destruct (handleCheckout_appends_one w ids di)
      as (o & Ho & _ & Htotal & _).
    exists o. split; [exact Ho|]. rewrite Htotal. exact Hc.
Qed.

Lemma checkout_total_is_lines_plus_fee_when_exact_witness :
  computeTotal
    (selectItems (cartItems (Sample.world (Some "u1") Sample.no_inserts))
                 ["A"])
    (Sample.delivery "delivery")
  = 259.
Proof.
  exact (proj1 (checkout_total_is_lines_plus_fee_when_exact
                  (Sample.world (Some "u1") Sample.no_inserts) ["A"]
                  (Some "Road 1") "delivery"
                  (sample_exact_amounts "delivery"))).
Defined.

(** Above [2^53] the computed total is a rounded sum: for a price and a
    quantity that both fit an [integer] column, the product is rounded up
    by one and the sum with the fee by one more. *)
Lemma checkout_total_rounds_large_amounts :
  let sel := selectItems [Large.line] ["A"] in
  computeTotal sel (Sample.delivery "delivery") = 9007201398030396 /\
  CartPage.total [Large.line] ["A"] "delivery" = 9007201398030396 /\
  sumLines sel + feeOf "delivery" = 9007201398030394.
Proof. repeat split; vm_compute; reflexivity. Qed.

(** The scenario of the specification: [A x 2 at 100] is 200 for pickup and
    259 for delivery. *)
Example checkout_total_scenario :
  let cart := [CartItem.mk Sample.roses 2] in
  computeTotal (selectItems cart ["A"]) (Sample.delivery "pickup") = 200 /\
  computeTotal (selectItems cart ["A"]) (Sample.delivery "delivery") = 259.
Proof. split; reflexivity. Qed.

Lemma sample_persisted_requests :
  issued (handleCheckout ["A"] (Sample.delivery "pickup"))
         (Sample.world (Some "u1") Sample.obliging)
  = Sample.persisted_requests.
Proof. vm_compute. reflexivity. Qed.

(** C5. If the order insert of a checkout is answered with anything but
    success, the fallback order is appended to the local order list, with
    status [Pending], driver ["Unassigned"] and the total that the
    persisted path records for the same selection and delivery
    information, and the selected lines are removed from the cart. *)
Theorem checkout_insert_failure_falls_back
  (w : World) (ids : list string) (di : option DeliveryInfo.t)
  (p : OrderPayload.t) (o : Outcome) :
  let run := handleCheckout ids di in
  let sel := selectItems (cartItems w) ids in
  let total := computeTotal sel di in
  let w' := exec run w in
  In (OrdersInsert p, o) (issued run w) ->
  o <> Applied ->
  exists fb,
    orders w' = orders w ++ [fb] /\
    fb = fallbackOrder w sel total di /\
    Order.status fb = Pending /\
    Order.driver fb = "Unassigned" /\
    Order.totalAmount fb = total /\
    (forall row, Order.totalAmount (newOrder w row sel total)
                 = Order.totalAmount fb) /\
    cartItems w' = cartWithout (cartItems w) ids /\
    (forall item s, In item (cartItems w') -> In s sel ->
                    item_id item <> item_id s).
Proof.
  intros run sel total w' Hin Hbad.
  destruct (handleCheckout_spec w ids di)
    as (_ & Hcart & l & Htr & Hcases).
  fold run w' in Hcart, Htr, Hcases.
  rewrite (issued_intro run w l Htr) in Hin.
  destruct Hcases as [(u & _ & _ & Hall & _) | (Ho & _)].
  - exfalso. exact (Hbad (Hall p o Hin)).
  - eexists. split; [exact Ho|]. repeat split; try assumption.
    intros item s Hitem Hs. rewrite Hcart in Hitem.
    exact (cartWithout_disjoint _ _ _ _ Hitem Hs).
Qed.

Lemma sample_refused_requests :
  issued (handleCheckout ["A"] (Sample.delivery "delivery"))
         (Sample.world (Some "u1") Sample.no_inserts)
  = Sample.refused_requests.
Proof. vm_compute. reflexivity. Qed.

Lemma checkout_insert_failure_falls_back_witness :
  let w := Sample.world (Some "u1") Sample.no_inserts in
  let w' := exec (handleCheckout ["A"] (Sample.delivery "delivery")) w in
  exists fb,
    orders w' = orders w ++ [fb] /\
    Order.status fb = Pending /\
    Order.driver fb = "Unassigned" /\
    Order.totalAmount fb = 259 /\
    cartItems w' = [CartItem.mk Sample.tulips 1].
Proof.
  assert (Hin : In (OrdersInsert
                      (checkoutPayload
                         (Sample.world (Some "u1") Sample.no_inserts)
                         "u1" ["A"] (Sample.delivery "delivery")),
                    Refused (Error "new row violates row-level security"))
                   (issued (handleCheckout ["A"] (Sample.delivery "delivery"))
                      (Sample.world (Some "u1") Sample.no_inserts))).
  { rewrite sample_refused_requests. left. reflexivity. }
  destruct (checkout_insert_failure_falls_back _ _ _ _ _ Hin
              ltac:(discriminate))
    as (fb & H1 & H2 & H3 & H4 & H5 & _ & H7 & _).
  exists fb. repeat split; assumption.
Defined.

(* ===================================================================== *)
(** ** Admin order workflow                                               *)
(* ===================================================================== *)

Ltac admin_leaf :=
  unfold admin_post; world_simpl; trace_prefix;
  split; intros Hm; cbn in Hm; first [reflexivity | discriminate Hm].

(** Each admin handler touches the local order list only on a run whose
    order mutations all reported success. *)
Lemma run_admin_spec a w : wp (run_admin a) (admin_post w) w.
Proof.
  destruct a; cbn [run_admin].
  - unfold handleUpdateStatus. repeat wp_step; admin_leaf.
  - unfold handleAcceptOrder. repeat wp_step; admin_leaf.
  - unfold handleAssignDriver. repeat wp_step; admin_leaf.
  - unfold handleDeleteOrder. repeat wp_step; admin_leaf.
Qed.

(** C6. For each admin order mutation (status update, accept, driver
    assignment, delete): if a mutation request of the run was answered with
    an error, the local order list is unchanged; and the local order list
    is unchanged unless some mutation request of the run reported
    success. *)
Theorem admin_mutation_local_after_remote (a : AdminMutation) (w : World) :
  let l := issued (run_admin a) w in
  let w' := exec (run_admin a) w in
  (mutation_failed l = true -> orders w' = orders w) /\
  (mutation_succeeded l = false -> orders w' = orders w).
Proof.
  intros l w'. destruct (run_admin_spec a w) as (l0 & Htr & H).
  fold w' in Htr, H. subst l. rewrite (issued_intro _ _ _ Htr). exact H.
Qed.

(** On the sample: a refused status update leaves the order list alone. *)
Lemma admin_mutation_local_after_remote_witness :
  let w := Sample.world (Some "u1") Sample.no_updates in
  orders (exec (run_admin (UpdateStatus "order-1" Delivered)) w) = orders w.
Proof.
  apply (proj1 (admin_mutation_local_after_remote
                  (UpdateStatus "order-1" Delivered)
                  (Sample.world (Some "u1") Sample.no_updates))).
  vm_compute. reflexivity.
Defined.

Lemma has_items_after_delete oid r :
  has_items oid (apply_call (OrderItemsDelete oid) r) = false /\
  has_items oid (apply_call (OrdersDelete oid)
                   (apply_call (OrderItemsDelete oid) r)) = false.
Proof.
  destruct r; unfold has_items; cbn.
  split; apply (existsb_filter_negb
                  (fun row => String.eqb (OrderItemRow.order_id row) oid)).
Qed.



Lemma acceptLocal_idempotent oid os :
  acceptLocal oid (acceptLocal oid os) = acceptLocal oid os.
Proof.
  unfold acceptLocal. rewrite map_map. apply map_ext. intros o.
  destruct (String.eqb (Order.id o) oid) eqn:E; cbn; rewrite E; reflexivity.
Qed.

Lemma acceptLocal_confirmed oid os n o :
  nth_error os n = Some o -> Order.status o = Confirmed ->
  nth_error (acceptLocal oid os) n = Some o.
Proof.
  intros Hn Hs. unfold acceptLocal. rewrite nth_error_map, Hn. cbn.
  destruct (String.eqb (Order.id o) oid); [|reflexivity].
  destruct o; cbn in *. subst. reflexivity.
Qed.

Lemma handleAcceptOrder_run w oid :
  let c := OrdersUpdateStatus oid Confirmed in
  let o := policy w (trace w) c in
  let w' := exec (handleAcceptOrder oid) w in
  orders w' = (if is_failure o then orders w
               else acceptLocal oid (orders w)) /\
  trace w' = (c, o) :: trace w /\
  policy w' = policy w.
Proof.
  intros c o w'. subst c o w'.
  change (wp (handleAcceptOrder oid)
            (fun _ w' =>
               orders w'
               = (if is_failure
                       (policy w (trace w) (OrdersUpdateStatus oid Confirmed))
                  then orders w else acceptLocal oid (orders w)) /\
               trace w'
               = (OrdersUpdateStatus oid Confirmed,
                  policy w (trace w) (OrdersUpdateStatus oid Confirmed))
                   :: trace w /\
               policy w' = policy w) w).
  unfold handleAcceptOrder.
  repeat wp_step;
    match goal with
    | E : policy w (trace w) _ = _ |- _ => rewrite E
    end;
    repeat split.
Qed.

(** C8. [handleAcceptOrder] leaves an order whose status is already
    [Confirmed] exactly as it is, whatever the backend answers; its local
    effect is a direct set of the status to [Confirmed] with no guard on
    the current status, and that set is idempotent on the order list for
    every order id: once an accept was reported successful, accepting
    again changes nothing. *)
Theorem accept_is_idempotent (w : World) (orderId : string) :
  let w1 := exec (handleAcceptOrder orderId) w in
  let w2 := exec (handleAcceptOrder orderId) w1 in
  (forall n o,
      nth_error (orders w) n = Some o -> Order.id o = orderId ->
      Order.status o = Confirmed ->
      nth_error (orders w1) n = Some o) /\
  acceptLocal orderId (acceptLocal orderId (orders w))
  = acceptLocal orderId (orders w) /\
  (if is_failure (policy w (trace w) (OrdersUpdateStatus orderId Confirmed))
   then orders w1 = orders w
   else orders w1 = acceptLocal orderId (orders w) /\ orders w2 = orders w1).
Proof.
  intros w1 w2.
  destruct (handleAcceptOrder_run w orderId) as (H1 & _ & _).
  destruct (handleAcceptOrder_run w1 orderId) as (H2 & _ & _).
  cbv zeta in H1, H2. fold w1 in H1, H2. fold w2 in H2.
  split; [|split].
  - intros n o Hn _ Hs. rewrite H1.
    destruct (is_failure _); [exact Hn|].
    exact (acceptLocal_confirmed _ _ _ _ Hn Hs).
  - apply acceptLocal_idempotent.
  - destruct (is_failure (policy w _ _)); [exact H1|].
    split; [exact H1|]. rewrite H2.
    destruct (is_failure _); [reflexivity|].
    rewrite H1. apply acceptLocal_idempotent.
Qed.

(** On the sample, whose order is already confirmed: accepting it once or
    twice leaves the order list as it is. *)
Lemma accept_is_idempotent_witness :
  let w := Sample.world (Some "u1") Sample.obliging in
  let w1 := exec (handleAcceptOrder "order-1") w in
  nth_error (orders w1) 0 = Some Sample.order1.
Proof.
  exact (proj1 (accept_is_idempotent
                  (Sample.world (Some "u1") Sample.obliging) "order-1")
               0%nat Sample.order1 eq_refl eq_refl eq_refl).
Defined.

(* ===================================================================== *)
(** ** Further properties: the cart                                       *)
(* ===================================================================== *)

Lemma find_id_none {A : Type} (key : A -> string) (p : string) (l : list A) :
  find (fun x => String.eqb (key x) p) l = None <-> ~ In p (map key l).
Proof.
  induction l as [|x l IH]; cbn.
  - tauto.
  - destruct (String.eqb_spec (key x) p) as [E|E].
    + split; [discriminate|]. intros H. exfalso. apply H. left. exact E.
    + rewrite IH. tauto.
Qed.

Lemma cartItemCount_sum (cart : list CartItem.t) : forall acc,
  fold_left (fun total item => total + CartItem.quantity item) cart acc
  = acc + cartItemCount cart.
Proof.
  unfold cartItemCount.
  induction cart as [|x cart IH]; intros acc; cbn [fold_left].
  - lia.
  - rewrite IH, (IH (0 + _)). lia.
Qed.

Lemma cartItemCount_cons x cart :
  cartItemCount (x :: cart) = CartItem.quantity x + cartItemCount cart.
Proof. unfold cartItemCount at 1. cbn. rewrite cartItemCount_sum. lia. Qed.

Lemma cartItemCount_app a b :
  cartItemCount (a ++ b) = cartItemCount a + cartItemCount b.
Proof.
  induction a as [|x a IH]; cbn [app].
  - reflexivity.
  - rewrite !cartItemCount_cons, IH. lia.
Qed.

(** Incrementing the lines of a product that has no line changes
    nothing. *)
Lemma bump_absent p q cart :
  ~ In p (map item_id cart) ->
  map (fun item =>
         if String.eqb (item_id item) p
         then CartItem.mk (CartItem.product item) (CartItem.quantity item + q)
         else item) cart = cart.
Proof.
  induction cart as [|x cart IH]; cbn; intros H; [reflexivity|].
  destruct (String.eqb_spec (item_id x) p) as [E|E]; [tauto|].
  rewrite IH; tauto.
Qed.

Lemma bump_ids p q cart :
  map item_id
    (map (fun item =>
            if String.eqb (item_id item) p
            then CartItem.mk (CartItem.product item)
                   (CartItem.quantity item + q)
            else item) cart)
  = map item_id cart.
Proof.
  rewrite map_map. apply map_ext. intros x.
  destruct (String.eqb (item_id x) p); reflexivity.
Qed.

Lemma quantityOf_cons p x cart :
  quantityOf p (x :: cart)
  = if String.eqb (item_id x) p
    then CartItem.quantity x + quantityOf p cart
    else quantityOf p cart.
Proof. reflexivity. Qed.

Lemma quantityOf_absent p cart :
  ~ In p (map item_id cart) -> quantityOf p cart = 0.
Proof.
  induction cart as [|x cart IH]; intros H; [reflexivity|].
  rewrite quantityOf_cons. cbn in H.
  destruct (String.eqb_spec (item_id x) p) as [E|E]; [tauto|].
  apply IH. tauto.
Qed.

Lemma quantityOf_app p a b :
  quantityOf p (a ++ b) = quantityOf p a + quantityOf p b.
Proof.
  induction a as [|x a IH]; cbn [app]; [reflexivity|].
  rewrite !quantityOf_cons, IH. destruct (String.eqb (item_id x) p); lia.
Qed.

Lemma bump_present p q cart :
  NoDup (map item_id cart) -> In p (map item_id cart) ->
  let cart' :=
    map (fun item =>
           if String.eqb (item_id item) p
           then CartItem.mk (CartItem.product item)
                  (CartItem.quantity item + q)
           else item) cart in
  quantityOf p cart' = quantityOf p cart + q /\
  cartItemCount cart' = cartItemCount cart + q.
Proof.
  induction cart as [|x cart IH]; intros Hnd Hin; [contradiction|].
  cbv zeta. cbn [map] in *. inversion Hnd as [|? ? Hx Hnd']; subst.
  rewrite !cartItemCount_cons, !quantityOf_cons.
  destruct (String.eqb_spec (item_id x) p) as [E|E].
  - rewrite <- E in *. rewrite bump_absent by exact Hx.
    unfold item_id at 1. cbn. fold (item_id x). rewrite String.eqb_refl.
    lia.
  - destruct Hin as [Hin|Hin]; [contradiction|].
    destruct (IH Hnd' Hin) as [H1 H2]. cbv zeta in H1, H2.
    rewrite H2, H1.
    destruct (String.eqb_spec (item_id x) p); [contradiction|]. lia.
Qed.

Lemma bump_other p q pid cart :
  pid <> p ->
  quantityOf pid
    (map (fun item =>
            if String.eqb (item_id item) p
            then CartItem.mk (CartItem.product item)
                   (CartItem.quantity item + q)
            else item) cart)
  = quantityOf pid cart.
Proof.
  intros Hne. induction cart as [|x cart IH]; [reflexivity|].
  cbn [map]. rewrite !quantityOf_cons, IH.
  destruct (String.eqb_spec (item_id x) p) as [E|E]; [|reflexivity].
  unfold item_id at 1. cbn. fold (item_id x).
  destruct (String.eqb_spec (item_id x) pid) as [E'|E']; [congruence|].
  reflexivity.
Qed.

(** X1. On a cart with one line per product and quantities of at least 1,
    adding [quantity >= 1] of a product keeps that shape, raises the
    quantity held of that product and the header's item count by exactly
    [quantity], and leaves the quantity of every other product as it
    was. *)
Theorem addToCart_adds_exactly
  (product : Product.t) (quantity : Z) (prev : list CartItem.t) :
  cart_ok prev -> 1 <= quantity ->
  let cart := addToCartUpdater product quantity prev in
  cart_ok cart /\
  quantityOf (Product.id product) cart
  = quantityOf (Product.id product) prev + quantity /\
  (forall pid, pid <> Product.id product ->
               quantityOf pid cart = quantityOf pid prev) /\
  cartItemCount cart = cartItemCount prev + quantity.
Proof.
  intros [Hnd Hq] Hpos. cbv zeta. unfold addToCartUpdater.
  destruct (find _ prev) as [x|] eqn:Ef.
  - assert (Hin : In (Product.id product) (map item_id prev)).
    { apply find_some in Ef. destruct Ef as [Hx Hid].
      apply String.eqb_eq in Hid. rewrite <- Hid. apply in_map. exact Hx. }
    destruct (bump_present (Product.id product) quantity prev Hnd Hin)
      as [H1 H2]. cbv zeta in H1, H2.
    split; [|split; [exact H1|split; [|exact H2]]].
    + split; [rewrite bump_ids; exact Hnd|].
      rewrite Forall_map. eapply Forall_impl; [|exact Hq].
      intros a Ha. cbv beta in *.
      destruct (String.eqb (item_id a) (Product.id product)); cbn; lia.
    + intros pid Hne. apply bump_other. exact Hne.
  - apply (find_id_none item_id) in Ef.
    split; [|split; [|split]].
    + split.
      * rewrite map_app. cbn. apply NoDup_app; [exact Hnd | | ].
        -- constructor; [intros []|constructor].
        -- intros a Ha [Hb|[]]. unfold item_id in Hb at 1. cbn in Hb.
           subst a. exact (Ef Ha).
      * apply Forall_app. split; [exact Hq|]. constructor; [exact Hpos|].
        constructor.
    + rewrite quantityOf_app, (quantityOf_absent _ _ Ef), quantityOf_cons.
      unfold item_id at 1. cbn. rewrite String.eqb_refl. lia.
    + intros pid Hne. rewrite quantityOf_app, quantityOf_cons.
      unfold item_id at 1. cbn.
      destruct (String.eqb_spec (Product.id product) pid); [congruence|].
      lia.
    + rewrite cartItemCount_app, cartItemCount_cons. cbn [CartItem.quantity].
      change (cartItemCount []) with 0. lia.
Qed.

Lemma sample_cart_ok :
  cart_ok [CartItem.mk Sample.roses 2; CartItem.mk Sample.tulips 1].
Proof.
  split.
  - cbn. constructor.
    + intros [H|[]]. discriminate H.
    + constructor; [intros []|constructor].
  - repeat constructor; cbn; lia.
Qed.

Lemma addToCart_adds_exactly_witness :
  let prev := [CartItem.mk Sample.roses 2; CartItem.mk Sample.tulips 1] in
  let cart := addToCartUpdater Sample.roses 3 prev in
  cart_ok cart /\ quantityOf "A" cart = 5 /\ cartItemCount cart = 6.
Proof.
  destruct (addToCart_adds_exactly Sample.roses 3
              [CartItem.mk Sample.roses 2; CartItem.mk Sample.tulips 1]
              sample_cart_ok ltac:(lia))
    as (H1 & H2 & _ & H4).
  split; [exact H1|]. split; [exact H2|exact H4].
Defined.

Lemma find_append {A : Type} (f : A -> bool) (a b : list A) :
  find f (a ++ b)
  = match find f a with
    | Some x => Some x
    | None => find f b
    end.
Proof.
  induction a as [|x a IH]; cbn; [reflexivity|].
  destruct (f x); [reflexivity|exact IH].
Qed.

(** X2. Adding a product twice in a row is adding the two quantities at
    once, on any cart: no second line is created for it. *)
Theorem addToCart_twice (product : Product.t) (q1 q2 : Z)
  (prev : list CartItem.t) :
  addToCartUpdater product q2 (addToCartUpdater product q1 prev)
  = addToCartUpdater product (q1 + q2) prev.
Proof.
  unfold addToCartUpdater at 2 3.
  destruct (find _ prev) as [x|] eqn:Ef.
  - unfold addToCartUpdater.
    assert (Hfind : exists y,
               find (fun item => String.eqb (item_id item) (Product.id product))
                 (map (fun item =>
                         if String.eqb (item_id item) (Product.id product)
                         then CartItem.mk (CartItem.product item)
                                (CartItem.quantity item + q1)
                         else item) prev) = Some y).
    { clear -Ef. induction prev as [|a prev IH]; [discriminate|].
      cbn in *. destruct (String.eqb (item_id a) (Product.id product)) eqn:E.
      - unfold item_id at 1. cbn. fold (item_id a). rewrite E. eauto.
      - rewrite E. apply IH. exact Ef. }
    destruct Hfind as [y ->]. rewrite map_map. apply map_ext. intros a.
    destruct (String.eqb (item_id a) (Product.id product)) eqn:E.
    + unfold item_id at 1. cbn. fold (item_id a). rewrite E. cbn.
      f_equal. lia.
    + rewrite E. reflexivity.
  - unfold addToCartUpdater.
    pose proof Ef as Habs. apply (find_id_none item_id) in Habs.
    rewrite find_append, Ef. cbn [find].
    unfold item_id at 1. cbn [CartItem.product]. rewrite String.eqb_refl.
    rewrite map_app, (bump_absent _ _ _ Habs). cbn [map].
    unfold item_id at 1. cbn [CartItem.product CartItem.quantity].
    rewrite String.eqb_refl. reflexivity.
Qed.

Lemma loadCartItems_cons item rest ps :
  loadCartItems (item :: rest) ps
  = loadCartItems [item] ps ++ loadCartItems rest ps.
Proof. unfold loadCartItems. cbn. rewrite app_nil_r. reflexivity. Qed.

Lemma loadCartItems_lines
  (cartData : list CartRow.t) (products : list DbProduct.t) :
  cartLines (loadCartItems cartData (Some products))
  = map (fun row => (CartRow.product_id row, CartRow.quantity row))
        (filter (fun row =>
                   existsb (fun p => String.eqb (DbProduct.id p)
                                       (CartRow.product_id row)) products)
                cartData).
Proof.
  induction cartData as [|row rest IH]; [reflexivity|].
  rewrite loadCartItems_cons. unfold cartLines in *. rewrite map_app, IH.
  cbn [filter]. unfold loadCartItems at 1. cbn [flat_map].
  destruct (find _ products) as [p|] eqn:Ef.
  - pose proof (find_some _ _ Ef) as [Hin Hid].
    assert (Hex : existsb (fun p0 => String.eqb (DbProduct.id p0)
                                       (CartRow.product_id row)) products
                  = true).
    { apply existsb_exists. eauto. }
    rewrite Hex. cbn. unfold item_id. cbn.
    apply String.eqb_eq in Hid. rewrite Hid. reflexivity.
  - assert (Hex : existsb (fun p0 => String.eqb (DbProduct.id p0)
                                       (CartRow.product_id row)) products
                  = false).
    { apply not_true_is_false. intros H. apply existsb_exists in H.
      destruct H as (p & Hin & Hid).
      pose proof (find_none _ _ Ef p Hin) as H'. cbv beta in H'.
      congruence. }
    rewrite Hex. reflexivity.
Qed.

(** X3. The cart built at login holds, in the order of the backend rows,
    one line for each row whose product is among the products returned,
    with the row's quantity and the price of the first product row with
    that id; rows of products that are gone are dropped, and when the
    products query returns no data the cart is empty whatever the rows. *)
Theorem loadCartItems_joins
  (cartData : list CartRow.t) (products : list DbProduct.t) :
  cartLines (loadCartItems cartData (Some products))
  = map (fun row => (CartRow.product_id row, CartRow.quantity row))
        (filter (fun row =>
                   existsb (fun p => String.eqb (DbProduct.id p)
                                       (CartRow.product_id row)) products)
                cartData) /\
  Forall (fun item =>
            exists p,
              find (fun p => String.eqb (DbProduct.id p) (item_id item))
                   products = Some p /\
              Product.price (CartItem.product item) = DbProduct.price p)
         (loadCartItems cartData (Some products)) /\
  loadCartItems cartData None = [].
Proof.
  split; [|split].
  - apply loadCartItems_lines.
  - induction cartData as [|row rest IH]; [constructor|].
    rewrite loadCartItems_cons. apply Forall_app. split; [|exact IH].
    unfold loadCartItems. cbn [flat_map].
    destruct (find _ products) as [p|] eqn:Ef; [|constructor].
    cbn. constructor; [|constructor].
    exists p. unfold item_id. cbn.
    pose proof (find_some _ _ Ef) as [_ Hid]. apply String.eqb_eq in Hid.
    rewrite Hid. split; [exact Ef|reflexivity].
  - induction cartData as [|row rest IH]; [reflexivity|].
    rewrite loadCartItems_cons, IH. reflexivity.
Qed.

(* ===================================================================== *)
(** ** Further properties: the selection on the cart page                 *)
(* ===================================================================== *)

(** Whether the cart has a line of a product. *)
Lemma find_in_cart cart x :
  find (fun item => String.eqb (item_id item) x) cart
  = None <->
  existsb (fun item => String.eqb (item_id item) x) cart = false.
Proof.
  induction cart as [|a cart IH]; cbn; [tauto|].
  destruct (String.eqb (item_id a) x); cbn; [split; discriminate|exact IH].
Qed.

Lemma has_app s t x :
  JsSet.has (s ++ t) x = JsSet.has s x || JsSet.has t x.
Proof. unfold JsSet.has, includes. apply existsb_app. Qed.

Lemma has_add y s x :
  JsSet.has (JsSet.add y s) x = String.eqb x y || JsSet.has s x.
Proof.
  unfold JsSet.add. destruct (JsSet.has s y) eqn:E.
  - destruct (String.eqb_spec x y) as [->|]; [rewrite E|]; reflexivity.
  - rewrite has_app. unfold JsSet.has at 2, includes. cbn.
    rewrite orb_false_r. apply orb_comm.
Qed.

Lemma has_delete y s x :
  JsSet.has (JsSet.delete y s) x = JsSet.has s x && negb (String.eqb x y).
Proof.
  unfold JsSet.has, includes, JsSet.delete.
  induction s as [|z s IH]; cbn; [reflexivity|].
  destruct (String.eqb_spec z y) as [->|Hzy]; cbn.
  - rewrite IH. destruct (String.eqb_spec x y); cbn.
    + rewrite andb_false_r. reflexivity.
    + rewrite andb_true_r. reflexivity.
  - rewrite IH. destruct (String.eqb_spec x z) as [->|]; cbn; [|reflexivity].
    destruct (String.eqb_spec z y); [contradiction|reflexivity].
Qed.

Lemma has_In s x : JsSet.has s x = true <-> In x s.
Proof.
  unfold JsSet.has, includes. rewrite existsb_exists. split.
  - intros (y & Hy & E). apply String.eqb_eq in E. subst. exact Hy.
  - intros H. exists x. split; [exact H|apply String.eqb_refl].
Qed.

Lemma NoDup_add y s : NoDup s -> NoDup (JsSet.add y s).
Proof.
  intros H. unfold JsSet.add. destruct (JsSet.has s y) eqn:E; [exact H|].
  apply NoDup_app; [exact H|repeat constructor; intros []|].
  intros a Ha [<-|[]]. apply has_In in Ha. congruence.
Qed.

Lemma NoDup_delete y s : NoDup s -> NoDup (JsSet.delete y s).
Proof. apply NoDup_filter. Qed.

Lemma has_of_array_acc l : forall acc x,
  JsSet.has (fold_left (fun s y => JsSet.add y s) l acc) x
  = JsSet.has acc x || existsb (String.eqb x) l.
Proof.
  induction l as [|y l IH]; intros acc x; cbn [fold_left existsb].
  - rewrite orb_false_r. reflexivity.
  - rewrite IH, has_add. destruct (String.eqb x y), (JsSet.has acc x);
      reflexivity.
Qed.

Lemma NoDup_of_array_acc l : forall acc,
  NoDup acc -> NoDup (fold_left (fun s y => JsSet.add y s) l acc).
Proof.
  induction l as [|y l IH]; intros acc H; cbn [fold_left]; [exact H|].
  apply IH, NoDup_add, H.
Qed.

Lemma sync_adds prev cart : forall acc x,
  JsSet.has
    (fold_left
       (fun s item =>
          if negb (JsSet.has prev (item_id item))
          then JsSet.add (item_id item) s else s)
       cart acc) x
  = JsSet.has acc x
    || (existsb (fun item => String.eqb (item_id item) x) cart
        && negb (JsSet.has prev x)).
Proof.
  induction cart as [|a cart IH]; intros acc x; cbn [fold_left existsb].
  - rewrite orb_false_r. reflexivity.
  - rewrite IH.
    destruct (String.eqb_spec (item_id a) x) as [<-|Hne].
    + destruct (JsSet.has prev (item_id a)) eqn:E; cbn [negb].
      * rewrite !andb_false_r. reflexivity.
      * rewrite has_add, String.eqb_refl, !andb_true_r.
        destruct (JsSet.has acc (item_id a)), (existsb _ cart); reflexivity.
    + destruct (JsSet.has prev (item_id a)); cbn [negb orb]; [reflexivity|].
      rewrite has_add.
      destruct (String.eqb_spec x (item_id a)); [congruence|reflexivity].
Qed.

Lemma sync_deletes cart l : forall acc x,
  JsSet.has
    (fold_left
       (fun s id =>
          match find (fun item => String.eqb (item_id item) id) cart with
          | Some _ => s
          | None => JsSet.delete id s
          end)
       l acc) x
  = JsSet.has acc x
    && (negb (JsSet.has l x)
        || existsb (fun item => String.eqb (item_id item) x) cart).
Proof.
  induction l as [|y l IH]; intros acc x; cbn [fold_left].
  - change (JsSet.has [] x) with false. cbn [negb orb].
    rewrite andb_true_r. reflexivity.
  - rewrite IH.
    change (JsSet.has (y :: l) x) with (String.eqb x y || JsSet.has l x).
    destruct (find _ cart) as [i|] eqn:Ef.
    + destruct (String.eqb_spec x y) as [->|]; cbn [negb orb]; [|reflexivity].
      assert (existsb (fun item => String.eqb (item_id item) y) cart = true)
        as ->.
      { apply not_false_is_true. intros H. apply find_in_cart in H.
        congruence. }
      rewrite !orb_true_r. reflexivity.
    + apply find_in_cart in Ef. rewrite has_delete.
      destruct (String.eqb_spec x y) as [->|]; cbn [negb orb].
      * rewrite Ef, !andb_false_r. reflexivity.
      * rewrite andb_true_r. reflexivity.
Qed.

Lemma NoDup_sync cart prev : NoDup prev -> NoDup (Selection.sync cart prev).
Proof.
  intros H. unfold Selection.sync. cbv zeta.
  assert (H1 : forall acc,
             NoDup acc ->
             NoDup (fold_left
                      (fun s item =>
                         if negb (JsSet.has prev (item_id item))
                         then JsSet.add (item_id item) s else s)
                      cart acc)).
  { induction cart as [|a cart IH]; intros acc Ha; cbn; [exact Ha|].
    apply IH. destruct (negb _); [apply NoDup_add|]; exact Ha. }
  generalize (H1 prev H). generalize (fold_left
                      (fun s item =>
                         if negb (JsSet.has prev (item_id item))
                         then JsSet.add (item_id item) s else s)
                      cart prev).
  clear H1. generalize prev at 1 as l. 
  induction l as [|y l IH]; intros acc Ha; cbn; [exact Ha|].
  apply IH. destruct (find _ cart); [|apply NoDup_delete]; exact Ha.
Qed.

(** X4. After the page's selection effect has run, the selected ids are
    exactly the product ids of the cart, whatever was selected before: ids
    that left the cart are dropped, every cart line is selected, and a line
    the user had deselected is selected again. The set stays free of
    duplicates. *)
Theorem selection_sync_selects_cart
  (cartItems : list CartItem.t) (prev : list string) (x : string) :
  JsSet.has (Selection.sync cartItems prev) x
  = existsb (fun item => String.eqb (item_id item) x) cartItems /\
  (NoDup prev -> NoDup (Selection.sync cartItems prev)).
Proof.
  split; [|apply NoDup_sync].
  unfold Selection.sync. cbv zeta. rewrite sync_deletes, sync_adds.
  destruct (JsSet.has prev x), (existsb _ cartItems); reflexivity.
Qed.

Lemma selection_sync_selects_cart_witness :
  let cart := [CartItem.mk Sample.roses 2; CartItem.mk Sample.tulips 1] in
  let deselected := Selection.handleToggleItem "B" (Selection.initial cart) in
  JsSet.has deselected "B" = false /\
  JsSet.has (Selection.sync cart deselected) "B" = true /\
  NoDup (Selection.sync cart deselected).
Proof.
  split; [reflexivity|].
  destruct (selection_sync_selects_cart
              [CartItem.mk Sample.roses 2; CartItem.mk Sample.tulips 1]
              (Selection.handleToggleItem "B"
                 (Selection.initial
                    [CartItem.mk Sample.roses 2; CartItem.mk Sample.tulips 1]))
              "B") as [H1 H2].
  split; [exact H1|]. apply H2. cbn.
  constructor; [intros []|constructor].
Defined.

(** X5. Toggling a product flips its membership in the selection and
    nobody else's; toggling it twice gives back the same membership for
    every product. *)
Theorem toggle_flips_one (productId : string) (prev : list string)
  (x : string) :
  JsSet.has (Selection.handleToggleItem productId prev) x
  = (if String.eqb x productId then negb (JsSet.has prev productId)
     else JsSet.has prev x) /\
  JsSet.has
    (Selection.handleToggleItem productId
       (Selection.handleToggleItem productId prev)) x
  = JsSet.has prev x.
Proof.
  assert (H : forall s y,
             JsSet.has (Selection.handleToggleItem productId s) y
             = (if String.eqb y productId then negb (JsSet.has s productId)
                else JsSet.has s y)).
  { intros s y. unfold Selection.handleToggleItem.
    destruct (JsSet.has s productId) eqn:E.
    - rewrite has_delete. destruct (String.eqb y productId); cbn [negb].
      + apply andb_false_r.
      + apply andb_true_r.
    - rewrite has_add. destruct (String.eqb_spec y productId) as [Heq|Hne].
      + reflexivity.
      + reflexivity. }
  split; [apply H|]. rewrite H.
  destruct (String.eqb_spec x productId) as [Heq|Hne].
  - rewrite H, String.eqb_refl, negb_involutive, Heq. reflexivity.
  - rewrite H. destruct (String.eqb_spec x productId); [contradiction|].
    reflexivity.
Qed.

Lemma has_initial cart x :
  JsSet.has (JsSet.of_array (map item_id cart)) x
  = existsb (fun item => String.eqb (item_id item) x) cart.
Proof.
  unfold JsSet.of_array. rewrite has_of_array_acc. cbn.
  induction cart as [|a cart IH]; cbn; [reflexivity|].
  rewrite IH, (String.eqb_sym x). reflexivity.
Qed.

(** X6. On a cart with one line per product and a selection drawn from it,
    "select all" empties the selection when every line is selected and
    otherwise selects exactly the cart's products. *)
Theorem selectAll_all_or_none
  (selectedItems : list string) (cartItems : list CartItem.t) :
  NoDup selectedItems -> NoDup (map item_id cartItems) ->
  incl selectedItems (map item_id cartItems) ->
  if forallb (fun item => JsSet.has selectedItems (item_id item)) cartItems
  then Selection.handleSelectAll selectedItems cartItems = []
  else forall x,
      JsSet.has (Selection.handleSelectAll selectedItems cartItems) x
      = existsb (fun item => String.eqb (item_id item) x) cartItems.
Proof.
  intros Hs Hc Hincl. unfold Selection.handleSelectAll.
  destruct (forallb _ cartItems) eqn:Hall.
  - assert (Hrev : incl (map item_id cartItems) selectedItems).
    { intros y Hy. apply in_map_iff in Hy. destruct Hy as (a & <- & Ha).
      rewrite forallb_forall in Hall. apply has_In, Hall, Ha. }
    assert (Hlen : length selectedItems = length cartItems).
    { rewrite <- (length_map item_id cartItems). apply Nat.le_antisymm.
      - apply NoDup_incl_length; assumption.
      - apply NoDup_incl_length; assumption. }
    rewrite Hlen, Nat.eqb_refl. reflexivity.
  - destruct (Nat.eqb_spec (length selectedItems) (length cartItems))
      as [Hlen|Hlen]; [|intros x; apply has_initial].
    exfalso. rewrite <- (length_map item_id cartItems) in Hlen.
    assert (Hrev : incl (map item_id cartItems) selectedItems).
    { apply NoDup_length_incl; [exact Hs| |exact Hincl].
      rewrite Hlen. apply Nat.le_refl. }
    apply not_true_iff_false in Hall. apply Hall.
    apply forallb_forall. intros a Ha. apply has_In, Hrev, in_map, Ha.
Qed.

Lemma selectAll_all_or_none_witness :
  let cart := [CartItem.mk Sample.roses 2; CartItem.mk Sample.tulips 1] in
  Selection.handleSelectAll ["A"; "B"] cart = [] /\
  JsSet.has (Selection.handleSelectAll ["A"] cart) "B" = true.
Proof.
  assert (Hc : NoDup (map item_id
                        [CartItem.mk Sample.roses 2;
                         CartItem.mk Sample.tulips 1])).
  { exact (proj1 sample_cart_ok). }
  split.
  - refine (selectAll_all_or_none ["A"; "B"] _ _ Hc _).
    + exact Hc.
    + apply incl_refl.
  - refine (selectAll_all_or_none ["A"] _ _ Hc _ "B").
    + constructor; [intros []|constructor].
    + intros y [<-|[]]. left. reflexivity.
Defined.

(* ===================================================================== *)
(** ** Further properties: cart handlers and the backend cart             *)
(* ===================================================================== *)

Ltac wp_step2 :=
  first
    [ wp_step
    | lazymatch goal with
      | |- wp (updateCartQuantity _ _ _) _ _ => unfold updateCartQuantity at 1
      | |- wp (carts_update_select_single _ _ _) _ _ =>
          unfold carts_update_select_single at 1
      | |- wp (removeFromCart _ _) _ _ => unfold removeFromCart at 1
      | |- wp (handleUpdateQuantity _ _) _ _ => unfold handleUpdateQuantity at 1
      | |- wp (handleRemoveFromCart _) _ _ => unfold handleRemoveFromCart at 1
      | |- wp (CartButtons.minus _) _ _ => unfold CartButtons.minus at 1
      end; cbv beta iota; world_simpl ].

(** What the carts update and delete do to the rows. *)
Lemma carts_after_update u p q r :
  Remote.carts (apply_call (CartsUpdate u p q) r)
  = map (fun row => if cart_key u p row then CartRow.set_quantity q row
                    else row) (Remote.carts r).
Proof. destruct r; reflexivity. Qed.

Lemma carts_after_delete u p r :
  Remote.carts (apply_call (CartsDelete u p) r)
  = filter (fun row => negb (cart_key u p row)) (Remote.carts r).
Proof. destruct r; reflexivity. Qed.

(** The user id the cart handlers mirror to, if any. *)
Lemma handleUpdateQuantity_spec w pid q :
  1 <= q ->
  wp (handleUpdateQuantity pid q)
     (fun r w' =>
        r = Val tt /\
        cartItems w' = setQuantityLocal pid q (cartItems w) /\
        orders w' = orders w /\
        match userId w with
        | Some u =>
            if truthy u then
              let o := policy w (trace w) (CartsUpdate u pid q) in
              trace w' = (CartsUpdate u pid q, o) :: trace w /\
              Remote.carts (remote w')
              = match o with
                | Applied =>
                    map (fun row => if cart_key u pid row
                                    then CartRow.set_quantity q row
                                    else row) (Remote.carts (remote w))
                | _ => Remote.carts (remote w)
                end
            else trace w' = trace w /\ remote w' = remote w
        | None => trace w' = trace w /\ remote w' = remote w
        end) w.
Proof.
  intros Hq. assert (Hlt : (q <? 1) = false) by (apply Z.ltb_ge; lia).
  unfold handleUpdateQuantity.
  repeat wp_step2; try congruence;
    repeat match goal with
      | H : userId w = _ |- _ => rewrite H
      | H : truthy _ = _ |- _ => rewrite H
      | H : policy w (trace w) _ = _ |- _ => rewrite H
      end;
    cbv zeta; rewrite ?carts_after_update; repeat split.
Qed.

(** X7. For a quantity of at least 1, [handleUpdateQuantity] returns
    without throwing, sets the quantity of the lines of that product and
    touches no other line nor the orders; with a user id it sends exactly
    one carts update, and none without. When the backend does not perform
    the update the local change stays: it is not rolled back. *)
Theorem updateQuantity_sets_and_mirrors
  (w : World) (productId : string) (newQuantity : Z) :
  1 <= newQuantity ->
  let run := handleUpdateQuantity productId newQuantity in
  let w' := exec run w in
  result run w = Val tt /\
  cartItems w' = setQuantityLocal productId newQuantity (cartItems w) /\
  map item_id (cartItems w') = map item_id (cartItems w) /\
  orders w' = orders w /\
  match userId w with
  | Some u =>
      if truthy u then
        let o := policy w (trace w) (CartsUpdate u productId newQuantity) in
        issued run w = [(CartsUpdate u productId newQuantity, o)] /\
        Remote.carts (remote w')
        = match o with
          | Applied =>
              map (fun row => if cart_key u productId row
                              then CartRow.set_quantity newQuantity row
                              else row) (Remote.carts (remote w))
          | _ => Remote.carts (remote w)
          end
      else issued run w = [] /\ remote w' = remote w
  | None => issued run w = [] /\ remote w' = remote w
  end.
Proof.
  intros Hq run w'.
  destruct (handleUpdateQuantity_spec w productId newQuantity Hq)
    as (Hr & Hc & Ho & Hrest).
  fold run w' in Hr, Hc, Ho, Hrest.
  split; [exact Hr|]. split; [exact Hc|]. split.
  { rewrite Hc. unfold setQuantityLocal. rewrite map_map. apply map_ext.
    intros a. destruct (String.eqb (item_id a) productId); reflexivity. }
  split; [exact Ho|].
  destruct (userId w) as [u|]; [destruct (truthy u)|].
  - cbv zeta in *. destruct Hrest as [Ht Hrem]. split; [|exact Hrem].
    apply issued_intro. exact Ht.
  - destruct Hrest as [Ht Hrem]. split; [|exact Hrem].
    apply (issued_intro run w []). exact Ht.
  - destruct Hrest as [Ht Hrem]. split; [|exact Hrem].
    apply (issued_intro run w []). exact Ht.
Qed.

Lemma updateQuantity_sets_and_mirrors_witness :
  let w := Sample.world (Some "u1") Sample.no_inserts in
  let w' := exec (handleUpdateQuantity "A" 5) w in
  cartLines (cartItems w') = [("A", 5); ("B", 1)] /\
  remoteLines "u1" (Remote.carts (remote w')) = [("A", 5); ("B", 1)].
Proof.
  destruct (updateQuantity_sets_and_mirrors
              (Sample.world (Some "u1") Sample.no_inserts) "A" 5
              ltac:(lia)) as (_ & Hc & _ & _ & Hrest).
  cbv zeta in *. rewrite Hc. split; [reflexivity|].
  cbn [userId Sample.world truthy] in Hrest.
  destruct Hrest as [_ Hrem]. rewrite Hrem. reflexivity.
Defined.

Lemma handleRemoveFromCart_spec w pid :
  wp (handleRemoveFromCart pid)
     (fun r w' =>
        r = Val tt /\
        cartItems w' = removeLocal pid (cartItems w) /\
        orders w' = orders w /\
        userId w' = userId w /\
        match userId w with
        | Some u =>
            if truthy u then
              let o := policy w (trace w) (CartsDelete u pid) in
              trace w' = (CartsDelete u pid, o) :: trace w /\
              Remote.carts (remote w')
              = match o with
                | Applied =>
                    filter (fun row => negb (cart_key u pid row))
                           (Remote.carts (remote w))
                | _ => Remote.carts (remote w)
                end
            else trace w' = trace w /\ remote w' = remote w
        | None => trace w' = trace w /\ remote w' = remote w
        end) w.
Proof.
  unfold handleRemoveFromCart.
  repeat wp_step2;
    repeat match goal with
      | H : userId w = _ |- _ => rewrite H
      | H : truthy _ = _ |- _ => rewrite H
      | H : policy w (trace w) _ = _ |- _ => rewrite H
      end;
    cbv zeta; rewrite ?carts_after_delete; repeat split.
Qed.

Lemma removeLocal_idempotent pid cart :
  removeLocal pid (removeLocal pid cart) = removeLocal pid cart.
Proof.
  unfold removeLocal. induction cart as [|a cart IH]; cbn; [reflexivity|].
  destruct (String.eqb (item_id a) pid) eqn:E; cbn; [exact IH|].
  rewrite E. cbn. rewrite IH. reflexivity.
Qed.

Lemma removeLocal_absent pid cart :
  ~ In pid (map item_id cart) -> removeLocal pid cart = cart.
Proof.
  unfold removeLocal. induction cart as [|a cart IH]; cbn; intros H;
    [reflexivity|].
  destruct (String.eqb_spec (item_id a) pid) as [E|E]; [tauto|].
  cbn. rewrite IH; tauto.
Qed.

Lemma removeLocal_gone pid cart : ~ In pid (map item_id (removeLocal pid cart)).
Proof.
  unfold removeLocal. intros H. apply in_map_iff in H.
  destruct H as (a & Ha & Hin). apply filter_In in Hin.
  destruct Hin as [_ Hne]. rewrite Ha, String.eqb_refl in Hne.
  discriminate Hne.
Qed.

(** X8. [handleRemoveFromCart] never throws, for any backend answer. It
    leaves no line of the product in the cart and keeps every other line;
    removing a product that has no line leaves the cart as it is, and so
    does removing the same product a second time. The orders are not
    touched. *)
Theorem removeFromCart_idempotent (w : World) (productId : string) :
  let run := handleRemoveFromCart productId in
  let w1 := exec run w in
  let w2 := exec run w1 in
  result run w = Val tt /\ result run w1 = Val tt /\
  cartItems w1 = removeLocal productId (cartItems w) /\
  ~ In productId (map item_id (cartItems w1)) /\
  cartItems w2 = cartItems w1 /\
  (~ In productId (map item_id (cartItems w)) -> cartItems w1 = cartItems w) /\
  orders w2 = orders w.
Proof.
  intros run w1 w2.
  destruct (handleRemoveFromCart_spec w productId) as (R1 & C1 & O1 & _).
  destruct (handleRemoveFromCart_spec w1 productId) as (R2 & C2 & O2 & _).
  fold run w1 in R1, C1, O1. fold run w2 in R2, C2, O2.
  split; [exact R1|]. split; [exact R2|]. split; [exact C1|].
  split; [rewrite C1; apply removeLocal_gone|].
  split; [rewrite C2, C1; apply removeLocal_idempotent|].
  split; [intros H; rewrite C1; apply removeLocal_absent, H|].
  rewrite O2, O1. reflexivity.
Qed.

Lemma removeFromCart_idempotent_witness :
  let w := Sample.world (Some "u1") Sample.no_updates in
  cartItems (exec (handleRemoveFromCart "Z") w) = cartItems w.
Proof.
  refine (proj1 (proj2 (proj2 (proj2 (proj2 (proj2
            (removeFromCart_idempotent
               (Sample.world (Some "u1") Sample.no_updates) "Z")))))) _).
  cbn. intros [H|[H|[]]]; discriminate H.
Defined.

(** The lines after a quantity change or a removal, locally and in the
    backend. *)
Lemma cartLines_setQuantity p q cart :
  cartLines (setQuantityLocal p q cart)
  = map (fun l => (fst l, if String.eqb (fst l) p then q else snd l))
        (cartLines cart).
Proof.
  unfold cartLines, setQuantityLocal. rewrite !map_map. apply map_ext.
  intros a. cbn. destruct (String.eqb (item_id a) p) eqn:E; [|reflexivity].
  unfold item_id in *. cbn. reflexivity.
Qed.

Lemma remoteLines_update u p q carts :
  remoteLines u
    (map (fun row => if cart_key u p row then CartRow.set_quantity q row
                     else row) carts)
  = map (fun l => (fst l, if String.eqb (fst l) p then q else snd l))
        (remoteLines u carts).
Proof.
  unfold remoteLines. induction carts as [|r carts IH]; [reflexivity|].
  cbn [map]. unfold cart_key at 1.
  destruct (String.eqb (CartRow.user_id r) u) eqn:Eu;
    destruct (String.eqb (CartRow.product_id r) p) eqn:Ep;
    cbn [andb filter CartRow.set_quantity CartRow.user_id];
    rewrite Eu; cbn [map fst snd CartRow.product_id CartRow.quantity];
    rewrite ?Ep, IH; reflexivity.
Qed.

Lemma cartLines_remove p cart :
  cartLines (removeLocal p cart)
  = filter (fun l => negb (String.eqb (fst l) p)) (cartLines cart).
Proof.
  unfold cartLines, removeLocal. induction cart as [|a cart IH];
    [reflexivity|].
  cbn [filter map fst]. destruct (String.eqb (item_id a) p); cbn [negb];
    [exact IH|]. cbn [map]. rewrite IH. reflexivity.
Qed.

Lemma remoteLines_delete u p carts :
  remoteLines u (filter (fun row => negb (cart_key u p row)) carts)
  = filter (fun l => negb (String.eqb (fst l) p)) (remoteLines u carts).
Proof.
  unfold remoteLines. induction carts as [|r carts IH]; [reflexivity|].
  cbn [filter]. unfold cart_key at 1.
  destruct (String.eqb (CartRow.user_id r) u) eqn:Eu; cbn [andb negb].
  - cbn [map filter fst].
    destruct (String.eqb (CartRow.product_id r) p); cbn [negb].
    + exact IH.
    + cbn [filter]. rewrite Eu. cbn [map]. rewrite IH. reflexivity.
  - cbn [filter]. rewrite Eu. exact IH.
Qed.

(** X9. While the backend performs the cart requests, the backend cart of
    a signed-in user keeps mirroring the local cart, line for line, through
    quantity changes, the minus button and removals. *)
Theorem cart_edits_keep_mirror
  (w : World) (u : string) (productId : string) (newQuantity : Z)
  (item : CartItem.t) :
  userId w = Some u -> truthy u = true -> mirrors u w ->
  (forall c, policy w (trace w) c = Applied) ->
  mirrors u (exec (handleUpdateQuantity productId newQuantity) w) /\
  mirrors u (exec (CartButtons.minus item) w) /\
  mirrors u (exec (handleRemoveFromCart productId) w).
Proof.
  intros Hu Ht Hm Hpol.
  assert (Hupd : forall p q,
             mirrors u (exec (handleUpdateQuantity p q) w)).
  { intros p q. destruct (Z.ltb_spec q 1) as [Hlt|Hge].
    - assert (Hrun : handleUpdateQuantity p q w = (Val tt, w)).
      { unfold handleUpdateQuantity, bind, get.
        apply Z.ltb_lt in Hlt. rewrite Hlt. reflexivity. }
      unfold exec. rewrite Hrun. exact Hm.
    - destruct (handleUpdateQuantity_spec w p q Hge) as (_ & Hc & _ & Hrest).
      rewrite Hu, Ht in Hrest. cbv zeta in Hrest.
      destruct Hrest as [_ Hrem]. rewrite Hpol in Hrem.
      unfold mirrors. rewrite Hc, Hrem, cartLines_setQuantity,
        remoteLines_update. f_equal. exact Hm. }
  split; [apply Hupd|]. split; [apply Hupd|].
  destruct (handleRemoveFromCart_spec w productId) as (_ & Hc & _ & _ & Hrest).
  rewrite Hu, Ht in Hrest. cbv zeta in Hrest.
  destruct Hrest as [_ Hrem]. rewrite Hpol in Hrem.
  unfold mirrors. rewrite Hc, Hrem, cartLines_remove, remoteLines_delete.
  f_equal. exact Hm.
Qed.

Lemma cart_edits_keep_mirror_witness :
  let w := Sample.world (Some "u1") Sample.obliging in
  mirrors "u1" (exec (handleUpdateQuantity "A" 7) w) /\
  mirrors "u1" (exec (CartButtons.minus (CartItem.mk Sample.roses 2)) w) /\
  mirrors "u1" (exec (handleRemoveFromCart "A") w).
Proof.
  apply (cart_edits_keep_mirror
           (Sample.world (Some "u1") Sample.obliging) "u1" "A" 7
           (CartItem.mk Sample.roses 2)); reflexivity.
Defined.

Lemma setQuantity_ok p q cart :
  1 <= q -> cart_ok cart -> cart_ok (setQuantityLocal p q cart).
Proof.
  intros Hq [Hnd Hall]. split.
  - unfold setQuantityLocal. rewrite map_map.
    erewrite map_ext; [exact Hnd|]. intros a. cbv beta.
    destruct (String.eqb (item_id a) p); reflexivity.
  - unfold setQuantityLocal. rewrite Forall_map.
    eapply Forall_impl; [|exact Hall]. intros a Ha. cbv beta in *.
    destruct (String.eqb (item_id a) p); cbn; lia.
Qed.

Lemma filter_ok (f : CartItem.t -> bool) cart :
  cart_ok cart -> cart_ok (filter f cart).
Proof.
  intros [Hnd Hall]. split.
  - clear Hall. induction cart as [|a cart IH]; cbn; [constructor|].
    cbn in Hnd. inversion Hnd as [|? ? Hx Hnd']; subst.
    destruct (f a); [|apply IH, Hnd']. cbn. constructor; [|apply IH, Hnd'].
    intros H. apply Hx. apply in_map_iff in H.
    destruct H as (b & Hb & Hin). apply filter_In in Hin.
    rewrite <- Hb. apply in_map, Hin.
  - apply Forall_forall. intros a Ha. apply filter_In in Ha.
    rewrite Forall_forall in Hall. apply Hall, Ha.
Qed.

(** X10. Every handler that edits the cart (a quantity change, the minus
    button, a removal, a checkout) returns without throwing and keeps the
    cart at one line per product with quantities of at least 1, whatever
    the backend answers. *)
Theorem cart_handlers_keep_cart_ok (h : CartHandler) (w : World) :
  cart_ok (cartItems w) ->
  result (run_cart h) w = Val tt /\
  cart_ok (cartItems (exec (run_cart h) w)).
Proof.
  intros Hok.
  assert (Hupd : forall p q,
             result (handleUpdateQuantity p q) w = Val tt /\
             cart_ok (cartItems (exec (handleUpdateQuantity p q) w))).
  { intros p q. destruct (Z.ltb_spec q 1) as [Hlt|Hge].
    - assert (Hrun : handleUpdateQuantity p q w = (Val tt, w)).
      { unfold handleUpdateQuantity, bind, get.
        apply Z.ltb_lt in Hlt. rewrite Hlt. reflexivity. }
      unfold result, exec. rewrite Hrun. split; [reflexivity|exact Hok].
    - destruct (handleUpdateQuantity_spec w p q Hge) as (Hr & Hc & _).
      split; [exact Hr|]. rewrite Hc. apply setQuantity_ok; assumption. }
  destruct h as [p q|item|p|ids di]; cbn [run_cart].
  - apply Hupd.
  - apply Hupd.
  - destruct (handleRemoveFromCart_spec w p) as (Hr & Hc & _).
    split; [exact Hr|]. rewrite Hc. apply filter_ok, Hok.
  - destruct (handleCheckout_spec w ids di) as (Hr & Hc & _).
    split; [exact Hr|]. rewrite Hc. apply filter_ok, Hok.
Qed.

Lemma cart_handlers_keep_cart_ok_witness :
  let w := Sample.world (Some "u1") Sample.no_inserts in
  cart_ok (cartItems (exec (run_cart (DoMinus (CartItem.mk Sample.tulips 1)))
                        w)).
Proof.
  exact (proj2 (cart_handlers_keep_cart_ok
                  (DoMinus (CartItem.mk Sample.tulips 1))
                  (Sample.world (Some "u1") Sample.no_inserts)
                  sample_cart_ok)).
Defined.

Lemma filter_key_after_update u p q carts :
  filter (cart_key u p)
    (map (fun row => if cart_key u p row then CartRow.set_quantity q row
                     else row) carts)
  = map (CartRow.set_quantity q) (filter (cart_key u p) carts).
Proof.
  induction carts as [|r carts IH]; [reflexivity|].
  cbn [map filter]. destruct (cart_key u p r) eqn:E.
  - assert (E' : cart_key u p (CartRow.set_quantity q r) = true)
      by (destruct r; exact E).
    rewrite E'. cbn [map]. rewrite IH. reflexivity.
  - rewrite E. exact IH.
Qed.

Lemma updateCartQuantity_spec w u p q :
  1 <= q ->
  wp (updateCartQuantity u p q)
     (fun r w' =>
        let o := policy w (trace w) (CartsUpdate u p q) in
        trace w' = (CartsUpdate u p q, o) :: trace w /\
        local_eq w' w /\
        match o with
        | Applied =>
            r = Val (data (single (map (CartRow.set_quantity q)
                             (filter (cart_key u p)
                                (Remote.carts (remote w)))))) /\
            Remote.carts (remote w')
            = map (fun row => if cart_key u p row
                              then CartRow.set_quantity q row else row)
                  (Remote.carts (remote w))
        | _ => r = Val None /\ remote w' = remote w
        end) w.
Proof.
  intros Hq. assert (Hlt : (q <? 1) = false) by (apply Z.ltb_ge; lia).
  unfold updateCartQuantity. rewrite Hlt.
  repeat wp_step2;
    repeat match goal with
      | H : policy w (trace w) _ = _ |- _ => rewrite H in *
      end;
    cbv zeta; rewrite ?carts_after_update, ?filter_key_after_update in *;
    repeat split;
    repeat match goal with
      | H : error (single ?l) = _ |- _ =>
          destruct l as [|? [|? ?]]; cbn in H |- *; try discriminate H;
          try reflexivity
      end.
  all: repeat match goal with
         | E : ?l = _ |- context [?l] => rewrite E
         end; reflexivity.
Qed.

(** X11. For a quantity of at least 1, [cartService.updateCartQuantity]
    sends exactly one carts update and never throws. It returns the updated
    row only when the backend performs the update and exactly one row of
    the user holds the product; when no such row exists it returns null and
    the backend gets no new row. The local state is not touched. *)
Theorem updateCartQuantity_updates_single_row
  (w : World) (userId productId : string) (quantity : Z) :
  1 <= quantity ->
  let run := updateCartQuantity userId productId quantity in
  let w' := exec run w in
  let o := policy w (trace w) (CartsUpdate userId productId quantity) in
  let rows := filter (cart_key userId productId) (Remote.carts (remote w)) in
  issued run w = [(CartsUpdate userId productId quantity, o)] /\
  local_eq w' w /\
  length (Remote.carts (remote w')) = length (Remote.carts (remote w)) /\
  (forall row, result run w = Val (Some row) ->
     o = Applied /\ CartRow.quantity row = quantity /\
     exists old, rows = [old] /\ row = CartRow.set_quantity quantity old) /\
  (rows = [] -> result run w = Val None /\
                remoteLines userId (Remote.carts (remote w'))
                = remoteLines userId (Remote.carts (remote w))) /\
  (o <> Applied -> result run w = Val None /\ remote w' = remote w).
Proof.
  intros Hq run w' o rows.
  destruct (updateCartQuantity_spec w userId productId quantity Hq)
    as (Htr & Hloc & Hrest).
  fold run w' o rows in Htr, Hloc, Hrest.
  split; [apply issued_intro with (l := [(_, _)]); exact Htr|].
  split; [exact Hloc|].
  split; [destruct o; destruct Hrest as [_ Hr]; rewrite Hr;
          rewrite ?length_map; reflexivity|].
  split; [|split].
  - intros row Hrow. destruct o; destruct Hrest as [Hr _];
      rewrite Hr in Hrow; try discriminate Hrow.
    split; [reflexivity|].
    destruct rows as [|old [|? ?]]; cbn in Hrow; try discriminate Hrow.
    injection Hrow as <-. split; [destruct old; reflexivity|].
    exists old. split; reflexivity.
  - intros Hnil. destruct o; destruct Hrest as [Hr Hc];
      rewrite Hr, Hc, ?Hnil; try (split; reflexivity).
    split; [reflexivity|].
    rewrite remoteLines_update. unfold remoteLines.
    rewrite <- (map_id (map _ (filter _ (Remote.carts (remote w))))) at 2.
    apply map_ext_in. intros [id n] Hin. cbn [fst snd].
    destruct (String.eqb_spec id productId) as [->|]; [|reflexivity].
    exfalso. apply in_map_iff in Hin. destruct Hin as (row & Hrow & Hin).
    apply filter_In in Hin. destruct Hin as [Hin Hu].
    assert (Hk : In row rows).
    { apply filter_In. split; [exact Hin|]. unfold cart_key.
      rewrite Hu. injection Hrow as Hp _. rewrite Hp, String.eqb_refl.
      reflexivity. }
    rewrite Hnil in Hk. exact Hk.
  - intros Hne. destruct o; try congruence; exact Hrest.
Qed.

Lemma updateCartQuantity_updates_single_row_witness :
  let w := Sample.world (Some "u1") Sample.obliging in
  issued (updateCartQuantity "u1" "A" 5) w
  = [(CartsUpdate "u1" "A" 5, Applied)].
Proof.
  refine (proj1 (updateCartQuantity_updates_single_row
                   (Sample.world (Some "u1") Sample.obliging) "u1" "A" 5 _)).
  lia.
Defined.

(* ===================================================================== *)
(** ** Further properties: checkout and the backend                       *)
(* ===================================================================== *)

Lemma filter_twice {A : Type} (f g : A -> bool) (l : list A) :
  filter f (filter g l) = filter (fun x => g x && f x) l.
Proof.
  induction l as [|x l IH]; [reflexivity|]. cbn [filter].
  destruct (g x); cbn [filter andb]; [destruct (f x)|]; rewrite IH;
    reflexivity.
Qed.

(** The rows of a backend cart that a checkout of [ids] by [u] leaves. *)
Lemma carts_after_deletes u p ids (carts : list CartRow.t) :
  filter (fun row => negb (String.eqb (CartRow.user_id row) u
                           && includes ids (CartRow.product_id row)))
         (filter (fun row => negb (cart_key u p row)) carts)
  = filter (fun row => negb (String.eqb (CartRow.user_id row) u
                             && includes (p :: ids) (CartRow.product_id row)))
           carts.
Proof.
  rewrite filter_twice. apply filter_ext. intros row.
  unfold cart_key, includes. cbn [existsb].
  destruct (String.eqb (CartRow.user_id row) u),
           (String.eqb (CartRow.product_id row) p),
           (existsb (String.eqb (CartRow.product_id row)) ids); reflexivity.
Qed.

(** With a backend that performs every request, the loop over the sold
    products sends one delete per id, in order, and leaves no row of the
    user for any of them. *)
Lemma for_each_removeFromCart_applied u ids : forall w,
  (forall t c, policy w t c = Applied) ->
  exists w2,
    for_each ids (removeFromCart u) w = (Val tt, w2) /\
    local_eq w w2 /\
    trace w2 = rev (map (fun p => (CartsDelete u p, Applied)) ids) ++ trace w /\
    Remote.orders (remote w2) = Remote.orders (remote w) /\
    Remote.order_items (remote w2) = Remote.order_items (remote w) /\
    Remote.carts (remote w2)
    = filter (fun row => negb (String.eqb (CartRow.user_id row) u
                               && includes ids (CartRow.product_id row)))
             (Remote.carts (remote w)).
Proof.
  induction ids as [|p ids IH]; intros w Hpol.
  - exists w. repeat split; try reflexivity.
    cbn. symmetry. rewrite <- (filter_ext (fun _ => true)).
    + induction (Remote.carts (remote w)) as [|x l IHl]; cbn; congruence.
    + intros row. rewrite andb_false_r. reflexivity.
  - cbn [for_each]. unfold bind. rewrite removeFromCart_run. cbv zeta.
    rewrite Hpol.
    match goal with
    | |- context [for_each ids _ ?w1] =>
        destruct (IH w1) as (w2 & Hrun & Hloc & Htr & Ho & Hi & Hc);
        [intros t c; cbn; apply Hpol|]
    end.
    exists w2. rewrite Hrun. split; [reflexivity|].
    split. { unfold local_eq in *. cbn in Hloc. exact Hloc. }
    split. { rewrite Htr. cbn. rewrite <- app_assoc. reflexivity. }
    rewrite Ho, Hi, Hc. cbn [remote with_request].
    destruct (apply_carts_delete_frame u p (remote w)) as [Fo Fi].
    rewrite Fo, Fi, carts_after_delete, carts_after_deletes.
    repeat split.
Qed.

Lemma wp_for_each_applied u ids (Q : Res unit -> World -> Prop) w :
  (forall t c, policy w t c = Applied) ->
  (forall w2,
      cartItems w2 = cartItems w -> orders w2 = orders w ->
      toasts w2 = toasts w ->
      trace w2
      = rev (map (fun p => (CartsDelete u p, Applied)) ids) ++ trace w ->
      Remote.orders (remote w2) = Remote.orders (remote w) ->
      Remote.order_items (remote w2) = Remote.order_items (remote w) ->
      Remote.carts (remote w2)
      = filter (fun row => negb (String.eqb (CartRow.user_id row) u
                                 && includes ids (CartRow.product_id row)))
               (Remote.carts (remote w)) ->
      Q (Val tt) w2) ->
  wp (for_each ids (fun productId => removeFromCart u productId)) Q w.
Proof.
  intros Hpol H.
  destruct (for_each_removeFromCart_applied u ids w Hpol)
    as (w2 & Hrun & (Hc & Ho & Ht & _) & H2 & H3 & H4 & H5).
  unfold wp, result, exec.
  change (fun productId => removeFromCart u productId) with (removeFromCart u).
  rewrite Hrun. cbn. apply (H w2); auto.
Qed.

Lemma carts_after_order_insert r p :
  Remote.carts (apply_call (OrdersInsert p) r) = Remote.carts r.
Proof. destruct r; reflexivity. Qed.

Lemma carts_after_items_insert r rows :
  Remote.carts (apply_call (OrderItemsInsert rows) r) = Remote.carts r.
Proof. destruct r; reflexivity. Qed.

Lemma orders_after_order_insert r p :
  Remote.orders (apply_call (OrdersInsert p) r)
  = Remote.orders r ++ [new_order_row r p].
Proof. destruct r; reflexivity. Qed.

Lemma orders_after_items_insert r rows :
  Remote.orders (apply_call (OrderItemsInsert rows) r) = Remote.orders r.
Proof. destruct r; reflexivity. Qed.

Lemma cartLines_without cart ids :
  cartLines (cartWithout cart ids)
  = filter (fun l => negb (includes ids (fst l))) (cartLines cart).
Proof.
  unfold cartLines, cartWithout. induction cart as [|a cart IH];
    [reflexivity|].
  cbn [filter map fst]. destruct (includes ids (item_id a)); cbn [negb];
    [exact IH|]. cbn [map]. rewrite IH. reflexivity.
Qed.

Lemma remoteLines_without u ids carts :
  remoteLines u
    (filter (fun row => negb (String.eqb (CartRow.user_id row) u
                              && includes ids (CartRow.product_id row)))
            carts)
  = filter (fun l => negb (includes ids (fst l))) (remoteLines u carts).
Proof.
  unfold remoteLines. induction carts as [|r carts IH]; [reflexivity|].
  cbn [filter].
  destruct (String.eqb (CartRow.user_id r) u) eqn:Eu; cbn [andb negb].
  - cbn [map filter fst].
    destruct (includes ids (CartRow.product_id r)); cbn [negb].
    + exact IH.
    + cbn [filter]. rewrite Eu. cbn [map]. rewrite IH. reflexivity.
  - cbn [filter]. rewrite Eu. exact IH.
Qed.

Ltac wp_step3 :=
  first
    [ lazymatch goal with
      | |- wp (for_each _ _) _ _ =>
          apply wp_for_each_applied;
          [ intros; world_simpl;
            match goal with
            | H : forall t c, policy _ t c = Applied |- _ => apply H
            end
          | intros ? ? ? ? ? ? ? ? ]
      end
    | wp_step ].

Ltac same_user u :=
  repeat match goal with
    | E : _ = Some ?s |- _ =>
        is_var s; tryif constr_eq s u then fail
                  else (assert (s = u) by congruence; subst s)
    end.

Ltac not_applied :=
  match goal with
  | Hpol : forall t c, policy _ t c = Applied,
    E : policy _ _ _ = _ |- _ => rewrite Hpol in E; discriminate E
  end.

(** X12. A checkout against a backend that performs every request, by a
    signed-in user with a profile row: the requests are the session read,
    the profile read, the order insert, the order-items insert (when
    lines are selected) and one carts delete per selected id, in this
    order; the backend gains exactly the order row and the item rows; and a
    backend cart that mirrored the local cart still mirrors it. *)
Theorem checkout_performed_end_to_end
  (w : World) (u : string) (ids : list string) (di : option DeliveryInfo.t) :
  Remote.auth_user (remote w) = Some u ->
  (exists p, filter (fun p => String.eqb (ProfileRow.id p) u)
                    (Remote.profiles (remote w)) = [p]) ->
  userId w = Some u -> truthy u = true ->
  (forall t c, policy w t c = Applied) ->
  let run := handleCheckout ids di in
  let w' := exec run w in
  let sel := selectItems (cartItems w) ids in
  let payload := checkoutPayload w u ids di in
  let row := new_order_row (remote w) payload in
  let rows := itemsPayloadOf (OrderRow.id row) sel in
  map fst (rev (issued run w))
  = [AuthGetUser; ProfilesSelectSingle u; OrdersInsert payload]
      ++ match rows with [] => [] | _ :: _ => [OrderItemsInsert rows] end
      ++ map (CartsDelete u) ids /\
  Remote.orders (remote w') = Remote.orders (remote w) ++ [row] /\
  Remote.order_items (remote w') = Remote.order_items (remote w) ++ rows /\
  orders w' = orders w ++ [newOrder w row sel (computeTotal sel di)] /\
  cartItems w' = cartWithout (cartItems w) ids /\
  (mirrors u w -> mirrors u w').
Proof.
  intros Hauth [prof Hprof] Hu Ht Hpol run w' sel payload row rows.
  assert (Hwp : wp run
    (fun _ w' =>
       exists l, trace w' = l ++ trace w /\
       map fst (rev l)
       = [AuthGetUser; ProfilesSelectSingle u; OrdersInsert payload]
           ++ match rows with [] => [] | _ :: _ => [OrderItemsInsert rows] end
           ++ map (CartsDelete u) ids /\
       Remote.orders (remote w') = Remote.orders (remote w) ++ [row] /\
       Remote.order_items (remote w') = Remote.order_items (remote w) ++ rows /\
       orders w' = orders w ++ [newOrder w row sel (computeTotal sel di)] /\
       cartItems w' = cartWithout (cartItems w) ids /\
       Remote.carts (remote w')
       = filter (fun r => negb (String.eqb (CartRow.user_id r) u
                                && includes ids (CartRow.product_id r)))
                (Remote.carts (remote w))) w).
  { subst run. unfold handleCheckout.
    repeat wp_step3; world_simpl; try not_applied;
      same_user u;
      try (match goal with
           | E : filter _ (Remote.profiles (remote w)) = [] |- _ =>
               rewrite Hprof in E; discriminate E
           | E : filter _ (Remote.profiles (remote w)) = _ :: _ :: _ |- _ =>
               rewrite Hprof in E; discriminate E
           | H : None = Some _ |- _ => discriminate H
           | H : false = true |- _ => discriminate H
           | E : truthy u = false |- _ => rewrite Ht in E; discriminate E
           end);
      match goal with
      | H : trace ?w2 = rev ?d ++ ?t |- _ =>
          let pre := as_prefix t (trace w) in
          exists (rev d ++ pre); rewrite H;
          split; [change t with (pre ++ trace w); apply app_assoc|];
          rewrite rev_app_distr, rev_involutive, map_app, map_map
      end;
      match goal with
      | H0 : cartItems ?w2 = _, H1 : orders ?w2 = _,
        H3 : Remote.orders (remote ?w2) = _,
        H4 : Remote.order_items (remote ?w2) = _,
        H5 : Remote.carts (remote ?w2) = _ |- _ =>
          rewrite H0, H1, H3, H4, H5
      end;
      subst rows row payload sel;
      unfold itemsPayloadOf, checkoutPayload, cartWithout;
      match goal with E : map _ _ = _ |- _ => rewrite E end;
      rewrite ?order_items_after_order_insert, ?order_items_after_inserts,
        ?carts_after_items_insert, ?carts_after_order_insert,
        ?orders_after_items_insert, ?orders_after_order_insert;
      rewrite ?app_nil_r; repeat split. }
  destruct Hwp as (l & Htr & Hcalls & Hro & Hri & Ho & Hc & Hrc).
  fold w' in Htr, Hro, Hri, Ho, Hc, Hrc.
  rewrite (issued_intro run w l Htr).
  repeat split; try assumption.
  unfold mirrors. intros Hm.
  rewrite Hc, Hrc, cartLines_without, remoteLines_without, Hm. reflexivity.
Qed.

Lemma checkout_performed_end_to_end_witness :
  let w := Sample.world (Some "u1") Sample.obliging in
  mirrors "u1" (exec (handleCheckout ["A"] (Sample.delivery "pickup")) w).
Proof.
  intros w.
  destruct (checkout_performed_end_to_end w "u1" ["A"]
              (Sample.delivery "pickup") eq_refl
              (ex_intro _ (ProfileRow.mk "u1" (Some "Ana")) eq_refl)
              eq_refl eq_refl (fun _ _ => eq_refl))
    as (_ & _ & _ & _ & _ & Hm).
  apply Hm. reflexivity.
Defined.

(** The loop over the sold products sends one carts delete per id, in
    order, whatever the backend answers. *)
Lemma for_each_removeFromCart_calls u ids : forall w,
  exists w2 l,
    for_each ids (removeFromCart u) w = (Val tt, w2) /\
    local_eq w w2 /\
    trace w2 = l ++ trace w /\
    map fst l = rev (map (CartsDelete u) ids) /\
    Remote.orders (remote w2) = Remote.orders (remote w) /\
    Remote.order_items (remote w2) = Remote.order_items (remote w).
Proof.
  induction ids as [|p ids IH]; intros w.
  - exists w, []. repeat split; reflexivity.
  - cbn [for_each]. unfold bind. rewrite removeFromCart_run. cbv zeta.
    match goal with
    | |- context [for_each ids _ ?w1] =>
        destruct (IH w1) as (w2 & l & Hrun & Hloc & Htr & Hall & Ho & Hi)
    end.
    exists w2, (l ++ [(CartsDelete u p, policy w (trace w) (CartsDelete u p))]).
    rewrite Hrun. split; [reflexivity|].
    split. { unfold local_eq in *. cbn in Hloc. exact Hloc. }
    split. { rewrite Htr. cbn. rewrite <- app_assoc. reflexivity. }
    split. { rewrite map_app, Hall. reflexivity. }
    rewrite Ho, Hi. cbn.
    destruct (policy w (trace w) (CartsDelete u p)); try (split; reflexivity).
    apply apply_carts_delete_frame.
Qed.

Lemma wp_for_each_calls u ids (Q : Res unit -> World -> Prop) w :
  (forall w2 l,
      cartItems w2 = cartItems w -> orders w2 = orders w ->
      toasts w2 = toasts w ->
      trace w2 = l ++ trace w ->
      map fst l = rev (map (CartsDelete u) ids) ->
      Remote.orders (remote w2) = Remote.orders (remote w) ->
      Remote.order_items (remote w2) = Remote.order_items (remote w) ->
      Q (Val tt) w2) ->
  wp (for_each ids (fun productId => removeFromCart u productId)) Q w.
Proof.
  intros H.
  destruct (for_each_removeFromCart_calls u ids w)
    as (w2 & l & Hrun & (Hc & Ho & Ht & _) & H2 & H3 & H4 & H5).
  unfold wp, result, exec.
  change (fun productId => removeFromCart u productId) with (removeFromCart u).
  rewrite Hrun. cbn. apply (H w2 l); auto.
Qed.

Ltac wp_step4 :=
  first
    [ lazymatch goal with
      | |- wp (for_each _ _) _ _ =>
          apply wp_for_each_calls; intros ? ? ? ? ? ? ? ? ?
      end
    | wp_step ].

Ltac prefix_of t tr :=
  lazymatch t with
  | tr => constr:(@nil (ToastKind * string))
  | ?x :: ?t' => let l := prefix_of t' tr in constr:(x :: l)
  end.

Ltac stop_side :=
  first
    [ reflexivity
    | assumption
    | let H := fresh in intros H; discriminate H
    | let H := fresh in intros H; assumption
    | let H := fresh in
      intros H; exfalso; exact (H _ eq_refl)
    | let H := fresh in intros H; cbn; tauto
    | let H := fresh in let Hp := fresh in
      intros H ? Hp;
      match goal with
      | E : filter _ (Remote.profiles _) = _ |- _ =>
          rewrite Hp in E; discriminate E
      end ].

Ltac stop_leaf :=
  right; split;
  [ unfold checkout_stops;
    first
      [ left; eexists; split; [reflexivity|]; split; stop_side
      | right; eexists; split; [eassumption|]; cbv zeta;
        first
          [ left; eexists; split; [reflexivity|];
            split; [stop_side|]; split; stop_side
          | right; split; [eexists; eassumption|];
            left; eexists; split; [reflexivity|]; split; stop_side
          | right; split; [eexists; eassumption|];
            right; eexists; split;
            [ unfold itemsPayloadOf, checkoutPayload;
              match goal with E : map _ _ = _ |- _ => rewrite E end;
              reflexivity |];
            split;
            [ unfold itemsPayloadOf, checkoutPayload;
              match goal with E : map _ _ = _ |- _ => rewrite E end;
              discriminate |];
            split; stop_side ] ]
  | split; [reflexivity|];
    match goal with
    | |- exists pre, ?a :: ?t = _ :: pre ++ ?tw /\ _ =>
        let p := prefix_of t tw in
        exists p; split; [reflexivity | repeat constructor]
    end ].

Ltac sync_leaf :=
  left; split; [|reflexivity]; unfold checkout_syncs, syncCalls;
  world_simpl; use_loop_facts;
  match goal with
  | E : Remote.auth_user _ = Some ?s |- _ => exists s
  end;
  lazymatch goal with
  | |- exists dels o, _ /\ _ /\ ?d ++ [(_, ?x); _; _; _] = _ /\ _ =>
      exists d, x
  | |- exists dels o, _ /\ _ /\ ?d ++ [_; _; _] = _ /\ _ =>
      exists d, Applied
  | |- exists dels o, _ /\ _ /\ [(_, ?x); _; _; _] = _ /\ _ =>
      exists (@nil (Call * Outcome)), x
  | |- exists dels o, _ /\ _ /\ [_; _; _] = _ /\ _ =>
      exists (@nil (Call * Outcome)), Applied
  end;
  cbv zeta; split; [assumption|];
  split; [eexists; eassumption|];
  split;
  [ unfold itemsPayloadOf, checkoutPayload;
    match goal with E : map _ _ = _ |- _ => rewrite E end; reflexivity |];
  split; [reflexivity|];
  split;
  [ repeat match goal with
      | E : userId _ = _ |- _ => rewrite E
      | E : truthy _ = _ |- _ => rewrite E
      end; first [assumption | reflexivity] |];
  repeat match goal with
    | H : Remote.orders (remote ?w2) = _ |- _ => is_var w2; rewrite H
    end;
  rewrite ?orders_after_items_insert, ?orders_after_order_insert;
  split; reflexivity.

(** Every run of [handleCheckout] ends in one of the two ways of
    [checkout_ends]. *)
Lemma handleCheckout_ends w ids di :
  wp (handleCheckout ids di) (fun _ w' => checkout_ends w ids di w') w.
Proof.
  unfold handleCheckout.
  repeat wp_step4; unfold checkout_ends; cbv zeta; world_simpl;
    use_loop_facts; (split; [reflexivity|]);
    trace_prefix; first [stop_leaf | sync_leaf].
Qed.

Lemma syncCalls_only w ids (dels : list (Call * Outcome)) c o :
  map fst dels = rev (syncCalls w ids) -> In (c, o) dels ->
  exists u p, c = CartsDelete u p.
Proof.
  intros Hd Hin. apply (in_map fst) in Hin. rewrite Hd in Hin.
  apply in_rev in Hin. unfold syncCalls in Hin.
  destruct (userId w) as [u|]; [|contradiction].
  destruct (truthy u); [|contradiction].
  apply in_map_iff in Hin. destruct Hin as (p & Hp & _).
  exists u, p. symmetry. exact Hp.
Qed.

(** The requests of a checkout that reached the cart sync: none carries an
    error, except possibly carts deletes. *)
Lemma checkout_syncs_requests w ids di l w' c o :
  checkout_syncs w ids di l w' -> In (c, o) l ->
  (exists u p, c = CartsDelete u p) \/ is_failure o = false.
Proof.
  intros (u & dels & o0 & _ & _ & Hl & Hf & Hd & _) Hin.
  cbv zeta in Hl. rewrite Hl in Hin.
  apply in_app_or in Hin. destruct Hin as [Hin|Hin].
  { left. eapply syncCalls_only; eassumption. }
  right. apply in_app_or in Hin. destruct Hin as [Hin|Hin].
  - destruct (itemsPayloadOf _ _); [contradiction|].
    destruct Hin as [Hin|[]]. injection Hin as _ <-. exact Hf.
  - cbn in Hin.
    repeat (destruct Hin as [Hin|Hin]; [injection Hin as _ <-; reflexivity|]).
    contradiction.
Qed.

Lemma checkout_stops_carts w ids di l w' :
  checkout_stops w ids di l w' ->
  Remote.carts (remote w') = Remote.carts (remote w) /\
  Remote.order_items (remote w') = Remote.order_items (remote w) /\
  forall u p o, ~ In (CartsDelete u p, o) l.
Proof.
  intros [(o & -> & _ & ->)|(u & _ & H)].
  { repeat split. intros ? ? ? [H|[]]; discriminate H. }
  cbv zeta in H.
  destruct H as [(o & -> & _ & _ & ->)
                |[_ [(o & -> & _ & ->)|(o & -> & _ & _ & ->)]]].
  - repeat split. intros ? ? ? H; cbn in H.
    repeat (destruct H as [H|H]; [discriminate H|]). exact H.
  - repeat split. intros ? ? ? H; cbn in H.
    repeat (destruct H as [H|H]; [discriminate H|]). exact H.
  - rewrite carts_after_order_insert, order_items_after_order_insert.
    repeat split. intros ? ? ? H; cbn in H.
    repeat (destruct H as [H|H]; [discriminate H|]). exact H.
Qed.

(** X13. When a request of a checkout other than a carts delete reports an
    error, no carts delete is sent: the backend cart keeps every row, while
    the selected lines leave the local cart and the fallback order is
    appended with the [saved locally] error message. *)
Theorem checkout_failure_keeps_backend_cart
  (w : World) (ids : list string) (di : option DeliveryInfo.t)
  (c : Call) (o : Outcome) :
  let run := handleCheckout ids di in
  let w' := exec run w in
  let sel := selectItems (cartItems w) ids in
  In (c, o) (issued run w) -> is_failure o = true ->
  is_carts_delete (c, o) = false ->
  (forall u p o', ~ In (CartsDelete u p, o') (issued run w)) /\
  Remote.carts (remote w') = Remote.carts (remote w) /\
  cartItems w' = cartWithout (cartItems w) ids /\
  orders w' = orders w ++ [fallbackOrder w sel (computeTotal sel di) di] /\
  hd_error (toasts w')
  = Some (ToastError,
          "Order saved locally but failed to persist to the server. Please try again or contact support.").
Proof.
  intros run w' sel Hin Hfail Hnd.
  destruct (handleCheckout_ends w ids di) as (Hcart & l & Htr & Hend).
  fold run w' in Hcart, Htr, Hend.
  rewrite (issued_intro run w l Htr) in *.
  destruct Hend as [[Hs _]|(Hs & Ho & pre & Ht & _)].
  - exfalso.
    destruct (checkout_syncs_requests _ _ _ _ _ _ _ Hs Hin)
      as [(u & p & ->)|Hok].
    + discriminate Hnd.
    + congruence.
  - destruct (checkout_stops_carts _ _ _ _ _ Hs) as (Hc & _ & Hno).
    split; [exact Hno|]. split; [exact Hc|]. split; [exact Hcart|].
    split; [exact Ho|]. rewrite Ht. reflexivity.
Qed.

Lemma checkout_failure_keeps_backend_cart_witness :
  let w := Sample.world (Some "u1") Sample.no_inserts in
  Remote.carts
    (remote (exec (handleCheckout ["A"] (Sample.delivery "delivery")) w))
  = Remote.carts (remote w).
Proof.
  refine (proj1 (proj2
    (checkout_failure_keeps_backend_cart
       (Sample.world (Some "u1") Sample.no_inserts) ["A"]
       (Sample.delivery "delivery")
       (fst (hd (AuthGetUser, Applied) Sample.refused_requests))
       (snd (hd (AuthGetUser, Applied) Sample.refused_requests)) _ _ _)));
    [|reflexivity|reflexivity].
  rewrite sample_refused_requests. left. reflexivity.
Defined.

(** X14. When the order-items insert of a checkout reports an error, the
    order row inserted just before stays in the backend, without any item
    row: nothing undoes it. Locally the fallback order is appended, whose
    id is the clock reading, not the id of the backend row. *)
Theorem checkout_items_failure_leaves_order_row
  (w : World) (ids : list string) (di : option DeliveryInfo.t)
  (rows : list OrderItemRow.t) (o : Outcome) :
  let run := handleCheckout ids di in
  let w' := exec run w in
  let sel := selectItems (cartItems w) ids in
  In (OrderItemsInsert rows, o) (issued run w) -> is_failure o = true ->
  exists u,
    let row := new_order_row (remote w) (checkoutPayload w u ids di) in
    Remote.auth_user (remote w) = Some u /\
    rows = itemsPayloadOf (OrderRow.id row) sel /\
    Remote.orders (remote w') = Remote.orders (remote w) ++ [row] /\
    OrderRow.total_amount row = Some (computeTotal sel di) /\
    Remote.order_items (remote w') = Remote.order_items (remote w) /\
    orders w' = orders w ++ [fallbackOrder w sel (computeTotal sel di) di] /\
    Order.id (fallbackOrder w sel (computeTotal sel di) di)
    = String_of_Z (now w).
Proof.
  intros run w' sel Hin Hfail.
  destruct (handleCheckout_ends w ids di) as (Hcart & l & Htr & Hend).
  fold run w' in Hcart, Htr, Hend.
  rewrite (issued_intro run w l Htr) in *.
  destruct Hend as [[Hs _]|(Hs & Ho & _)].
  - exfalso.
    destruct (checkout_syncs_requests _ _ _ _ _ _ _ Hs Hin)
      as [(u & p & Hc)|Hok]; [discriminate Hc | congruence].
  - destruct Hs as [(o1 & -> & _)|(u & Hu & H)].
    { destruct Hin as [Hin|[]]. discriminate Hin. }
    cbv zeta in H. exists u. cbv zeta.
    destruct H as [(o1 & -> & _)|[_ [(o1 & -> & _)|(o1 & -> & _ & _ & Hr)]]];
      cbn in Hin.
    + repeat (destruct Hin as [Hin|Hin]; [discriminate Hin|]).
      contradiction.
    + repeat (destruct Hin as [Hin|Hin]; [discriminate Hin|]).
      contradiction.
    + destruct Hin as [Hin|Hin].
      2:{ repeat (destruct Hin as [Hin|Hin]; [discriminate Hin|]).
          contradiction. }
      injection Hin as <- _. fold sel.
      rewrite Hr, orders_after_order_insert, order_items_after_order_insert.
      repeat split; try assumption.
Qed.

(** X15. A signed-in user without a profile row: for every backend, the
    checkout writes nothing to it and sends no order insert, yet the order
    is appended to the local list and the selected lines leave the cart;
    when the profile read is answered, the [Account setup incomplete]
    message is shown. *)
Theorem checkout_without_profile_writes_nothing
  (w : World) (u : string) (ids : list string) (di : option DeliveryInfo.t) :
  let run := handleCheckout ids di in
  let w' := exec run w in
  let sel := selectItems (cartItems w) ids in
  Remote.auth_user (remote w) = Some u ->
  (forall p, filter (fun p => String.eqb (ProfileRow.id p) u)
                    (Remote.profiles (remote w)) <> [p]) ->
  remote w' = remote w /\
  (forall p o, ~ In (OrdersInsert p, o) (issued run w)) /\
  orders w' = orders w ++ [fallbackOrder w sel (computeTotal sel di) di] /\
  cartItems w' = cartWithout (cartItems w) ids /\
  (forall o, In (ProfilesSelectSingle u, o) (issued run w) ->
             (forall e, o <> Rejected e) ->
             In (ToastError,
                 "Account setup incomplete. Please try signing out and back in.")
                (toasts w')).
Proof.
  intros run w' sel Hauth Hnone.
  destruct (handleCheckout_ends w ids di) as (Hcart & l & Htr & Hend).
  fold run w' in Hcart, Htr, Hend.
  rewrite (issued_intro run w l Htr) in *.
  destruct Hend as [[Hs _]|(Hs & Ho & _)].
  - exfalso. destruct Hs as (u' & dels & o0 & Hu' & [p Hp] & _).
    assert (u' = u) by congruence. subst u'. exact (Hnone p Hp).
  - destruct Hs as [(o1 & -> & _ & Hr)|(u' & Hu' & H)].
    { repeat split; try assumption.
      - intros ? ? [H|[]]; discriminate H.
      - intros ? [H|[]]; discriminate H. }
    assert (u' = u) by congruence. subst u'. cbv zeta in H.
    destruct H as [(o1 & -> & _ & Htoast & Hr)|[[p Hp] _]].
    + repeat split; try assumption.
      * intros ? ? H; cbn in H.
        repeat (destruct H as [H|H]; [discriminate H|]). exact H.
      * intros o [H|[H|[]]]; [|discriminate H].
        injection H as <-. exact Htoast.
    + exfalso. exact (Hnone p Hp).
Qed.

Lemma checkout_without_profile_writes_nothing_witness :
  let w := Sample.world (Some "u2") Sample.obliging in
  remote (exec (handleCheckout ["A"] (Sample.delivery "pickup")) w)
  = remote w.
Proof.
  refine (proj1 (checkout_without_profile_writes_nothing
                   (Sample.world (Some "u2") Sample.obliging) "u2" ["A"]
                   (Sample.delivery "pickup") eq_refl _)).
  intros p H. discriminate H.
Defined.

(** X16. The message a checkout ends with tells what happened to the
    order: the success message is shown exactly when the order insert was
    performed and no order-items insert reported an error; in every other
    run the last message is the [saved locally] error and every message of
    the run is an error. *)
Theorem checkout_message_matches_outcome
  (w : World) (ids : list string) (di : option DeliveryInfo.t) :
  let run := handleCheckout ids di in
  let w' := exec run w in
  let l := issued run w in
  let success :=
    (ToastSuccess, "Order placed successfully! Thank you for your purchase.")
  in
  let persisted :=
    (exists p, In (OrdersInsert p, Applied) l) /\
    (forall rows o, In (OrderItemsInsert rows, o) l -> is_failure o = false)
  in
  (toasts w' = success :: toasts w <-> persisted) /\
  (~ persisted ->
   exists pre,
     toasts w'
     = (ToastError,
        "Order saved locally but failed to persist to the server. Please try again or contact support.")
         :: pre ++ toasts w /\
     Forall (fun t => fst t = ToastError) pre).
Proof.
  intros run w' l0 success persisted. subst persisted l0.
  destruct (handleCheckout_ends w ids di) as (Hcart & l & Htr & Hend).
  fold run w' in Hcart, Htr, Hend.
  rewrite (issued_intro run w l Htr).
  match goal with |- (_ <-> ?P) /\ _ => set (persisted := P) end.
  destruct Hend as [[Hs Ht]|(Hs & Ho & pre & Ht & Hpre)].
  - assert (Hp : persisted).
    { split.
      - destruct Hs as (u & dels & o0 & _ & _ & Hl & _). cbv zeta in Hl.
        eexists. rewrite Hl. apply in_or_app. right. apply in_or_app. right.
        left. reflexivity.
      - intros rows o Hin.
        destruct (checkout_syncs_requests _ _ _ _ _ _ _ Hs Hin)
          as [(u & p & Hc)|Hok]; [discriminate Hc | exact Hok]. }
    split; [split; [intros _; exact Hp | intros _; exact Ht]|].
    intros Hn. contradiction.
  - assert (Hp : ~ persisted).
    { intros [[p Hin] Hitems].
      destruct Hs as [(o1 & -> & _)|(u & Hu & H)].
      { destruct Hin as [Hin|[]]. discriminate Hin. }
      cbv zeta in H.
      destruct H as [(o1 & -> & _)|[_ [(o1 & -> & Hne & _)
                                      |(o1 & -> & _ & Hf & _)]]]; cbn in Hin.
      - repeat (destruct Hin as [Hin|Hin]; [discriminate Hin|]).
        contradiction.
      - destruct Hin as [Hin|Hin]; [injection Hin as _ ->; congruence|].
        repeat (destruct Hin as [Hin|Hin]; [discriminate Hin|]).
        contradiction.
      - specialize (Hitems _ o1 (or_introl eq_refl)). congruence. }
    split.
    + split; [|intros H; contradiction].
      intros H. rewrite Ht in H. subst success. discriminate H.
    + intros _. exists pre. split; assumption.
Qed.

Lemma cartItemCount_filter_split (f : CartItem.t -> bool) cart :
  cartItemCount cart
  = cartItemCount (filter f cart)
    + cartItemCount (filter (fun item => negb (f item)) cart).
Proof.
  induction cart as [|a cart IH]; [reflexivity|].
  cbn [filter]. rewrite cartItemCount_cons, IH.
  destruct (f a); cbn [negb]; rewrite cartItemCount_cons; lia.
Qed.

Lemma sumLines_filter_split (f : CartItem.t -> bool) cart :
  sumLines cart
  = sumLines (filter f cart)
    + sumLines (filter (fun item => negb (f item)) cart).
Proof.
  induction cart as [|a cart IH]; [reflexivity|].
  cbn [filter sumLines]. rewrite IH.
  destruct (f a); cbn [negb sumLines]; lia.
Qed.

(** X17. A checkout splits the cart, whatever the backend answers: each
    line goes to the appended order or stays in the cart, never both; the
    item counts and the line totals of the two parts add up to those of
    the cart before. *)
Theorem checkout_splits_cart
  (w : World) (ids : list string) (di : option DeliveryInfo.t) :
  let w' := exec (handleCheckout ids di) w in
  exists o,
    orders w' = orders w ++ [o] /\
    (forall item, In item (cartItems w) <->
                  In item (Order.items o) \/ In item (cartItems w')) /\
    (forall a b, In a (Order.items o) -> In b (cartItems w') ->
                 item_id a <> item_id b) /\
    cartItemCount (cartItems w)
    = cartItemCount (Order.items o) + cartItemCount (cartItems w') /\
    sumLines (cartItems w)
    = sumLines (Order.items o) + sumLines (cartItems w') /\
    (length (Order.items o) + length (cartItems w')
     = length (cartItems w))%nat.
Proof.
  intros w'.
  destruct (handleCheckout_appends_one w ids di)
    as (o & Ho & Hitems & _ & _ & _ & _ & Hcart).
  fold w' in Ho, Hcart. exists o. rewrite Hitems, Hcart.
  unfold selectItems, cartWithout.
  split; [exact Ho|]. split; [|split; [|split; [|split]]].
  - intros item. rewrite !filter_In.
    destruct (includes ids (item_id item)); cbn; intuition congruence.
  - intros a b Ha Hb. apply not_eq_sym.
    exact (cartWithout_disjoint _ _ _ _ Hb Ha).
  - apply cartItemCount_filter_split.
  - apply sumLines_filter_split.
  - clear. induction (cartItems w) as [|a c IH]; [reflexivity|].
    cbn [filter]. destruct (includes ids (item_id a));
      cbn [negb length]; lia.
Qed.

Lemma filter_none {A : Type} (f : A -> bool) (l : list A) :
  (forall x, In x l -> f x = false) ->
  filter f l = [] /\ filter (fun x => negb (f x)) l = l.
Proof.
  induction l as [|a l IH]; intros H; [split; reflexivity|].
  cbn [filter]. rewrite (H a (or_introl eq_refl)). cbn [negb].
  destruct IH as [IH1 IH2]; [intros x Hx; apply H; right; exact Hx|].
  rewrite IH1, IH2. split; reflexivity.
Qed.

(** X18. [handleCheckout] does not look at whether anything is selected:
    when no cart line has one of the given ids, it still appends an order,
    with no items and the fee alone as its total, leaves the cart as it
    was and sends no order-items insert. *)
Theorem checkout_of_nothing_still_orders
  (w : World) (ids : list string) (di : option DeliveryInfo.t) :
  let run := handleCheckout ids di in
  let w' := exec run w in
  (forall item, In item (cartItems w) ->
                includes ids (item_id item) = false) ->
  (exists o,
     orders w' = orders w ++ [o] /\
     Order.items o = [] /\
     Order.totalAmount o
     = (if is_delivery (deliveryOption_of di) then 59 else 0)) /\
  cartItems w' = cartItems w /\
  (forall rows o, ~ In (OrderItemsInsert rows, o) (issued run w)).
Proof.
  intros run w' Hnone.
  destruct (filter_none (fun item => includes ids (item_id item))
              (cartItems w) Hnone) as [Hsel Hrest].
  fold (selectItems (cartItems w) ids) in Hsel.
  fold (cartWithout (cartItems w) ids) in Hrest.
  destruct (handleCheckout_appends_one w ids di)
    as (o & Ho & Hitems & Htot & _ & _ & _ & Hcart).
  fold run w' in Ho, Hcart.
  split; [|split].
  - exists o. split; [exact Ho|]. rewrite Hitems, Htot, Hsel.
    split; [reflexivity|]. unfold computeTotal. cbn [fold_left].
    destruct (is_delivery (deliveryOption_of di)); reflexivity.
  - rewrite Hcart. exact Hrest.
  - destruct (handleCheckout_ends w ids di) as (_ & l & Htr & Hend).
    fold run w' in Htr, Hend.
    rewrite (issued_intro run w l Htr).
    intros rows o0 Hin.
    destruct Hend as [[Hs _]|(Hs & _)].
    + destruct Hs as (u & dels & o1 & _ & _ & Hl & _ & Hd & _).
      cbv zeta in Hl. rewrite Hsel in Hl. cbn in Hl. rewrite Hl in Hin.
      apply in_app_or in Hin. destruct Hin as [Hin|Hin].
      * destruct (syncCalls_only _ _ _ _ _ Hd Hin) as (? & ? & Hc).
        discriminate Hc.
      * cbn in Hin.
        repeat (destruct Hin as [Hin|Hin]; [discriminate Hin|]).
        exact Hin.
    + destruct Hs as [(o1 & -> & _)|(u & _ & H)].
      { destruct Hin as [Hin|[]]. discriminate Hin. }
      cbv zeta in H. rewrite Hsel in H.
      destruct H as [(o1 & -> & _)|[_ [(o1 & -> & _)|(o1 & _ & Hne & _)]]].
      * cbn in Hin.
        repeat (destruct Hin as [Hin|Hin]; [discriminate Hin|]).
        exact Hin.
      * cbn in Hin.
        repeat (destruct Hin as [Hin|Hin]; [discriminate Hin|]).
        exact Hin.
      * apply Hne. reflexivity.
Qed.

Lemma checkout_of_nothing_still_orders_witness :
  let w := Sample.world (Some "u1") Sample.obliging in
  cartItems (exec (handleCheckout [] (Sample.delivery "delivery")) w)
  = cartItems w.
Proof.
  refine (proj1 (proj2 (checkout_of_nothing_still_orders
                          (Sample.world (Some "u1") Sample.obliging) []
                          (Sample.delivery "delivery") _))).
  intros item _. reflexivity.
Defined.

(** X19. An order placed from the cart page, for every backend: the order
    [handlePlaceOrder] makes [handleCheckout] append holds the lines the
    page showed as selected, its total is the total the page showed, and
    it records the chosen option; when the amounts of those lines are held
    exactly (no negative price or quantity, exact total with the fee at
    most [2^53]), that total is the line totals plus 59 exactly when the
    order says [delivery]. *)
Theorem placeOrder_records_what_the_page_showed
  (w : World) (selectedItems : list string)
  (deliveryInfo : option DeliveryInfo.t) (selectedDeliveryOption : string) :
  let w' := exec (Selection.handlePlaceOrder selectedItems deliveryInfo
                    selectedDeliveryOption) w in
  selectedDeliveryOption = "delivery" \/ selectedDeliveryOption = "pickup" ->
  exists o,
    orders w' = orders w ++ [o] /\
    Order.items o = CartPage.selectedCartItems (cartItems w) selectedItems /\
    Order.totalAmount o
    = CartPage.total (cartItems w) selectedItems selectedDeliveryOption /\
    Order.deliveryOption o = selectedDeliveryOption /\
    (exact_amounts (Order.items o) (feeOf selectedDeliveryOption) ->
     order_total_invariant o).
Proof.
  intros w' Hopt. unfold Selection.handlePlaceOrder in w'.
  destruct (handleCheckout_appends_one w selectedItems
              (CartPage.placeOrderInfo deliveryInfo selectedDeliveryOption))
    as (o & Ho & Hitems & Htot & Hopt' & _).
  fold w' in Ho. exists o.
  assert (Hd : Order.deliveryOption o = selectedDeliveryOption).
  { rewrite Hopt'. cbn. destruct Hopt as [->| ->]; reflexivity. }
  assert (Ht : Order.totalAmount o
               = CartPage.total (cartItems w) selectedItems
                   selectedDeliveryOption).
  { rewrite Htot. unfold computeTotal, CartPage.total, CartPage.subtotal,
      CartPage.deliveryFee, CartPage.selectedCartItems, selectItems.
    reflexivity. }
  split; [exact Ho|]. split; [exact Hitems|]. split; [exact Ht|].
  split; [exact Hd|].
  intros Hexact. unfold order_total_invariant.
  rewrite Hd, Htot. rewrite Hitems in *.
  rewrite computeTotal_formula; [reflexivity | exact Hexact].
Qed.

Lemma faulty_item_requests :
  issued (handleCheckout ["A"] (Sample.delivery "pickup"))
         (Sample.world (Some "u1") Faulty.no_item_inserts)
  = Faulty.item_requests.
Proof. vm_compute. reflexivity. Qed.

Lemma checkout_items_failure_leaves_order_row_witness :
  let w := Sample.world (Some "u1") Faulty.no_item_inserts in
  let w' := exec (handleCheckout ["A"] (Sample.delivery "pickup")) w in
  let sel := selectItems (cartItems w) ["A"] in
  exists u,
    let row :=
      new_order_row (remote w)
        (checkoutPayload w u ["A"] (Sample.delivery "pickup")) in
    Remote.auth_user (remote w) = Some u /\
    fst (hd (AuthGetUser, Applied) Faulty.item_requests)
    = OrderItemsInsert (itemsPayloadOf (OrderRow.id row) sel) /\
    Remote.orders (remote w') = Remote.orders (remote w) ++ [row] /\
    Remote.order_items (remote w') = Remote.order_items (remote w).
Proof.
  intros w w' sel.
  assert (Hin : In (hd (AuthGetUser, Applied) Faulty.item_requests)
                   (issued (handleCheckout ["A"] (Sample.delivery "pickup"))
                           w)).
  { unfold w. rewrite faulty_item_requests. left. reflexivity. }
  destruct (checkout_items_failure_leaves_order_row w ["A"]
              (Sample.delivery "pickup") _ _ Hin eq_refl)
    as (u & Hu & Hrows & Ho & _ & Hi & _).
  exists u. cbv zeta. repeat split; assumption.
Defined.

Lemma checkout_message_matches_outcome_witness :
  let w := Sample.world (Some "u1") Sample.obliging in
  toasts (exec (handleCheckout ["A"] (Sample.delivery "pickup")) w)
  = (ToastSuccess, "Order placed successfully! Thank you for your purchase.")
      :: toasts w.
Proof.
  refine (proj2 (proj1 (checkout_message_matches_outcome
                          (Sample.world (Some "u1") Sample.obliging) ["A"]
                          (Sample.delivery "pickup"))) _).
  rewrite sample_persisted_requests. split.
  - eexists. right. right. left. reflexivity.
  - intros rows o H. cbn in H.
    repeat (destruct H as [H|H];
            [first [discriminate H | injection H as _ <-; reflexivity]|]).
    contradiction.
Defined.

Lemma placeOrder_records_what_the_page_showed_witness :
  let w := Sample.world (Some "u1") Sample.no_inserts in
  exists o,
    orders (exec (Selection.handlePlaceOrder ["A"] None "pickup") w)
    = orders w ++ [o] /\
    Order.totalAmount o = CartPage.total (cartItems w) ["A"] "pickup".
Proof.
  destruct (placeOrder_records_what_the_page_showed
              (Sample.world (Some "u1") Sample.no_inserts) ["A"] None
              "pickup" (or_intror eq_refl))
    as (o & Ho & _ & Ht & _).
  exists o. split; assumption.
Defined.

(* ===================================================================== *)
(** ** Further properties: order numbers                                  *)
(* ===================================================================== *)

Lemma decode_digits n :
  option_map Nat.of_uint (NilZero.uint_of_string (String_of_nat n)) = Some n.
Proof.
  unfold String_of_nat. pose proof (DecimalNat.Unsigned.of_to n) as H.
  destruct (Nat.to_uint n) eqn:E;
    try (rewrite NilZero.usu by discriminate; cbn [option_map];
         f_equal; exact H).
  cbn in H. rewrite <- H. reflexivity.
Qed.

Lemma String_of_nat_nonempty n : String_of_nat n <> EmptyString.
Proof.
  intros H. pose proof (decode_digits n) as D. rewrite H in D.
  discriminate D.
Qed.

Lemma decode_zeros k s :
  s <> EmptyString ->
  option_map Nat.of_uint (NilZero.uint_of_string (repeat_char "0" k ++ s))
  = option_map Nat.of_uint (NilZero.uint_of_string s).
Proof.
  intros Hs. induction k as [|k IH]; [reflexivity|].
  rewrite <- IH. cbn [repeat_char String.append].
  destruct (repeat_char "0" k ++ s)%string as [|c rest] eqn:E.
  { exfalso. destruct k; cbn in E; [exact (Hs E) | discriminate E]. }
  change (NilZero.uint_of_string (String "0" (String c rest)))
    with (DecimalString.uint_of_char "0"%char (NilZero.uint_of_string (String c rest))).
  destruct (NilZero.uint_of_string (String c rest)); reflexivity.
Qed.

(** X20. The order number counts the orders in the list: it reads back as
    the length of the list plus one, so two lists get the same number
    exactly when they have the same length. The order a checkout appends
    carries the number of the list it was appended to, on the persisted
    and on the fallback path alike. *)
Theorem orderNumber_counts_orders (os : list Order.t) :
  decodeOrderNumber (orderNumber os) = Some (length os + 1)%nat /\
  (forall os', orderNumber os = orderNumber os' <-> length os = length os') /\
  (forall (w : World) ids di,
     orders w = os ->
     exists o,
       orders (exec (handleCheckout ids di) w) = os ++ [o] /\
       Order.orderId o = orderNumber os).
Proof.
  assert (Hdec : forall l : list Order.t,
             decodeOrderNumber (orderNumber l) = Some (length l + 1)%nat).
  { intros l. unfold orderNumber, padStart. cbn [String.append].
    unfold decodeOrderNumber.
    rewrite decode_zeros by apply String_of_nat_nonempty.
    apply decode_digits. }
  split; [apply Hdec|]. split.
  - intros os'. split.
    + intros H. pose proof (Hdec os) as H1. rewrite H, Hdec in H1.
      injection H1 as H1. lia.
    + intros H. unfold orderNumber. rewrite H. reflexivity.
  - intros w ids di <-.
    destruct (handleCheckout_spec w ids di) as (_ & _ & l & _ & [Hp|Hf]).
    + destruct Hp as (u & _ & Ho & _). eexists. split; [exact Ho|].
      reflexivity.
    + destruct Hf as (Ho & _). eexists. split; [exact Ho|]. reflexivity.
Qed.

Lemma orderNumber_counts_orders_witness :
  exists o,
    orders (exec (handleCheckout ["A"] (Sample.delivery "pickup"))
              (Sample.world (Some "u1") Sample.no_inserts))
    = [Sample.order1] ++ [o] /\
    Order.orderId o = orderNumber [Sample.order1].
Proof.
  exact (proj2 (proj2 (orderNumber_counts_orders [Sample.order1]))
           (Sample.world (Some "u1") Sample.no_inserts) ["A"]
           (Sample.delivery "pickup") eq_refl).
Defined.

(* ===================================================================== *)
(** ** Further properties: the admin's order handlers                     *)
(* ===================================================================== *)

Lemma handleUpdateStatus_run w oid s :
  let c := OrdersUpdateStatus oid s in
  let o := policy w (trace w) c in
  let run := handleUpdateStatus oid s in
  let w' := exec run w in
  result run w = Val tt /\
  trace w' = (c, o) :: trace w /\
  orders w' = (if is_failure o then orders w
               else setStatusLocal oid s (orders w)) /\
  remote w' = match o with
              | Applied => apply_call c (remote w)
              | _ => remote w
              end /\
  cartItems w' = cartItems w /\
  hd_error (toasts w')
  = Some (if is_failure o
          then (ToastError,
                err_text (match o with
                          | Refused e | Rejected e => e
                          | _ => Error ""
                          end)
                  "Failed to update order status. Please try again.")
          else (ToastSuccess, "Order status updated successfully")).
Proof.
  intros c o run w'. subst c o run w'.
  change (wp (handleUpdateStatus oid s)
                (fun r w' =>
                   r = Val tt /\
                   trace w'
                   = (OrdersUpdateStatus oid s,
                      policy w (trace w) (OrdersUpdateStatus oid s))
                       :: trace w /\
                   orders w'
                   = (if is_failure
                           (policy w (trace w) (OrdersUpdateStatus oid s))
                      then orders w else setStatusLocal oid s (orders w)) /\
                   remote w'
                   = match policy w (trace w) (OrdersUpdateStatus oid s) with
                     | Applied =>
                         apply_call (OrdersUpdateStatus oid s) (remote w)
                     | _ => remote w
                     end /\
                   cartItems w' = cartItems w /\
                   hd_error (toasts w')
                   = Some (if is_failure
                                (policy w (trace w)
                                   (OrdersUpdateStatus oid s))
                           then (ToastError,
                                 err_text
                                   (match policy w (trace w)
                                            (OrdersUpdateStatus oid s) with
                                    | Refused e | Rejected e => e
                                    | _ => Error ""
                                    end)
                                   "Failed to update order status. Please try again.")
                           else (ToastSuccess,
                                 "Order status updated successfully"))) w).
  unfold handleUpdateStatus.
  repeat wp_step;
    match goal with
    | E : policy w (trace w) _ = _ |- _ => rewrite E
    end;
    repeat split.
Qed.

Lemma set_status_id s o : Order.id (Order.set_status s o) = Order.id o.
Proof. reflexivity. Qed.

Lemma localStatus_setStatus oid s os oid' :
  localStatus oid' (setStatusLocal oid s os)
  = if String.eqb oid' oid
    then option_map (fun _ => s) (localStatus oid os)
    else localStatus oid' os.
Proof.
  unfold localStatus, setStatusLocal.
  induction os as [|o os IH]; cbn [map find option_map].
  - destruct (String.eqb oid' oid); reflexivity.
  - destruct (String.eqb_spec oid' oid) as [E|E].
    + rewrite E in *.
      destruct (String.eqb (Order.id o) oid) eqn:E1.
      * rewrite set_status_id, E1. reflexivity.
      * rewrite E1. exact IH.
    + apply String.eqb_neq in E.
      destruct (String.eqb_spec (Order.id o) oid) as [E1|E1].
      * rewrite set_status_id, E1, String.eqb_sym, E. exact IH.
      * destruct (String.eqb (Order.id o) oid'); [reflexivity | exact IH].
Qed.

(** X21. [handleUpdateStatus] sends one status update and never throws.
    When the update reports no error, every local order with that id gets
    the new status, whatever its status was, and no other order changes;
    this also happens when the backend answers without an error and
    without changing a row, so that the local list and the backend then
    disagree. *)
Theorem updateStatus_sets_any_status
  (w : World) (orderId : string) (newStatus : Status) :
  let c := OrdersUpdateStatus orderId newStatus in
  let o := policy w (trace w) c in
  let run := handleUpdateStatus orderId newStatus in
  let w' := exec run w in
  result run w = Val tt /\
  issued run w = [(c, o)] /\
  (is_failure o = false ->
   map Order.id (orders w') = map Order.id (orders w) /\
   forall oid,
     localStatus oid (orders w')
     = if String.eqb oid orderId
       then option_map (fun _ => newStatus) (localStatus orderId (orders w))
       else localStatus oid (orders w)) /\
  (o = Silent ->
   remote w' = remote w /\
   forall s, localStatus orderId (orders w) = Some s ->
             localStatus orderId (orders w') = Some newStatus).
Proof.
  intros c o run w'.
  destruct (handleUpdateStatus_run w orderId newStatus)
    as (Hr & Ht & Ho & Hrem & _).
  fold c o run w' in Hr, Ht, Ho, Hrem.
  split; [exact Hr|].
  split; [apply issued_intro with (l := [(c, o)]); exact Ht|].
  split.
  - intros Hok. rewrite Hok in Ho. rewrite Ho. split.
    + unfold setStatusLocal. rewrite map_map. apply map_ext. intros x.
      destruct (String.eqb (Order.id x) orderId); reflexivity.
    + intros oid. apply localStatus_setStatus.
  - intros Hs. rewrite Hs in Ho, Hrem. cbn in Ho. split; [exact Hrem|].
    intros s Hloc. rewrite Ho, localStatus_setStatus, String.eqb_refl, Hloc.
    reflexivity.
Qed.

Lemma updateStatus_sets_any_status_witness :
  let w := Sample.world (Some "u1") Sample.obliging in
  localStatus "order-1" (orders (exec (handleUpdateStatus "order-1" Pending) w))
  = Some Pending.
Proof.
  exact (proj2 (proj1 (proj2 (proj2
           (updateStatus_sets_any_status
              (Sample.world (Some "u1") Sample.obliging) "order-1" Pending)))
           eq_refl) "order-1").
Defined.

(** X22. Accepting an order is a status update to [Confirmed]: the two
    handlers send the same request and leave the same order list, cart and
    backend; only their messages differ. *)
Theorem accept_is_update_to_confirmed (w : World) (orderId : string) :
  let wa := exec (handleAcceptOrder orderId) w in
  let wu := exec (handleUpdateStatus orderId Confirmed) w in
  orders wa = orders wu /\ trace wa = trace wu /\ remote wa = remote wu /\
  cartItems wa = cartItems wu /\
  result (handleAcceptOrder orderId) w
  = result (handleUpdateStatus orderId Confirmed) w.
Proof.
  intros wa wu.
  destruct (handleUpdateStatus_run w orderId Confirmed)
    as (Hr & Ht & Ho & Hrem & Hc & _).
  fold wu in Ht, Ho, Hrem, Hc. rewrite Hr, Ht, Ho, Hrem, Hc.
  subst wa. clear.
  change (wp (handleAcceptOrder orderId)
            (fun r w' =>
               orders w'
               = (if is_failure
                       (policy w (trace w)
                          (OrdersUpdateStatus orderId Confirmed))
                  then orders w
                  else setStatusLocal orderId Confirmed (orders w)) /\
               trace w'
               = (OrdersUpdateStatus orderId Confirmed,
                  policy w (trace w) (OrdersUpdateStatus orderId Confirmed))
                   :: trace w /\
               remote w'
               = match policy w (trace w)
                         (OrdersUpdateStatus orderId Confirmed) with
                 | Applied =>
                     apply_call (OrdersUpdateStatus orderId Confirmed)
                       (remote w)
                 | _ => remote w
                 end /\
               cartItems w' = cartItems w /\
               r = Val tt) w).
  unfold handleAcceptOrder.
  repeat wp_step;
    match goal with
    | E : policy w (trace w) _ = _ |- _ => rewrite E
    end;
    repeat split.
Qed.

Lemma handleAssignDriver_run w oid did :
  let run := handleAssignDriver oid did in
  let w' := exec run w in
  result run w = Val tt /\
  if truthy did then
    match find (fun d => String.eqb (Driver.id d) did) (drivers w) with
    | None =>
        trace w' = trace w /\ orders w' = orders w /\ remote w' = remote w /\
        hd_error (toasts w') = Some (ToastError, "Driver not found")
    | Some d =>
        let c := OrdersAssignDriver oid (Driver.profileId d) in
        let o := policy w (trace w) c in
        trace w' = (c, o) :: trace w /\
        orders w' = (if is_failure o then orders w
                     else setDriverLocal oid (Driver.name d) (orders w))
    end
  else w' = w.
Proof.
  intros run w'. subst run w'.
  change (wp (handleAssignDriver oid did)
            (fun r w' =>
               r = Val tt /\
               if truthy did then
                 match find (fun d => String.eqb (Driver.id d) did)
                            (drivers w) with
                 | None =>
                     trace w' = trace w /\ orders w' = orders w /\
                     remote w' = remote w /\
                     hd_error (toasts w')
                     = Some (ToastError, "Driver not found")
                 | Some d =>
                     let c := OrdersAssignDriver oid (Driver.profileId d) in
                     let o := policy w (trace w) c in
                     trace w' = (c, o) :: trace w /\
                     orders w' = (if is_failure o then orders w
                                  else setDriverLocal oid (Driver.name d)
                                         (orders w))
                 end
               else w' = w) w).
  unfold handleAssignDriver.
  repeat wp_step;
    repeat match goal with
      | E : negb (truthy did) = _ |- _ =>
          apply (f_equal negb) in E; rewrite negb_involutive in E;
          cbn [negb] in E; rewrite E
      | E : find _ (drivers w) = _ |- _ => rewrite E
      | E : policy w (trace w) _ = _ |- _ => rewrite E
      end;
    cbv zeta; repeat split.
Qed.

Lemma localDriver_setDriver oid name os oid' :
  localDriver oid' (setDriverLocal oid name os)
  = if String.eqb oid' oid
    then option_map (fun _ => name) (localDriver oid os)
    else localDriver oid' os.
Proof.
  unfold localDriver, setDriverLocal.
  induction os as [|o os IH]; cbn [map find option_map].
  - destruct (String.eqb oid' oid); reflexivity.
  - destruct (String.eqb_spec oid' oid) as [E|E].
    + rewrite E in *.
      destruct (String.eqb (Order.id o) oid) eqn:E1.
      * change (Order.id (Order.set_driver name o)) with (Order.id o).
        rewrite E1. reflexivity.
      * rewrite E1. exact IH.
    + apply String.eqb_neq in E.
      destruct (String.eqb_spec (Order.id o) oid) as [E1|E1].
      * change (Order.id (Order.set_driver name o)) with (Order.id o).
        rewrite E1, String.eqb_sym, E. exact IH.
      * destruct (String.eqb (Order.id o) oid'); [reflexivity | exact IH].
Qed.

(** X23. [handleAssignDriver] never throws. With an empty driver id it
    does nothing at all; with an id that no listed driver has it sends no
    request, leaves orders and backend alone and reports [Driver not
    found]; otherwise it sends one assignment carrying the driver's
    profile id, and when that reports no error the local orders with that
    id show the driver's name, the others being unchanged. *)
Theorem assignDriver_guards_and_records
  (w : World) (orderId driverId : string) :
  let run := handleAssignDriver orderId driverId in
  let w' := exec run w in
  let found := find (fun d => String.eqb (Driver.id d) driverId) (drivers w) in
  result run w = Val tt /\
  (truthy driverId = false -> w' = w) /\
  (truthy driverId = true -> found = None ->
   issued run w = [] /\ orders w' = orders w /\ remote w' = remote w /\
   hd_error (toasts w') = Some (ToastError, "Driver not found")) /\
  (forall d, truthy driverId = true -> found = Some d ->
   let c := OrdersAssignDriver orderId (Driver.profileId d) in
   let o := policy w (trace w) c in
   issued run w = [(c, o)] /\
   (is_failure o = true -> orders w' = orders w) /\
   (is_failure o = false ->
    forall oid,
      localDriver oid (orders w')
      = if String.eqb oid orderId
        then option_map (fun _ => Driver.name d)
               (localDriver orderId (orders w))
        else localDriver oid (orders w))).
Proof.
  intros run w' found.
  destruct (handleAssignDriver_run w orderId driverId) as [Hr H].
  fold run w' found in Hr, H.
  split; [exact Hr|]. split; [|split].
  - intros Ht. rewrite Ht in H. exact H.
  - intros Ht Hf. rewrite Ht, Hf in H. destruct H as (Htr & Ho & Hrem & Hts).
    split; [apply issued_intro with (l := []); exact Htr|].
    repeat split; assumption.
  - intros d Ht Hf. rewrite Ht, Hf in H. cbv zeta in *.
    destruct H as (Htr & Ho).
    split; [apply issued_intro with (l := [(_, _)]); exact Htr|].
    split; intros Hfail; rewrite Hfail in Ho; [exact Ho|].
    intros oid. rewrite Ho. apply localDriver_setDriver.
Qed.

Lemma assignDriver_guards_and_records_witness :
  let w := Sample.world (Some "u1") Sample.obliging in
  localDriver "order-1" (orders (exec (handleAssignDriver "order-1" "d1") w))
  = Some "Ben" /\
  orders (exec (handleAssignDriver "order-1" "d9") w) = orders w.
Proof.
  intros w.
  destruct (assignDriver_guards_and_records w "order-1" "d1")
    as (_ & _ & _ & H1).
  destruct (H1 (Driver.mk "d1" "p-d1" "Ben") eq_refl eq_refl)
    as (_ & _ & H1').
  destruct (assignDriver_guards_and_records w "order-1" "d9")
    as (_ & _ & H2 & _).
  destruct (H2 eq_refl eq_refl) as (_ & H2' & _).
  split; [exact (H1' eq_refl "order-1") | exact H2'].
Defined.

(* --------------------------------------------------------------------- *)
(** *** Deleting an order                                                 *)
(* --------------------------------------------------------------------- *)

Lemma orders_after_items_delete oid r :
  Remote.orders (apply_call (OrderItemsDelete oid) r) = Remote.orders r.
Proof. destruct r; reflexivity. Qed.

Lemma orders_after_order_delete oid r :
  Remote.orders (apply_call (OrdersDelete oid) r)
  = filter (fun row => negb (String.eqb (OrderRow.id row) oid))
           (Remote.orders r).
Proof. destruct r; reflexivity. Qed.

Lemma order_items_after_deletes oid r :
  Remote.order_items (apply_call (OrdersDelete oid)
                        (apply_call (OrderItemsDelete oid) r))
  = filter (fun row => negb (String.eqb (OrderItemRow.order_id row) oid))
           (Remote.order_items r).
Proof. destruct r; reflexivity. Qed.

Lemma filter_after_filter_negb {A : Type} (f : A -> bool) (l : list A) :
  filter f (filter (fun x => negb (f x)) l) = [].
Proof.
  induction l as [|x l IH]; [reflexivity|]. cbn [filter].
  destruct (f x) eqn:E; cbn [negb filter]; [exact IH|].
  rewrite E. exact IH.
Qed.

(** X24. Deleting an order on a backend that performs every request: the
    requests are the item delete, the order delete and the check, the
    backend keeps no row and no item row of the order, the local list
    loses exactly the orders with that id, and the dialog is reset, so
    that running the handler again does nothing. Without a pending id the
    handler does nothing in the first place. *)
Theorem deleteOrder_performed_end_to_end (w : World) :
  let run := handleDeleteOrder in
  let w' := exec run w in
  ((deleteOrderId w = None \/ deleteOrderId w = Some "") ->
   run w = (Val tt, w)) /\
  (forall oid,
     deleteOrderId w = Some oid -> truthy oid = true ->
     (forall t c, policy w t c = Applied) ->
     issued run w
     = [(OrdersSelectSingle oid, Applied); (OrdersDelete oid, Applied);
        (OrderItemsDelete oid, Applied)] /\
     order_rows oid (remote w') = [] /\
     has_items oid (remote w') = false /\
     Remote.orders (remote w')
     = filter (fun row => negb (String.eqb (OrderRow.id row) oid))
              (Remote.orders (remote w)) /\
     orders w'
     = filter (fun order => negb (String.eqb (Order.id order) oid))
              (orders w) /\
     run w' = (Val tt, w')).
Proof.
  intros run w'. split.
  - intros [H|H]; subst run; unfold handleDeleteOrder, bind, get;
      rewrite H; reflexivity.
  - intros oid Hid Ht Hpol.
    assert (Hwp : wp run
      (fun _ w' =>
         trace w'
         = [(OrdersSelectSingle oid, Applied); (OrdersDelete oid, Applied);
            (OrderItemsDelete oid, Applied)] ++ trace w /\
         remote w' = apply_call (OrdersDelete oid)
                       (apply_call (OrderItemsDelete oid) (remote w)) /\
         orders w'
         = filter (fun order => negb (String.eqb (Order.id order) oid))
                  (orders w) /\
         deleteOrderId w' = None) w).
    { subst run. unfold handleDeleteOrder.
      wp_step. wp_step. rewrite Hid. cbv beta iota. rewrite Ht. cbn [negb].
      repeat wp_step; world_simpl; try not_applied.
      all: try (repeat split; reflexivity).
      all: exfalso;
        match goal with
        | E : map OrderRow.id (filter _ ?rows) = _ |- _ =>
            rewrite orders_after_order_delete in E;
            rewrite (filter_after_filter_negb
                       (fun r => String.eqb (OrderRow.id r) oid)) in E;
            discriminate E
        end. }
    destruct Hwp as (Htr & Hrem & Ho & Hnone). fold w' in Htr, Hrem, Ho, Hnone.
    split; [apply issued_intro; exact Htr|].
    split; [unfold order_rows; rewrite Hrem, orders_after_order_delete;
            apply (filter_after_filter_negb
                     (fun r => String.eqb (OrderRow.id r) oid))|].
    split; [rewrite Hrem; apply (proj2 (has_items_after_delete _ _))|].
    split; [rewrite Hrem, orders_after_order_delete,
              orders_after_items_delete; reflexivity|].
    split; [exact Ho|].
    subst run. unfold handleDeleteOrder, bind, get. rewrite Hnone.
    reflexivity.
Qed.

Lemma deleteOrder_performed_end_to_end_witness :
  let w := Sample.world (Some "u1") Sample.obliging in
  order_rows "order-1" (remote (exec handleDeleteOrder w)) = [] /\
  orders (exec handleDeleteOrder w) = [].
Proof.
  intros w.
  destruct (proj2 (deleteOrder_performed_end_to_end w) "order-1" eq_refl
              eq_refl (fun _ _ => eq_refl))
    as (_ & H1 & _ & _ & H2 & _).
  split; [exact H1 | exact H2].
Defined.

Ltac check_leaf :=
  let o3 := fresh "o" in
  let Hin := fresh "Hin" in
  let Hna := fresh "Hna" in
  let Hnr := fresh "Hnr" in
  intros o3 Hin Hna Hnr; cbn in Hin;
  repeat (destruct Hin as [Hin|Hin];
          [ first
              [ discriminate Hin
              | injection Hin as <-;
                first [ exfalso; apply Hna; reflexivity
                      | exfalso; exact (Hnr _ eq_refl)
                      | idtac ] ] |]);
  try contradiction;
  (split; [reflexivity|]); (split; [reflexivity|]);
  let Hd := fresh "Hd" in
  intros Hd; cbn in Hd;
  repeat (destruct Hd as [Hd|Hd]; [try discriminate Hd|]);
  try contradiction;
  rewrite ?orders_after_items_delete; reflexivity.

(** X25. The check after a delete is trusted only when it returns a row:
    when it is answered with an error, or with nothing, the handler takes
    the order for deleted, removes it from the local list and reports
    success; if the order delete before it was filtered out without an
    error, the backend still holds every order row. *)
Theorem deleteOrder_trusts_a_failed_check
  (w : World) (oid : string) (o : Outcome) :
  let run := handleDeleteOrder in
  let w' := exec run w in
  deleteOrderId w = Some oid -> truthy oid = true ->
  In (OrdersSelectSingle oid, o) (issued run w) ->
  o <> Applied -> (forall e, o <> Rejected e) ->
  orders w'
  = filter (fun order => negb (String.eqb (Order.id order) oid)) (orders w) /\
  hd_error (toasts w') = Some (ToastSuccess, "Order deleted successfully") /\
  (In (OrdersDelete oid, Silent) (issued run w) ->
   Remote.orders (remote w') = Remote.orders (remote w)).
Proof.
  intros run w' Hid Ht.
  assert (Hwp : wp run
    (fun _ w' =>
       exists l, trace w' = l ++ trace w /\
         forall o,
           In (OrdersSelectSingle oid, o) l ->
           o <> Applied -> (forall e, o <> Rejected e) ->
           orders w'
           = filter (fun order => negb (String.eqb (Order.id order) oid))
                    (orders w) /\
           hd_error (toasts w')
           = Some (ToastSuccess, "Order deleted successfully") /\
           (In (OrdersDelete oid, Silent) l ->
            Remote.orders (remote w') = Remote.orders (remote w))) w).
  { subst run. unfold handleDeleteOrder.
    wp_step. wp_step. rewrite Hid. cbv beta iota. rewrite Ht. cbn [negb].
    repeat wp_step; world_simpl; trace_prefix; check_leaf. }
  destruct Hwp as (l & Htr & H). fold w' in Htr, H.
  rewrite (issued_intro run w l Htr). apply H.
Qed.

Lemma faulty_check_requests :
  issued handleDeleteOrder (Sample.world (Some "u1") Faulty.blind_check)
  = Faulty.check_requests.
Proof. vm_compute. reflexivity. Qed.

Lemma deleteOrder_trusts_a_failed_check_witness :
  let w := Sample.world (Some "u1") Faulty.blind_check in
  orders (exec handleDeleteOrder w) = [] /\
  Remote.orders (remote (exec handleDeleteOrder w)) = Remote.orders (remote w).
Proof.
  intros w.
  assert (Hin : In (OrdersSelectSingle "order-1",
                    Refused (Error "permission denied for table orders"))
                   (issued handleDeleteOrder w)).
  { unfold w. rewrite faulty_check_requests. left. reflexivity. }
  assert (Hdel : In (OrdersDelete "order-1", Silent)
                    (issued handleDeleteOrder w)).
  { unfold w. rewrite faulty_check_requests. right. left. reflexivity. }
  destruct (deleteOrder_trusts_a_failed_check w "order-1" _ eq_refl eq_refl
              Hin)
    as (Ho & _ & Hr).
  - discriminate.
  - intros e H. discriminate H.
  - split; [exact Ho | exact (Hr Hdel)].
Defined.




(* ===================================================================== *)
(** ** Further properties: orders fetched from the backend                *)
(* ===================================================================== *)

Lemma includes_In l x : includes l x = true <-> In x l.
Proof.
  unfold includes. rewrite existsb_exists. split.
  - intros (y & Hy & E). apply String.eqb_eq in E. subst y. exact Hy.
  - intros H. exists x. split; [exact H | apply String.eqb_refl].
Qed.

Lemma NoDup_map_filter {A B : Type} (g : A -> B) (f : A -> bool) l :
  NoDup (map g l) -> NoDup (map g (filter f l)).
Proof.
  induction l as [|a l IH]; cbn; intros H; [constructor|].
  inversion H as [|? ? Hx Hnd]; subst.
  destruct (f a); [|apply IH, Hnd]. cbn. constructor; [|apply IH, Hnd].
  intros Hin. apply Hx. apply in_map_iff in Hin.
  destruct Hin as (b & Hb & Hin). apply filter_In in Hin.
  rewrite <- Hb. apply in_map, Hin.
Qed.

(** X26. What [fetchOrdersFromDb] leaves in the order list. When the
    orders query returns an error the list is not replaced. Otherwise the
    mapped backend orders come first, followed by exactly the local
    orders whose id no backend order has, in their order: a local-only
    order (such as a fallback order of a checkout) stays visible, a local
    copy of a backend order is dropped, and ids stay unique when they
    were unique on both sides. *)
Theorem fetchOrders_merges_local_orders
  (answer : Response (list DbOrder.t))
  (products : option (list DbOrderProduct.t)) (orders : list Order.t) :
  let mapped :=
    map (mapDbOrder (nullish products [])) (nullish (data answer) []) in
  let result := fetchOrdersResult answer products orders in
  (error answer <> None -> result = orders) /\
  (error answer = None ->
   firstn (length mapped) result = mapped /\
   map Order.id mapped
   = map (fun o => OrderRow.id (DbOrder.row o)) (nullish (data answer) []) /\
   (forall o, In o orders ->
      (In o (skipn (length mapped) result)
       <-> ~ In (Order.id o) (map Order.id mapped))) /\
   (forall o, In o result -> In o mapped \/ In o orders) /\
   (NoDup (map Order.id mapped) -> NoDup (map Order.id orders) ->
    NoDup (map Order.id result))).
Proof.
  intros mapped result. subst result. unfold fetchOrdersResult.
  destruct (error answer) as [e|].
  - split; [reflexivity | intros H; discriminate H].
  - split; [intros H; exfalso; apply H; reflexivity | intros _].
    fold mapped. unfold mergeOrders.
    split; [rewrite firstn_app, Nat.sub_diag, firstn_all; cbn;
            apply app_nil_r|].
    split; [unfold mapped; rewrite map_map; reflexivity|].
    split; [|split].
    + intros o Hin. rewrite skipn_app, skipn_all, Nat.sub_diag. cbn.
      rewrite filter_In, <- includes_In.
      destruct (includes (map Order.id mapped) (Order.id o)); cbn;
        intuition congruence.
    + intros o Hin. apply in_app_or in Hin. destruct Hin as [H|H];
        [left; exact H | right; apply filter_In in H; apply H].
    + intros Hm Ho. rewrite map_app.
      apply NoDup_app;
        [exact Hm | apply NoDup_map_filter; exact Ho |].
      intros i Hi Hin. apply in_map_iff in Hin.
      destruct Hin as (o & <- & Hin). apply filter_In in Hin.
      destruct Hin as [_ Hneg]. apply includes_In in Hi.
      rewrite Hi in Hneg. discriminate Hneg.
Qed.

Lemma fetchOrders_merges_local_orders_witness :
  let answer :=
    mkResponse (Some [DbOrder.mk Sample.row1 None None None]) None in
  let kept := Order.mk "1700000000000" "Ana" "ORD-002" [] 59 "0917"
                "2025-01-02" Pending Cash "Unassigned" (Some "") "pickup" in
  In kept (skipn 1 (fetchOrdersResult answer None [Sample.order1; kept])).
Proof.
  intros answer kept.
  refine (proj2 (proj1 (proj2 (proj2
           (proj2 (fetchOrders_merges_local_orders answer None
                     [Sample.order1; kept]) eq_refl)))
           kept (or_intror (or_introl eq_refl))) _).
  cbn. intros [H|[]]. discriminate H.
Defined.

(** X27. An order read back from the backend against the order the
    checkout that wrote it showed: for the order row and the item rows that
    [handleCheckout] sends, [fetchOrdersFromDb] rebuilds the same id,
    number, total, phone, date, status, payment, driver, address and
    option, and the same product ids and quantities; the price of an item
    is the price of the product row the products query returned, and the
    price recorded at checkout only when no such row came back. *)
Theorem refetched_order_agrees_with_checkout
  (w : World) (u : string) (ids : list string) (di : option DeliveryInfo.t)
  (products : list DbOrderProduct.t) (created_at : option string)
  (profile : option (option string)) :
  let sel := selectItems (cartItems w) ids in
  let row := new_order_row (remote w) (checkoutPayload w u ids di) in
  let local := newOrder w row sel (computeTotal sel di) in
  let fetched :=
    mapDbOrder products
      (DbOrder.mk row created_at
         (Some (itemsPayloadOf (OrderRow.id row) sel)) profile) in
  Order.id fetched = Order.id local /\
  Order.orderId fetched = Order.orderId local /\
  Order.totalAmount fetched = Order.totalAmount local /\
  Order.phone fetched = Order.phone local /\
  Order.date fetched = Order.date local /\
  Order.status fetched = Order.status local /\
  Order.payment fetched = Order.payment local /\
  Order.driver fetched = Order.driver local /\
  Order.deliveryAddress fetched = Order.deliveryAddress local /\
  Order.deliveryOption fetched = Order.deliveryOption local /\
  map item_id (Order.items fetched) = map item_id (Order.items local) /\
  map CartItem.quantity (Order.items fetched)
  = map CartItem.quantity (Order.items local) /\
  map (fun item => Product.price (CartItem.product item))
      (Order.items fetched)
  = map (fun item =>
           match productsMap_get products (item_id item) with
           | Some p => DbOrderProduct.price p
           | None => Product.price (CartItem.product item)
           end)
        (Order.items local).
Proof.
  intros sel row local fetched.
  split; [reflexivity|]. split; [reflexivity|]. split; [reflexivity|].
  split; [reflexivity|].
  split.
  { cbn. unfold js_or. destruct (truthy (today w)) eqn:E; [reflexivity|].
    reflexivity. }
  split; [reflexivity|]. split; [reflexivity|]. split; [reflexivity|].
  split; [reflexivity|]. split; [reflexivity|].
  cbn [Order.items local fetched mapDbOrder newOrder DbOrder.order_items
       nullish].
  unfold itemsPayloadOf. rewrite !map_map.
  split; [|split]; apply map_ext; intros item; unfold mapDbItem;
    cbn [OrderItemRow.product_id OrderItemRow.quantity OrderItemRow.price
         CartItem.product CartItem.quantity item_id Product.id Product.price].
  - unfold productsMap_get.
    destruct (find _ (rev products)) as [p|] eqn:E; [|reflexivity].
    apply find_some in E. destruct E as [_ E]. apply String.eqb_eq in E.
    exact E.
  - reflexivity.
  - destruct (productsMap_get products _); reflexivity.
Qed.

(* --------------------------------------------------------------------- *)
(** *** A price edit between checkout and the admin's fetch               *)
(* --------------------------------------------------------------------- *)









(* ===================================================================== *)
(** ** Further properties: the custom bouquet builder                     *)
(* ===================================================================== *)

Lemma stems_acc (l : list Bouquet.SelectedFlower) : forall acc,
  fold_left (fun sum f => sum + Bouquet.count f) l acc
  = acc + fold_left (fun sum f => sum + Bouquet.count f) l 0.
Proof.
  induction l as [|a l IH]; intros acc; cbn [fold_left]; [lia|].
  rewrite IH, (IH (0 + _)). lia.
Qed.

Lemma stems_cons a (l : list Bouquet.SelectedFlower) :
  fold_left (fun sum f => sum + Bouquet.count f) (a :: l) 0
  = Bouquet.count a + fold_left (fun sum f => sum + Bouquet.count f) l 0.
Proof. cbn [fold_left]. rewrite stems_acc. lia. Qed.

Lemma stems_app (l : list Bouquet.SelectedFlower) a :
  fold_left (fun sum f => sum + Bouquet.count f) (l ++ [a]) 0
  = fold_left (fun sum f => sum + Bouquet.count f) l 0 + Bouquet.count a.
Proof. rewrite fold_left_app. reflexivity. Qed.

Lemma stems_changed (d : Z) id (l : list Bouquet.SelectedFlower) :
  NoDup (map Bouquet.sel_id l) ->
  fold_left (fun sum f => sum + Bouquet.count f)
    (map (fun f => if String.eqb (Bouquet.sel_id f) id
                   then Bouquet.mkSelectedFlower (Bouquet.flower f)
                          (Bouquet.count f + d)
                   else f) l) 0
  = fold_left (fun sum f => sum + Bouquet.count f) l 0
    + (if existsb (fun f => String.eqb (Bouquet.sel_id f) id) l
       then d else 0).
Proof.
  induction l as [|a l IH]; intros Hnd; [reflexivity|].
  cbn [map existsb]. rewrite !stems_cons.
  inversion Hnd as [|? ? Hx Hnd']; subst. rewrite (IH Hnd').
  destruct (String.eqb_spec (Bouquet.sel_id a) id) as [E|E];
    cbn [orb Bouquet.count]; [|lia].
  assert (Hno : existsb (fun f => String.eqb (Bouquet.sel_id f) id) l
                = false).
  { apply not_true_is_false. intros H. apply existsb_exists in H.
    destruct H as (f & Hf & Ef). apply String.eqb_eq in Ef.
    apply Hx. rewrite E, <- Ef. apply in_map, Hf. }
  rewrite Hno. lia.
Qed.

Lemma stems_filter (g : Bouquet.SelectedFlower -> bool) l :
  Forall (fun f => 1 <= Bouquet.count f) l ->
  fold_left (fun sum f => sum + Bouquet.count f) (filter g l) 0
  <= fold_left (fun sum f => sum + Bouquet.count f) l 0.
Proof.
  induction l as [|a l IH]; intros H; [cbn; lia|].
  inversion H as [|? ? Ha Hl]; subst. specialize (IH Hl).
  cbn [filter]. destruct (g a); rewrite ?stems_cons; lia.
Qed.

Lemma sel_ids_changed (h : Bouquet.SelectedFlower -> Z) id l :
  map Bouquet.sel_id
    (map (fun f => if String.eqb (Bouquet.sel_id f) id
                   then Bouquet.mkSelectedFlower (Bouquet.flower f) (h f)
                   else f) l)
  = map Bouquet.sel_id l.
Proof.
  rewrite map_map. apply map_ext. intros f.
  destruct (String.eqb (Bouquet.sel_id f) id); reflexivity.
Qed.

Lemma find_sel_unique id l e f :
  NoDup (map Bouquet.sel_id l) ->
  find (fun f => String.eqb (Bouquet.sel_id f) id) l = Some e ->
  In f l -> Bouquet.sel_id f = id -> f = e.
Proof.
  induction l as [|a l IH]; intros Hnd Hfind Hin Hid; [contradiction|].
  inversion Hnd as [|? ? Hx Hnd']; subst. cbn [find] in Hfind.
  destruct (String.eqb_spec (Bouquet.sel_id a) (Bouquet.sel_id f)) as [E|E].
  - injection Hfind as <-. destruct Hin as [H|H]; [congruence|].
    exfalso. apply Hx. rewrite E. apply in_map, H.
  - destruct Hin as [H|H]; [congruence|]. apply IH; auto.
Qed.

Lemma maxFlowers_bound st : 0 <= Bouquet.maxFlowersOf st <= 12.
Proof.
  unfold Bouquet.maxFlowersOf, Bouquet.sizeOption.
  destruct (Bouquet.selectedSize st) as [[| |]|]; cbn; lia.
Qed.

Lemma step_keeps_bouquet_ok a st :
  bouquet_ok st -> bouquet_ok (Bouquet.step a st).
Proof.
  intros (Hnd & Hall & Hmax). destruct a as [s|c|fl|id]; cbn [Bouquet.step].
  - split; [constructor|]. split; [constructor|].
    unfold Bouquet.totalFlowers. cbn.
    apply (maxFlowers_bound (Bouquet.selectSize s st)).
  - split; [exact Hnd|]. split; [exact Hall | exact Hmax].
  - unfold Bouquet.handleFlowerSelect.
    destruct (Z.leb_spec (Bouquet.maxFlowersOf st) (Bouquet.totalFlowers st))
      as [Hfull|Hroom]; cbn [fst].
    { split; [exact Hnd|]. split; [exact Hall | exact Hmax]. }
    unfold bouquet_ok, Bouquet.totalFlowers, Bouquet.maxFlowersOf,
      Bouquet.sizeOption in *.
    cbn [Bouquet.selectedFlowers Bouquet.selectedSize] in *.
    destruct (find _ (Bouquet.selectedFlowers st)) as [e|] eqn:E.
    + split; [rewrite sel_ids_changed; exact Hnd|]. split.
      * rewrite Forall_map. eapply Forall_impl; [|exact Hall].
        intros f Hf. cbv beta in *.
        destruct (String.eqb (Bouquet.sel_id f) _); cbn; lia.
      * rewrite (stems_changed 1 _ _ Hnd).
        destruct (existsb _ _); lia.
    + split.
      * rewrite map_app. cbn [map]. apply NoDup_app; [exact Hnd| |].
        { constructor; [intros []|constructor]. }
        intros i Hi [<-|[]]. apply in_map_iff in Hi.
        destruct Hi as (f & Hf & Hin).
        apply (find_none _ _ E) in Hin. cbv beta in Hin.
        unfold Bouquet.sel_id at 2 in Hf. cbn in Hf.
        rewrite Hf, String.eqb_refl in Hin. discriminate Hin.
      * split.
        { apply Forall_app. split; [exact Hall|].
          constructor; [cbn; lia | constructor]. }
        rewrite stems_app. cbn [Bouquet.count]. lia.
  - unfold Bouquet.handleFlowerDeselect.
    unfold bouquet_ok, Bouquet.totalFlowers, Bouquet.maxFlowersOf,
      Bouquet.sizeOption in *.
    cbn [Bouquet.selectedFlowers Bouquet.selectedSize] in *.
    assert (Hfilter : forall g,
      NoDup (map Bouquet.sel_id (filter g (Bouquet.selectedFlowers st))) /\
      Forall (fun f => 1 <= Bouquet.count f)
             (filter g (Bouquet.selectedFlowers st)) /\
      fold_left (fun sum f => sum + Bouquet.count f)
                (filter g (Bouquet.selectedFlowers st)) 0
      <= match
           match Bouquet.selectedSize st with
           | Some s =>
               find (fun o => Bouquet.Size_eqb (Bouquet.id o) s)
                    Bouquet.sizeOptions
           | None => None
           end
         with
         | Some o => Bouquet.maxFlowers o
         | None => 0
         end).
    { intros g. split; [apply NoDup_map_filter; exact Hnd|]. split.
      - apply Forall_forall. intros f Hf. apply filter_In in Hf.
        rewrite Forall_forall in Hall. apply Hall, Hf.
      - pose proof (stems_filter g _ Hall). lia. }
    destruct (find _ (Bouquet.selectedFlowers st)) as [e|] eqn:E;
      [|apply Hfilter].
    destruct (1 <? Bouquet.count e) eqn:Hc; [|apply Hfilter].
    apply Z.ltb_lt in Hc.
    split; [rewrite sel_ids_changed; exact Hnd|]. split.
    + rewrite Forall_map. apply Forall_forall. intros f Hf.
      rewrite Forall_forall in Hall. specialize (Hall f Hf). cbv beta in *.
      destruct (String.eqb_spec (Bouquet.sel_id f) id) as [Ef|Ef];
        [|exact Hall].
      rewrite (find_sel_unique _ _ _ _ Hnd E Hf Ef). cbn. lia.
    + change (fun f : Bouquet.SelectedFlower =>
                if (Bouquet.sel_id f =? id)%string
                then Bouquet.mkSelectedFlower (Bouquet.flower f)
                       (Bouquet.count f - 1)
                else f)
        with (fun f : Bouquet.SelectedFlower =>
                if (Bouquet.sel_id f =? id)%string
                then Bouquet.mkSelectedFlower (Bouquet.flower f)
                       (Bouquet.count f + -1)
                else f).
      rewrite (stems_changed (-1) _ _ Hnd).
      destruct (existsb _ _); lia.
Qed.

(** X28. Whatever the user clicks on the bouquet page (sizes, colours,
    flowers, removals, in any order), the selection holds one entry per
    flower, each with at least one stem, and never more stems than the
    chosen size allows: at most 2, 6 or 12, and none before a size is
    chosen. *)
Theorem bouquet_never_exceeds_size (actions : list Bouquet.Action) :
  let st := Bouquet.run actions in
  bouquet_ok st /\
  Bouquet.totalFlowers st
  <= match Bouquet.selectedSize st with
     | Some Bouquet.small => 2
     | Some Bouquet.medium => 6
     | Some Bouquet.large => 12
     | None => 0
     end.
Proof.
  intros st.
  assert (Hok : bouquet_ok st).
  { subst st. unfold Bouquet.run.
    assert (H0 : bouquet_ok Bouquet.init).
    { split; [constructor|]. split; [constructor | cbn; lia]. }
    revert H0. generalize Bouquet.init as s0.
    induction actions as [|a actions IH]; intros s0 H0; [exact H0|].
    cbn [fold_left]. apply IH, step_keeps_bouquet_ok, H0. }
  split; [exact Hok|].
  destruct Hok as (_ & _ & Hmax).
  unfold Bouquet.maxFlowersOf, Bouquet.sizeOption in Hmax.
  destruct (Bouquet.selectedSize st) as [[| |]|]; exact Hmax.
Qed.

(** X29. The bouquet page adds a product to the cart only for a signed-in
    user who chose a size and a colour and at least one stem; the product
    is priced by the size alone (250, 600 or 1200, whatever the stems and
    the colour), carries the image of the first selected flower, and its
    id is [custom-] followed by the clock reading. *)
Theorem bouquet_added_only_when_complete
  (isLoggedIn : bool) (now : Z) (st : Bouquet.State) (p : Product.t) :
  Bouquet.handleAddToCart isLoggedIn now st = Bouquet.AddedToCart p ->
  isLoggedIn = true /\
  (exists size color first rest,
     Bouquet.selectedSize st = Some size /\
     Bouquet.selectedColor st = Some color /\ truthy color = true /\
     Bouquet.selectedFlowers st = first :: rest /\
     Product.price p = match size with
                       | Bouquet.small => 250
                       | Bouquet.medium => 600
                       | Bouquet.large => 1200
                       end /\
     Product.image p = Some (Bouquet.image (Bouquet.flower first))) /\
  Product.id p = ("custom-" ++ String_of_Z now)%string.
Proof.
  unfold Bouquet.handleAddToCart, Bouquet.basePrice, Bouquet.sizeOption.
  destruct isLoggedIn; cbn [negb]; [|discriminate].
  destruct (Bouquet.selectedSize st) as [size|] eqn:Es; [|discriminate].
  destruct (Bouquet.selectedColor st) as [color|] eqn:Ec; [|discriminate].
  destruct (truthy color) eqn:Et; cbn [negb]; [|discriminate].
  destruct (Bouquet.selectedFlowers st) as [|first rest] eqn:Ef;
    [discriminate|].
  intros H. injection H as <-. split; [reflexivity|]. split; [|reflexivity].
  exists size, color, first, rest.
  repeat split; try reflexivity; try assumption.
  destruct size; reflexivity.
Qed.

Lemma bouquet_added_only_when_complete_witness :
  let rose := Bouquet.mkFlowerType "rose" "Rose" "rose.png" "classic" true in
  let st := Bouquet.run [Bouquet.ClickSize Bouquet.small;
                         Bouquet.ClickColor "pink";
                         Bouquet.ClickFlower rose] in
  let p := Product.mk "custom-5" "Custom Small Bouquet" 250
             (Some "rose.png") [] None in
  Bouquet.handleAddToCart true 5 st = Bouquet.AddedToCart p /\
  Product.id p = ("custom-" ++ String_of_Z 5)%string.
Proof.
  intros rose st p.
  split; [reflexivity|].
  exact (proj2 (proj2 (bouquet_added_only_when_complete true 5 st p
                         eq_refl))).
Defined.

(* ===================================================================== *)
(** ** Further properties: the cart at sign-in                            *)
(* ===================================================================== *)

Lemma loginCart_is_load answer ps :
  loginCart answer ps = loadCartItems (fetchUserCartResult answer) ps.
Proof.
  unfold loginCart. cbv zeta.
  destruct (fetchUserCartResult answer); reflexivity.
Qed.

(** X30. The cart at sign-in. When the cart query fails, [handleLogin]
    sets an empty cart: a failed read looks like an empty cart. When it
    returns the user's rows, the backend cart mirrored the local cart, and
    the products query returns every product of the cart, the cart that
    [handleLogin] sets has the lines (ids and quantities, in order) of
    that local cart. *)
Theorem login_restores_mirrored_cart
  (w : World) (u : string) (answer : Response (list CartRow.t))
  (products : list DbProduct.t) :
  (error answer <> None ->
   forall ps, loginCart answer ps = []) /\
  (mirrors u w ->
   error answer = None ->
   data answer
   = Some (filter (fun row => String.eqb (CartRow.user_id row) u)
                  (Remote.carts (remote w))) ->
   (forall item, In item (cartItems w) ->
      existsb (fun p => String.eqb (DbProduct.id p) (item_id item)) products
      = true) ->
   cartLines (loginCart answer (Some products)) = cartLines (cartItems w)).
Proof.
  split.
  - intros He ps. unfold loginCart, fetchUserCartResult.
    destruct (error answer); [reflexivity | contradiction].
  - intros Hm He Hd Hall. rewrite loginCart_is_load, loadCartItems_lines.
    unfold fetchUserCartResult. rewrite He, Hd. cbn [nullish].
    unfold mirrors, remoteLines in Hm. rewrite Hm. f_equal.
    set (rows := filter _ (Remote.carts (remote w))) in *.
    assert (Hrows : forall row, In row rows ->
              existsb (fun p => String.eqb (DbProduct.id p)
                                  (CartRow.product_id row)) products = true).
    { intros row Hin.
      assert (Hl : In (CartRow.product_id row, CartRow.quantity row)
                      (cartLines (cartItems w))).
      { rewrite Hm. apply (in_map (fun r => (CartRow.product_id r,
                                             CartRow.quantity r))), Hin. }
      unfold cartLines in Hl. apply in_map_iff in Hl.
      destruct Hl as (item & Heq & Hitem). injection Heq as Hid _.
      rewrite <- Hid. apply Hall, Hitem. }
    clear -Hrows. induction rows as [|r rows IH]; [reflexivity|].
    cbn [filter]. rewrite (Hrows r (or_introl eq_refl)). f_equal.
    apply IH. intros row Hin. apply Hrows. right. exact Hin.
Qed.

Lemma login_restores_mirrored_cart_witness :
  let w := Sample.world (Some "u1") Sample.obliging in
  let answer :=
    mkResponse (Some [CartRow.mk "u1" "A" 2; CartRow.mk "u1" "B" 1]) None in
  let products :=
    [DbProduct.mk "A" "Roses" 120 None None None;
     DbProduct.mk "B" "Tulips" 30 None None None] in
  cartLines (loginCart answer (Some products)) = cartLines (cartItems w).
Proof.
  intros w answer products.
  apply (proj2 (login_restores_mirrored_cart w "u1" answer products));
    try reflexivity.
  intros item [<-|[<-|[]]]; reflexivity.
Defined.
